(** * The Nessus plugin of Minion: a shallow embedding of
      [minion/plugins/nessus.py] and the properties of its scan workflow.

    The plugin drives the HTTP API of a Nessus server: it logs in, resolves a
    policy, creates and launches a scan, polls until the scan is done, exports
    and downloads the result and turns every CSV row into an issue that it
    reports to Minion.

    The methods of [NessusPlugin] are embedded as functions of a state and
    exception monad.  The state is the plugin object ([self]) together with the
    chronological trace of everything the plugin does to the outside world:
    HTTP exchanges, error-level log entries, sleeps and the calls of
    [report_issue] and [report_finish].  The calls of [self.logger.debug]
    open every method, change nothing and are left out of the trace.

    What lies outside the repository is a parameter of the development (record
    [Runtime]): the remote server, the [repr] of Python containers, and the
    [splitlines] and [csv.reader] of the Python library.  The server answers
    every request; a connection that fails is not part of the model.  Text is
    modelled by [string]; JSON numbers are integers.  [do_configure] fills the
    attributes of the plugin from the configuration and the environment; here
    they are the fields of the record [Plugin]. *)

From Stdlib Require Import ZArith String Ascii List.
From stdpp Require Import base decidable option list strings gmap pretty.

Set Warnings "-register-all".
Local Open Scope Z_scope.
Local Open Scope string_scope.
Local Open Scope list_scope.

(** ** Python values *)

(** What [r.json()] decodes to.  The members of an object are kept as the list
    of its items. *)
Inductive json : Type :=
  | JNull
  | JBool (b : bool)
  | JNum (z : Z)
  | JStr (s : string)
  | JArr (items : list json)
  | JObj (members : list (string * json)).

(** The two things [connect] returns: [r.content] or [r.json()]. *)
Inductive value : Type :=
  | VRaw (content : string)
  | VJson (j : json).

(** The exceptions the code can raise (it has no [raise] and no [try] of its
    own; all of them come from the operations it uses).  A key that a dict
    does not hold is a KeyError, a column that a row does not have an
    IndexError. *)
Inductive exn : Type :=
  | KeyError
  | IndexError
  | TypeError
  | ValueError
  | AttributeError
  | CsvError.

(** Result of a computation: a value, an exception, or a polling loop that was
    still running when the fuel ran out. *)
Inductive outcome (A : Type) : Type :=
  | Ret (a : A)
  | Raise (e : exn)
  | Diverge.
Arguments Ret {A} a.
Arguments Raise {A} e.
Arguments Diverge {A}.

#[global] Instance outcome_ret : MRet outcome := fun A a => Ret a.
#[global] Instance outcome_bind : MBind outcome := fun A B f o =>
  match o with
  | Ret a => f a
  | Raise e => Raise e
  | Diverge => Diverge
  end.

(** [x == 'literal'] for a decoded value [x]. *)
Definition is_str (lit : string) (j : json) : bool :=
  match j with
  | JStr s => bool_decide (s = lit)
  | _ => false
  end.

(** [d[k]] on the items of an object; for a repeated name the last item is
    the one the decoded dict holds. *)
Fixpoint assoc (k : string) (members : list (string * json)) : option json :=
  match members with
  | [] => None
  | (k', v) :: rest =>
      match assoc k rest with
      | Some x => Some x
      | None => if decide (k' = k) then Some v else None
      end
  end.

(** [j[k]] for a string literal [k]: only a dict can be indexed by a string. *)
Definition jget (j : json) (k : string) : outcome json :=
  match j with
  | JObj members =>
      match assoc k members with
      | Some v => Ret v
      | None => Raise KeyError
      end
  | _ => Raise TypeError
  end.

(** [data[k]] on what [connect] returned; indexing raw content by a string is
    a TypeError. *)
Definition vget (v : value) (k : string) : outcome json :=
  match v with
  | VRaw _ => Raise TypeError
  | VJson j => jget j k
  end.

Definition chars (s : string) : list json :=
  (fun c => JStr (String c EmptyString)) <$> list_ascii_of_string s.

(** [for x in j]: a list gives its items, a dict its keys, a string its
    characters; nothing else is iterable. *)
Definition jiter (j : json) : outcome (list json) :=
  match j with
  | JArr items => Ret items
  | JObj members => Ret (JStr <$> remove_dups (members.*1))
  | JStr s => Ret (chars s)
  | _ => Raise TypeError
  end.

(** ['literal' + j]: defined for strings only. *)
Definition str_plus (a : string) (j : json) : outcome string :=
  match j with
  | JStr b => Ret (a +:+ b)
  | _ => Raise TypeError
  end.

(** [j + 'literal']. *)
Definition plus_str (j : json) (b : string) : outcome string :=
  match j with
  | JStr a => Ret (a +:+ b)
  | _ => Raise TypeError
  end.

(** [sub in s] for strings. *)
Fixpoint contains (sub s : string) : bool :=
  String.prefix sub s ||
  match s with
  | EmptyString => false
  | String _ rest => contains sub rest
  end.

(** [row[i]] on a CSV row. *)
Definition row_get (row : list string) (i : nat) : outcome string :=
  match row !! i with
  | Some x => Ret x
  | None => Raise IndexError
  end.

(** *** Dictionaries built by the plugin *)

(** Keys of a Python dict, up to Python's equality of hashable values:
    [True] and [1] are the same key, as are [False] and [0]. *)
Inductive pykey : Type :=
  | KNone
  | KInt (z : Z)
  | KStr (s : string).

#[global] Instance pykey_eq_dec : EqDecision pykey.
Proof. solve_decision. Defined.

#[global] Instance pykey_countable : Countable pykey.
Proof.
  refine (inj_countable'
    (fun k => match k with
              | KNone => inl ()
              | KInt z => inr (inl z)
              | KStr s => inr (inr s)
              end)
    (fun x => match x with
              | inl _ => KNone
              | inr (inl z) => KInt z
              | inr (inr s) => KStr s
              end) _).
  by intros [].
Defined.

(** Lists and dicts are unhashable. *)
Definition to_key (j : json) : option pykey :=
  match j with
  | JNull => Some KNone
  | JBool b => Some (KInt (if b then 1 else 0))
  | JNum z => Some (KInt z)
  | JStr s => Some (KStr s)
  | JArr _ | JObj _ => None
  end.

(** [d[k]] on a dict built by the plugin. *)
Definition dict_getitem (d : gmap pykey json) (k : json) : outcome json :=
  match to_key k with
  | None => Raise TypeError
  | Some k' =>
      match d !! k' with
      | Some v => Ret v
      | None => Raise KeyError
      end
  end.

(** [dict((p[kf], p[vf]) for p in items)]: the pairs are produced and inserted
    one at a time, so a later pair with an equal key overwrites the value. *)
Fixpoint dict_of_items (kf vf : string) (items : list json)
    (d : gmap pykey json) : outcome (gmap pykey json) :=
  match items with
  | [] => Ret d
  | p :: rest =>
      k ← jget p kf;
      v ← jget p vf;
      match to_key k with
      | None => Raise TypeError
      | Some k' => dict_of_items kf vf rest (<[k' := v]> d)
      end
  end.

(** ** Requests, issues and the trace *)

Inductive verb : Type := GET | POST | PUT | DELETE.

(** The arguments of the [requests] call in [connect]; [rq_data] is the value
    handed to [json.dumps] (sent as [params] by GET and as [data] otherwise). *)
Record Request : Type := {
  rq_verb : verb;
  rq_url : string;
  rq_data : json;
  rq_headers : list (string * string);
  rq_verify : bool
}.

(** The response [r]: [json_body] is what [r.json()] returns, [None] when the
    body does not decode (the call then raises a ValueError). *)
Record Response : Type := {
  status_code : Z;
  content : string;
  json_body : option json
}.

Record url_record : Type := { URL : string }.

(** The dict built by [create_issue]. *)
Record Issue : Type := {
  Severity : string;
  Summary : string;
  Description : string;
  URLs : list url_record;
  Ports : list string
}.

(** What the plugin does to the outside world: a request with its response,
    an entry of [self.logger.error], a [time.sleep], and the calls of
    [report_issue] and [report_finish]. *)
Inductive Event : Type :=
  | Http (rq : Request) (r : Response)
  | LogError (msg : string)
  | Sleep (seconds : Z)
  | ReportIssue (issue : Issue)
  | ReportFinish.

(** The requests of a trace, in the order they were sent. *)
Definition requests (tr : list Event) : list Request :=
  omap (fun e => match e with Http rq _ => Some rq | _ => None end) tr.

(** What reached the reporting interface of Minion, in order. *)
Definition reported (tr : list Event) : list Event :=
  List.filter (fun e => match e with
                        | ReportIssue _ | ReportFinish => true
                        | _ => false
                        end) tr.

(** What the plugin relies on and the repository does not contain. *)
Record Runtime : Type := {
  (** the answer of the remote side to a request, given all that happened *)
  server : list Event -> Request -> Response;
  (** ['{0}'.format(v)] for a list or a dict [v] *)
  repr_container : json -> string;
  (** [data.splitlines()] *)
  splitlines : string -> list string;
  (** [csv.reader(rows)] run to its end: the rows it yields and the error it
      raises after them, if any *)
  csv_reader : list string -> list (list string) * option exn
}.

(** The attributes of [self]. *)
Record Plugin : Type := {
  server_url : string;
  _verify : bool;
  _token : json;
  _username : string;
  _password : string;
  configuration : gmap string json;
  trace : list Event
}.

Definition set_token (t : json) (s : Plugin) : Plugin :=
  {| server_url := server_url s; _verify := _verify s; _token := t;
     _username := _username s; _password := _password s;
     configuration := configuration s; trace := trace s |}.

(** The plugin after the events [evs] have happened. *)
Definition extend (s : Plugin) (evs : list Event) : Plugin :=
  {| server_url := server_url s; _verify := _verify s; _token := _token s;
     _username := _username s; _password := _password s;
     configuration := configuration s; trace := trace s ++ evs |}.

Definition record (e : Event) (s : Plugin) : Plugin := extend s [e].

(** ** The monad of the methods *)

Definition M (A : Type) : Type := Plugin -> outcome A * Plugin.

#[global] Instance M_ret : MRet M := fun A a s => (Ret a, s).
#[global] Instance M_bind : MBind M := fun A B f m s =>
  match m s with
  | (Ret a, s') => f a s'
  | (Raise e, s') => (Raise e, s')
  | (Diverge, s') => (Diverge, s')
  end.

(** The value of a key of the configuration, [None] when it is not set. *)
Definition setting (self : Plugin) (k : string) : json :=
  default JNull (configuration self !! k).

Definition lift {A} (o : outcome A) : M A := fun s => (o, s).
Definition get_self : M Plugin := fun s => (Ret s, s).
Definition emit (e : Event) : M unit := fun s => (Ret (), record e s).

(** [self._token = token] *)
Definition put_token (token : json) : M unit :=
  fun s => (Ret (), set_token token s).

Section Nessus.

Context (R : Runtime).

(** ['{0}'.format(v)] *)
Definition format (v : json) : string :=
  match v with
  | JNull => "None"
  | JBool true => "True"
  | JBool false => "False"
  | JNum z => pretty z
  | JStr s => s
  | JArr _ | JObj _ => repr_container R v
  end.

(** [build_url], lines 94 to 95. *)
Definition build_url (self : Plugin) (resource : string) : string :=
  server_url self +:+ resource.

(** The method names [connect] tells apart, lines 111 to 123: anything that
    is not POST, PUT or DELETE is sent by [requests.get]. *)
Definition verb_of (method : string) : verb :=
  if decide (method = "POST") then POST
  else if decide (method = "PUT") then PUT
  else if decide (method = "DELETE") then DELETE
  else GET.

(** The request [connect] puts together, lines 106 to 123: the token of the
    session goes into the [X-Cookie] header. *)
Definition request_for (self : Plugin) (method resource : string)
    (data : json) : Request :=
  {| rq_verb := verb_of method;
     rq_url := build_url self resource;
     rq_data := data;
     rq_headers := [("X-Cookie", "token=" +:+ format (_token self));
                    ("content-type", "application/json")];
     rq_verify := _verify self |}.

(** [requests.post], [.put], [.delete] and [.get]: the exchange is recorded
    with the answer of the server. *)
Definition send (rq : Request) : M Response :=
  fun s => let r := server R (trace s) rq in (Ret r, record (Http rq r) s).

(** [r.json()] *)
Definition json_of (r : Response) : outcome json :=
  match json_body r with
  | Some j => Ret j
  | None => Raise ValueError
  end.

(** [connect], lines 97 to 133.  A status other than 200 is logged, with the
    "error" of the decoded body, and the method goes on to its return. *)
Definition connect (method resource : string) (data : json) : M value :=
  self ← get_self;
  r ← send (request_for self method resource data);
  _ ← (if bool_decide (status_code r ≠ 200) then
         e ← lift (json_of r);
         err ← lift (jget e "error");
         msg ← lift (str_plus "Unexpected response from Nessus" err);
         emit (LogError msg)
       else mret ());
  if contains "download" resource || bool_decide (method = "DELETE")
  then mret (VRaw (content r))
  else j ← lift (json_of r); mret (VJson j).

(** *** Session *)

(** [login], lines 135 to 144. *)
Definition login : M json :=
  self ← get_self;
  let login := JObj [("username", JStr (_username self));
                     ("password", JStr (_password self))] in
  data ← connect "POST" "/session" login;
  token ← lift (vget data "token");
  _ ← put_token token;
  lift (vget data "token").

(** [logout], lines 146 to 151. *)
Definition logout : M unit :=
  _ ← connect "DELETE" "/session" JNull;
  mret ().

(** *** Policies and history *)

(** [get_policies], lines 153 to 164. *)
Definition get_policies : M (gmap pykey json) :=
  data ← connect "GET" "/editor/policy/templates" JNull;
  templates ← lift (vget data "templates");
  items ← lift (jiter templates);
  lift (dict_of_items "title" "uuid" items ∅).

(** [get_history_ids], lines 166 to 176. *)
Definition get_history_ids (sid : json) : M (gmap pykey json) :=
  data ← connect "GET" ("/scans/" +:+ format sid) JNull;
  history ← lift (vget data "history");
  items ← lift (jiter history);
  lift (dict_of_items "uuid" "history_id" items ∅).

(** [get_scan_history], lines 178 to 188. *)
Definition get_scan_history (sid hid : json) : M json :=
  let params := JObj [("history_id", hid)] in
  data ← connect "GET" ("/scans/" +:+ format sid) params;
  lift (vget data "info").

(** *** Scans *)

(** [add], lines 190 to 209. *)
Definition add (name desc targets pid : json) : M json :=
  let scan := JObj [("uuid", pid);
                    ("settings", JObj [("name", name);
                                       ("description", desc);
                                       ("text_targets", targets)])] in
  data ← connect "POST" "/scans" scan;
  lift (vget data "scan").

(** [update], lines 211 to 234; [pid] is [JNull] for the default [pid=None]. *)
Definition update (scan_id name desc targets pid : json) : M value :=
  let settings := JObj [("name", name); ("desc", desc);
                        ("text_targets", targets)] in
  let scan :=
    match pid with
    | JNull => JObj [("settings", settings)]
    | _ => JObj [("settings", settings); ("uuid", pid)]
    end in
  connect "PUT" ("/scans/" +:+ format scan_id) scan.

(** [launch], lines 236 to 245. *)
Definition launch (sid : json) : M json :=
  data ← connect "POST" ("/scans/" +:+ format sid +:+ "/launch") JNull;
  lift (vget data "scan_uuid").

(** [status], lines 247 to 257. *)
Definition status (sid hid : json) : M json :=
  d ← get_scan_history sid hid;
  lift (jget d "status").

(** [export_status], lines 259 to 270. *)
Definition export_status (sid fid : json) : M bool :=
  data ← connect "GET"
    ("/scans/" +:+ format sid +:+ "/export/" +:+ format fid +:+ "/status")
    JNull;
  st ← lift (vget data "status");
  mret (is_str "ready" st).

(** [time.sleep(seconds)] *)
Definition sleep (seconds : Z) : M unit := emit (Sleep seconds).

(** The loop of [export], lines 290 to 291:
    [while self.export_status(sid, fid) is False: time.sleep(5)], with at most
    [fuel] calls of [export_status]. *)
Fixpoint export_wait (fuel : nat) (sid fid : json) : M unit :=
  match fuel with
  | O => lift Diverge
  | S fuel' =>
      ready ← export_status sid fid;
      if (ready : bool) then mret ()
      else _ ← sleep 5; export_wait fuel' sid fid
  end.

(** [export], lines 272 to 293. *)
Definition export (fuel : nat) (sid hid data_format : json) : M json :=
  let data := JObj [("history_id", hid); ("format", data_format)] in
  data ← connect "POST" ("/scans/" +:+ format sid +:+ "/export") data;
  fid ← lift (vget data "file");
  _ ← export_wait fuel sid fid;
  mret fid.

(** [download], lines 295 to 306. *)
Definition download (sid fid : json) : M value :=
  connect "GET"
    ("/scans/" +:+ format sid +:+ "/export/" +:+ format fid +:+ "/download")
    JNull.

(** [delete], lines 389 to 398. *)
Definition delete (sid : json) : M unit :=
  _ ← connect "DELETE" ("/scans/" +:+ format sid) JNull;
  mret ().

(** [history_delete], lines 400 to 409. *)
Definition history_delete (sid hid : json) : M unit :=
  _ ← connect "DELETE"
        ("/scans/" +:+ format sid +:+ "/history/" +:+ format hid) JNull;
  mret ().

(** [get_plugin_info], lines 411 to 414. *)
Definition get_plugin_info (pid : json) : M value :=
  connect "GET" ("/plugins/plugin/" +:+ format pid) JNull.

(** *** From a CSV row to an issue *)

(** [minion_severity], lines 308 to 313. *)
Definition minion_severity (risk : string) : string :=
  if decide (risk = "None") then "Info" else risk.

(** The loop of [_get_plugin_name], lines 318 to 320: the last attribute
    named "plugin_name" gives the name. *)
Fixpoint plugin_name_of (attributes : list json) (name : json) : outcome json :=
  match attributes with
  | [] => Ret name
  | attribute :: rest =>
      n ← jget attribute "attribute_name";
      if is_str "plugin_name" n
      then v ← jget attribute "attribute_value"; plugin_name_of rest v
      else plugin_name_of rest name
  end.

(** [_get_plugin_name], lines 315 to 321; [name] starts as [None]. *)
Definition _get_plugin_name (plugin_info : value) : outcome json :=
  attributes ← vget plugin_info "attributes";
  items ← jiter attributes;
  plugin_name_of items JNull.

(** [_build_description], lines 323 to 326. *)
Definition _build_description (row : list string) (plugin_name : json)
    : outcome string :=
  a ← plus_str plugin_name " ";
  r8 ← row_get row 8;
  r9 ← row_get row 9;
  r10 ← row_get row 10;
  r12 ← row_get row 12;
  mret (a +:+ r8 +:+ " " +:+ r9 +:+ " " +:+ r10 +:+ " " +:+ r12).

(** [create_issue], lines 328 to 353. *)
Definition create_issue (row : list string) (plugin_info : value)
    : outcome Issue :=
  plugin_name ← _get_plugin_name plugin_info;
  risk ← row_get row 3;
  summary ← row_get row 8;
  description ← _build_description row plugin_name;
  h ← row_get row 4;
  p ← row_get row 6;
  port ← row_get row 6;
  mret {| Severity := minion_severity risk;
          Summary := summary;
          Description := description;
          URLs := [ {| URL := h +:+ ":" +:+ p |} ];
          Ports := [port] |}.

(** [report_issue] and [report_finish] are inherited from [BlockingPlugin]:
    they hand their argument to Minion. *)
Definition report_issue (issue : Issue) : M unit := emit (ReportIssue issue).
Definition report_finish : M unit := emit ReportFinish.

(** The loop of [parse_csv_data], lines 380 to 385, over the rows the reader
    yields; [plugins] is the dict of the plugin metadata fetched so far. *)
Fixpoint parse_rows (rows : list (list string)) (plugins : gmap string value)
    : M (gmap string value) :=
  match rows with
  | [] => mret plugins
  | row :: rest =>
      r0 ← lift (row_get row 0);
      if decide (r0 = "Plugin ID") then parse_rows rest plugins
      else
        plugins ← match plugins !! r0 with
                  | None =>
                      info ← get_plugin_info (JStr r0);
                      mret (<[r0 := info]> plugins)
                  | Some _ => mret plugins
                  end;
        info ← lift (match plugins !! r0 with
                     | Some info => Ret info
                     | None => Raise KeyError
                     end);
        issue ← lift (create_issue row info);
        _ ← report_issue issue;
        parse_rows rest plugins
  end.

(** [data.splitlines()]: strings have the method, raw or decoded. *)
Definition lines_of (data : value) : outcome (list string) :=
  match data with
  | VRaw s => Ret (splitlines R s)
  | VJson (JStr s) => Ret (splitlines R s)
  | VJson _ => Raise AttributeError
  end.

(** [parse_csv_data], lines 355 to 387.  The list [issues] is created and
    returned; nothing is appended to it in between. *)
Definition parse_csv_data (data : value) : M (list Issue) :=
  rows ← lift (lines_of data);
  let issues : list Issue := [] in
  let '(yielded, failure) := csv_reader R rows in
  _ ← parse_rows yielded ∅;
  _ ← lift (match failure with
            | Some e => Raise e
            | None => Ret ()
            end);
  _ ← report_finish;
  mret issues.

(** *** The run *)

(** [self.configuration.get(k)]: [None] for a key that is not set. *)
Definition config_get (k : string) : M json :=
  self ← get_self;
  mret (setting self k).

(** The loop of [do_run], lines 41 to 42:
    [while self.status(scan_id, history_id) != 'completed': time.sleep(5)],
    with at most [fuel] calls of [status]. *)
Fixpoint status_wait (fuel : nat) (scan_id history_id : json) : M unit :=
  match fuel with
  | O => lift Diverge
  | S fuel' =>
      st ← status scan_id history_id;
      if is_str "completed" st then mret ()
      else _ ← sleep 5; status_wait fuel' scan_id history_id
  end.

(** [do_run], lines 23 to 46. *)
Definition do_run (fuel : nat) : M unit :=
  _ ← login;
  policies ← get_policies;
  policy_name ← config_get "policy";
  target_name ← config_get "target";
  scan_name ← config_get "scan_name";
  scan_description ← config_get "scan_description";
  policy_id ← lift (dict_getitem policies policy_name);
  scan_data ← add scan_name scan_description target_name policy_id;
  scan_id ← lift (jget scan_data "id");
  scan_uuid ← launch scan_id;
  history_ids ← get_history_ids scan_id;
  history_id ← lift (dict_getitem history_ids scan_uuid);
  _ ← status_wait fuel scan_id history_id;
  file_id ← export fuel scan_id history_id (JStr "csv");
  data ← download scan_id file_id;
  _ ← parse_csv_data data;
  mret ().

End Nessus.

(** ** A runtime to run the plugin on

    The worked examples below run the plugin against a server that answers
    from a script, with the line splitting of Python's byte strings and the
    default ("excel") dialect of [csv.reader]. *)

Module Py.

(** [str.splitlines()]: a line ends at [\n], [\r] or [\r\n], and the
    ends are dropped. *)
Fixpoint splitlines_from (s : string) (line : string) : list string :=
  match s with
  | EmptyString => if decide (line = "") then [] else [line]
  | String c rest =>
      if decide (c = "010"%char) then line :: splitlines_from rest ""
      else if decide (c = "013"%char) then
        match rest with
        | String c' rest' =>
            if decide (c' = "010"%char) then line :: splitlines_from rest' ""
            else line :: splitlines_from rest ""
        | EmptyString => [line]
        end
      else splitlines_from rest (line +:+ String c "")
  end.

Definition str_splitlines (s : string) : list string := splitlines_from s "".

(** The states of the reader of the [csv] module that lines without line
    breaks can reach. *)
Inductive csv_state : Type :=
  | START_RECORD
  | START_FIELD
  | IN_FIELD
  | IN_QUOTED_FIELD
  | QUOTE_IN_QUOTED_FIELD.

Definition add_char (field : string) (c : ascii) : string :=
  field +:+ String c "".

(** One character of a line: fields are separated by commas and quoted by
    double quotes, a quote inside a quoted field is written twice, and the
    reader is not strict. *)
Definition csv_char (c : ascii) (st : csv_state) (field : string)
    (fields : list string) : csv_state * string * list string :=
  let quote := "034"%char in
  let comma := ","%char in
  match st with
  | START_RECORD | START_FIELD =>
      if decide (c = quote) then (IN_QUOTED_FIELD, field, fields)
      else if decide (c = comma) then (START_FIELD, "", fields ++ [field])
      else (IN_FIELD, add_char field c, fields)
  | IN_FIELD =>
      if decide (c = comma) then (START_FIELD, "", fields ++ [field])
      else (IN_FIELD, add_char field c, fields)
  | IN_QUOTED_FIELD =>
      if decide (c = quote) then (QUOTE_IN_QUOTED_FIELD, field, fields)
      else (IN_QUOTED_FIELD, add_char field c, fields)
  | QUOTE_IN_QUOTED_FIELD =>
      if decide (c = quote) then (IN_QUOTED_FIELD, add_char field c, fields)
      else if decide (c = comma) then (START_FIELD, "", fields ++ [field])
      else (IN_FIELD, add_char field c, fields)
  end.

Fixpoint csv_line (cs : list ascii) (st : csv_state) (field : string)
    (fields : list string) : csv_state * string * list string :=
  match cs with
  | [] => (st, field, fields)
  | c :: rest =>
      let '(st', field', fields') := csv_char c st field fields in
      csv_line rest st' field' fields'
  end.

(** The records of a list of lines: an empty line is an empty record, and a
    quoted field left open runs on into the next line. *)
Fixpoint csv_records (lines : list string) (st : csv_state) (field : string)
    (fields : list string) : list (list string) :=
  match lines with
  | [] =>
      match st with
      | IN_QUOTED_FIELD => [fields ++ [field]]
      | _ => []
      end
  | line :: rest =>
      let '(st', field', fields') :=
        csv_line (list_ascii_of_string line) st field fields in
      match st' with
      | START_RECORD => [] :: csv_records rest START_RECORD "" []
      | IN_QUOTED_FIELD => csv_records rest IN_QUOTED_FIELD field' fields'
      | _ => (fields' ++ [field']) :: csv_records rest START_RECORD "" []
      end
  end.

(** The reader raises on a NUL byte and on a field beyond its size limit
    only; the lines of the examples have neither. *)
Definition reader (lines : list string)
    : list (list string) * option exn :=
  (csv_records lines START_RECORD "" [], None).

(** The server answers the n-th request with the n-th response of the
    script, and with an empty 404 once the script is over. *)
Definition not_found : Response :=
  {| status_code := 404; content := ""; json_body := None |}.

Definition scripted (script : list Response)
    : list Event -> Request -> Response :=
  fun tr _ => nth (length (requests tr)) script not_found.

(** No example formats a list or a dict. *)
Definition runtime (script : list Response) : Runtime :=
  {| server := scripted script;
     repr_container := fun _ => "";
     splitlines := str_splitlines;
     csv_reader := reader |}.

(** A response with status 200 whose body decodes to [j]. *)
Definition ok (body : string) (j : json) : Response :=
  {| status_code := 200; content := body; json_body := Some j |}.

(** A plugin that is configured and has not logged in. *)
Definition plugin (cfg : list (string * json)) : Plugin :=
  {| server_url := "https://nessus:8834"; _verify := true;
     _token := JStr ""; _username := "u"; _password := "p";
     configuration := list_to_map cfg; trace := [] |}.

End Py.

(** ** What the properties are stated with *)

(** The state a method leaves, and whether it returns. *)
Definition after {A} (m : M A) (s : Plugin) : Plugin := (m s).2.

Definition returns {A} (m : M A) (s : Plugin) : bool :=
  match (m s).1 with
  | Ret _ => true
  | _ => false
  end.

(** *** The transport *)

(** The reading of the specification: a status other than 200 makes the
    request raise, so that its caller gets nothing back. *)
Definition connect_raises_on_failure : Prop :=
  forall R method resource data s,
    status_code (server R (trace s) (request_for R s method resource data))
      ≠ 200 ->
    exists e, (connect R method resource data s).1 = Raise e.

(** *** Listings *)

(** Entries of a listing whose field [kf] is not the key [k]. *)
Definition other_key (kf : string) (k : pykey) (p : json) : Prop :=
  forall t, jget p kf = Ret t -> to_key t ≠ Some k.

(** *** The stages of [do_run] *)

(** [do_run] from line 44 on: the export, the download and the transform. *)
Definition do_run_export (R : Runtime) (fuel : nat) (scan_id history_id : json)
    : M unit :=
  file_id ← export R fuel scan_id history_id (JStr "csv");
  data ← download R scan_id file_id;
  _ ← parse_csv_data R data;
  mret ().

(** [do_run] from line 41 on, once the history id is chosen: the polling loop
    and what follows it. *)
Definition do_run_scan (R : Runtime) (fuel : nat) (scan_id history_id : json)
    : M unit :=
  _ ← status_wait R fuel scan_id history_id;
  do_run_export R fuel scan_id history_id.

(** [do_run] from line 34 on, once the policy id is chosen. *)
Definition do_run_policy (R : Runtime) (fuel : nat)
    (scan_name scan_description target_name policy_id : json) : M unit :=
  scan_data ← add R scan_name scan_description target_name policy_id;
  scan_id ← lift (jget scan_data "id");
  scan_uuid ← launch R scan_id;
  history_ids ← get_history_ids R scan_id;
  history_id ← lift (dict_getitem history_ids scan_uuid);
  do_run_scan R fuel scan_id history_id.


(** What can happen while the plugin polls with the request [rq]: the request
    itself, an entry in the log, a sleep of five seconds. *)
Definition poll_event (rq : Request) (e : Event) : Prop :=
  match e with
  | Http rq' _ => rq' = rq
  | LogError _ => True
  | Sleep seconds => seconds = 5
  | ReportIssue _ | ReportFinish => False
  end.

(** The request [export] sends: a POST with the history id and the format. *)
Definition is_export (e : Event) : bool :=
  match e with
  | Http rq _ =>
      match rq_verb rq, rq_data rq with
      | POST, JObj [(k1, _); (k2, _)] =>
          bool_decide (k1 = "history_id") && bool_decide (k2 = "format")
      | _, _ => false
      end
  | _ => false
  end.

(** A poll of the status of a run whose answer says "completed". *)
Definition is_completed (e : Event) : bool :=
  match e with
  | Http rq r =>
      match rq_verb rq, rq_data rq, json_body r with
      | GET, JObj [(k, _)], Some j =>
          bool_decide (k = "history_id") &&
          match jget j "info" ≫= (fun d => jget d "status") with
          | Ret st => is_str "completed" st
          | _ => false
          end
      | _, _, _ => false
      end
  | _ => false
  end.


(** A method whose events all satisfy [P]; it adds them to the trace and
    takes none away. *)
Definition emits {A} (P : Event -> Prop) (m : M A) : Prop :=
  forall s o s', m s = (o, s') ->
    exists evs, trace s' = trace s ++ evs /\ Forall P evs.



(** *** Rows and issues *)

(** The issue [create_issue] builds from the fields of a row and the name of
    its plugin. *)
Definition issue_of (name risk host port synopsis description solution
    output : string) : Issue :=
  {| Severity := minion_severity risk;
     Summary := synopsis;
     Description := name +:+ " " +:+ synopsis +:+ " " +:+ description
                      +:+ " " +:+ solution +:+ " " +:+ output;
     URLs := [ {| URL := host +:+ ":" +:+ port |} ];
     Ports := [port] |}.

(** The rows the transform skips: their first column is "Plugin ID". *)
Definition is_header (row : list string) : Prop :=
  row !! 0%nat = Some "Plugin ID".

#[global] Instance is_header_dec row : Decision (is_header row).
Proof. unfold is_header. apply _. Defined.

Definition data_rows (rows : list (list string)) : list (list string) :=
  filter (fun row => ~ is_header row) rows.

(** [issue] is what [create_issue] makes of [row], with some metadata. *)
Definition built (row : list string) (issue : Issue) : Prop :=
  exists plugin_info, create_issue row plugin_info = Ret issue.

(** The request of [get_plugin_info] for the plugin [id]. *)
Definition fetch_for (R : Runtime) (s : Plugin) (id : string) : Request :=
  request_for R s "GET" ("/plugins/plugin/" +:+ id) JNull.

(** Metadata from which [create_issue] gets a plugin name. *)
Definition named (plugin_info : value) : Prop :=
  exists name, _get_plugin_name plugin_info = Ret (JStr name).

(** A response to a metadata request that is a success and names the
    plugin. *)
Definition names_plugin (r : Response) : Prop :=
  status_code r = 200 /\
  exists j, json_body r = Some j /\ named (VJson j).

(** A data row with the thirteen columns of the export, whose plugin id does
    not make the metadata request look like a download to [connect]. *)
Definition complete_row (row : list string) : Prop :=
  (13 <= length row)%nat /\
  forall id, row !! 0%nat = Some id -> contains "download" id = false.

(** ** Servers, exports and runs for the examples *)

(** A login that the server refuses. *)
Definition refused : Response :=
  {| status_code := 401;
     content := "Invalid Credentials";
     json_body := Some (JObj [("error", JStr "Invalid Credentials")]) |}.

Definition credentials : json :=
  JObj [("username", JStr "u"); ("password", JStr "p")].

(** A catalog in which one title comes twice. *)
Definition catalog : json :=
  JObj [("templates",
    JArr [JObj [("title", JStr "Basic Network Scan"); ("uuid", JStr "old")];
          JObj [("title", JStr "Web Application Tests"); ("uuid", JStr "web")];
          JObj [("title", JStr "Basic Network Scan"); ("uuid", JStr "new")]])].

(** A scan whose run is aborted and canceled before it is reported as
    completed. *)
Definition info (st : string) : Response :=
  Py.ok "" (JObj [("info", JObj [("status", JStr st)])]).

Definition stubborn : list Response :=
  [info "aborted"; info "canceled"; info "completed"].

(** A row of an export, with the thirteen columns of the format, and the
    metadata of its plugin. *)
Definition kerberos_row (host risk : string) : list string :=
  ["10114"; ""; ""; risk; host; "tcp"; "88"; "Kerberos Detection";
   "A Kerberos server is listening."; "The remote host runs Kerberos.";
   "n/a"; "http://example.org"; "Heimdal"].

Definition kerberos_info : value :=
  VJson (JObj [("attributes",
    JArr [JObj [("attribute_name", JStr "plugin_name");
                ("attribute_value", JStr "Kerberos Information Disclosure")];
          JObj [("attribute_name", JStr "risk_factor");
                ("attribute_value", JStr "Low")]])]).

Definition metadata (name : string) : Response :=
  Py.ok "" (JObj [("attributes",
    JArr [JObj [("attribute_name", JStr "plugin_name");
                ("attribute_value", JStr name)]])]).

Definition lf : string := String "010"%char "".

Definition export_header : string :=
  "Plugin ID,CVE,CVSS,Risk,Host,Protocol,Port,Name,Synopsis,Description,Solution,See Also,Plugin Output".

Definition kerberos_line (host : string) : string :=
  "10114,,,Low," +:+ host +:+ ",tcp,88,Kerberos,syn,descr,sol,see,out".

(** The configuration and the script of a complete run: a policy that the
    catalog holds, scan 42, run "run-1" with history id 7, a scan that is
    first running and then completed, export file 9 that is first loading
    and then ready, and an export of one row. *)
Definition e2e_cfg : list (string * json) :=
  [("policy", JStr "Basic Network Scan"); ("target", JStr "10.0.0.1");
   ("scan_name", JStr "nightly"); ("scan_description", JStr "d")].

Definition e2e_script : list Response :=
  [Py.ok "" (JObj [("token", JStr "tok")]);
   Py.ok "" (JObj [("templates",
     JArr [JObj [("title", JStr "Basic Network Scan");
                 ("uuid", JStr "abc-123")]])]);
   Py.ok "" (JObj [("scan", JObj [("id", JNum 42)])]);
   Py.ok "" (JObj [("scan_uuid", JStr "run-1")]);
   Py.ok "" (JObj [("history",
     JArr [JObj [("uuid", JStr "run-1"); ("history_id", JNum 7)]])]);
   info "running";
   info "completed";
   Py.ok "" (JObj [("file", JNum 9)]);
   Py.ok "" (JObj [("status", JStr "loading")]);
   Py.ok "" (JObj [("status", JStr "ready")]);
   Py.ok (export_header +:+ lf +:+ kerberos_line "10.0.1.1" +:+ lf) JNull;
   metadata "Kerberos Information Disclosure"].

(** An export with two rows of the same plugin, one for each host, and a
    server that answers every request with the metadata of that plugin. *)
Definition two_hosts : string :=
  export_header +:+ lf +:+ kerberos_line "10.0.1.1" +:+ lf
    +:+ kerberos_line "10.0.1.2" +:+ lf.

Definition kerberos_issue (host : string) : Issue :=
  {| Severity := "Low";
     Summary := "syn";
     Description := "Kerberos Information Disclosure syn descr sol out";
     URLs := [ {| URL := host +:+ ":88" |} ];
     Ports := ["88"] |}.

Definition kerberos_server : Runtime :=
  {| server := fun _ _ => metadata "Kerberos Information Disclosure";
     repr_container := fun _ => "";
     splitlines := Py.str_splitlines;
     csv_reader := Py.reader |}.

(** An export whose only data row stops after the risk column. *)
Definition short_export : string :=
  export_header +:+ lf +:+ "10114,,,Low" +:+ lf.

(** ** Further behaviour of the methods *)

(** *** Responses for the examples *)

(** A success whose body is empty, as a DELETE gets it. *)
Definition no_content : Response :=
  {| status_code := 200; content := ""; json_body := None |}.

(** A failure whose body decodes but holds no "error". *)
Definition missing : Response :=
  {| status_code := 404;
     content := "not found";
     json_body := Some (JObj [("message", JStr "not found")]) |}.

(** A refusal to delete, with the message of the server. *)
Definition forbidden : Response :=
  {| status_code := 403;
     content := "forbidden";
     json_body := Some (JObj [("error", JStr "forbidden")]) |}.

(** A run of the loop of [export]: [n] polls that did not find the export
    ready, each followed by a sleep of five seconds, and one that did. *)
Inductive export_polled (R : Runtime) (sid fid : json)
    : Plugin -> nat -> Plugin -> Prop :=
  | export_ready s s' :
      export_status R sid fid s = (Ret true, s') ->
      export_polled R sid fid s 0 s'
  | export_again s s1 n s' :
      export_status R sid fid s = (Ret false, s1) ->
      export_polled R sid fid (record (Sleep 5) s1) n s' ->
      export_polled R sid fid s (S n) s'.

(** An export that is loading when it is polled first. *)
Definition export_script : list Response :=
  [Py.ok "" (JObj [("file", JNum 9)]);
   Py.ok "" (JObj [("status", JStr "loading")]);
   Py.ok "" (JObj [("status", JStr "ready")])].

(** The details of a run without a status. *)
Definition no_status : Response :=
  Py.ok "" (JObj [("info", JObj [("name", JStr "nightly")])]).

(** *** Entries of a listing *)

(** An entry from which [dict] gets a pair: it has both fields, and the first
    can be a key. *)
Definition entry_ok (kf vf : string) (p : json) : Prop :=
  exists t v k, jget p kf = Ret t /\ jget p vf = Ret v /\ to_key t = Some k.

(** An entry whose field [kf] is the key [k]. *)
Definition has_key (kf : string) (k : pykey) (p : json) : Prop :=
  exists t, jget p kf = Ret t /\ to_key t = Some k.

(** A catalog with an entry that has lost its uuid. *)
Definition torn_catalog : json :=
  JObj [("templates",
    JArr [JObj [("title", JStr "Basic Network Scan"); ("uuid", JStr "abc")];
          JObj [("title", JStr "Web Application Tests")]])].

(** *** Attributes of a plugin *)

(** An attribute that is not the name of the plugin. *)
Definition other_attribute (p : json) : Prop :=
  exists n, jget p "attribute_name" = Ret n /\ n ≠ JStr "plugin_name".

(** Metadata with two names, and metadata without one. *)
Definition renamed_body : json :=
  JObj [("attributes",
    JArr [JObj [("attribute_name", JStr "plugin_name");
                ("attribute_value", JStr "Kerberos")];
          JObj [("attribute_name", JStr "plugin_name");
                ("attribute_value", JStr "Kerberos Information Disclosure")];
          JObj [("attribute_name", JStr "risk_factor");
                ("attribute_value", JStr "Low")]])].

Definition nameless_body : json :=
  JObj [("attributes",
    JArr [JObj [("attribute_name", JStr "risk_factor");
                ("attribute_value", JStr "Low")]])].

(** *** The cache of a pass *)

(** [issue] is what [create_issue] makes of [row] with the metadata that
    [cache] holds for the plugin of the row. *)
Definition built_with (cache : gmap string value) (row : list string)
    (issue : Issue) : Prop :=
  exists id plugin_info,
    row !! 0%nat = Some id /\ cache !! id = Some plugin_info /\
    create_issue row plugin_info = Ret issue.

(** An export of a header alone, and an export whose second data row is
    short. *)
Definition header_only : string := export_header +:+ lf.

Definition second_short : string :=
  export_header +:+ lf +:+ kerberos_line "10.0.1.1" +:+ lf
    +:+ "10114,,,Low" +:+ lf.

(** A server that renames the plugin after its first answer. *)
Definition renaming_server : Runtime :=
  Py.runtime [metadata "Kerberos"; metadata "Heimdal"].

(** *** Whole runs *)

(** [do_run] from line 27 on, once the plugin has logged in. *)
Definition do_run_session (R : Runtime) (fuel : nat) : M unit :=
  policies ← get_policies R;
  policy_name ← config_get "policy";
  target_name ← config_get "target";
  scan_name ← config_get "scan_name";
  scan_description ← config_get "scan_description";
  policy_id ← lift (dict_getitem policies policy_name);
  do_run_policy R fuel scan_name scan_description target_name policy_id.

(** A method that keeps the token [t] of the session and whose events all
    satisfy [P]. *)
Definition keeps {A} (t : json) (P : Event -> Prop) (m : M A) : Prop :=
  forall s o s', _token s = t -> m s = (o, s') ->
    _token s' = t /\
    exists evs, trace s' = trace s ++ evs /\ Forall P evs.

(** A request sent by GET or by POST; other events pass. *)
Definition reads_or_posts (e : Event) : Prop :=
  match e with
  | Http rq _ => rq_verb rq = GET \/ rq_verb rq = POST
  | _ => True
  end.

(** A request that carries the token [t] in its header; other events pass. *)
Definition carries (R : Runtime) (t : json) (e : Event) : Prop :=
  match e with
  | Http rq _ =>
      rq_headers rq = [("X-Cookie", "token=" +:+ format R t);
                       ("content-type", "application/json")]
  | _ => True
  end.

(** An event that is no call of [report_issue] or [report_finish]. *)
Definition no_report (e : Event) : Prop :=
  match e with
  | ReportIssue _ | ReportFinish => False
  | _ => True
  end.

(** What a method that reads [key] leaves when the answer to its request [rq]
    is the refusal [r], with the message [msg], and holds no such key. *)
Definition key_error_after {A} (rq : Request) (r : Response) (msg : string)
    (s : Plugin) : outcome A * Plugin :=
  (Raise KeyError,
   extend s [Http rq r; LogError ("Unexpected response from Nessus" +:+ msg)]).

(** *** What the run resolves *)

(** An attribute the loop of [_get_plugin_name] passes: it has a name, and a
    value when the name is "plugin_name". *)
Definition passable_attribute (p : json) : Prop :=
  exists n, jget p "attribute_name" = Ret n /\
    (n = JStr "plugin_name" -> exists v, jget p "attribute_value" = Ret v).

(** Metadata that are a decoded object whose "attributes" are a list in
    which the last attribute named "plugin_name" has the string [name] for a
    value. *)
Definition plugin_named (plugin_info : value) (name : string) : Prop :=
  exists body before attribute after,
    plugin_info = VJson body /\
    jget body "attributes" = Ret (JArr (before ++ attribute :: after)) /\
    Forall passable_attribute before /\
    jget attribute "attribute_name" = Ret (JStr "plugin_name") /\
    jget attribute "attribute_value" = Ret (JStr name) /\
    Forall other_attribute after.

(** An event that names no history id: a request without data, or no request
    at all. *)
Definition no_history_id (e : Event) : Prop :=
  match e with
  | Http rq _ => rq_data rq = JNull
  | _ => True
  end.

(** A method whose reports are those of one pass of [parse_csv_data] over
    data that [download] has returned, and which reports the run as finished
    exactly when it returns: its events are those [before] the pass, none of
    them a report, and those of the [pass]. *)
Definition finishes (R : Runtime) {A} (m : M A) : Prop :=
  forall s o s', m s = (o, s') ->
    exists before pass issues,
      trace s' = trace s ++ before ++ pass /\
      Forall no_report before /\
      reported pass =
        (ReportIssue <$> issues) ++
        match o with
        | Ret _ => [ReportFinish]
        | _ => []
        end /\
      ((pass = [] /\ forall v, o ≠ Ret v) \/
       exists sid fid s1 data s2 o',
         download R sid fid s1 = (Ret data, s2) /\
         trace s2 = trace s ++ before /\
         parse_csv_data R data s2 = (o', s')).

(** The script of a run whose history listing does not hold the run that was
    launched. *)
Definition lost_run_script : list Response :=
  take 4 e2e_script ++
  [Py.ok "" (JObj [("history",
     JArr [JObj [("uuid", JStr "run-0"); ("history_id", JNum 6)]])])].

(** * Properties *)

(** ** Facts about the monad and the trace *)

Lemma append_assoc (a b c : string) : (a +:+ b) +:+ c = a +:+ b +:+ c.
Proof.
  induction a as [|x a IH]; [done|].
  change (String x ((a +:+ b) +:+ c) = String x (a +:+ b +:+ c)).
  by rewrite IH.
Qed.

Lemma extend_nil s : extend s [] = s.
Proof. destruct s. unfold extend. simpl. by rewrite app_nil_r. Qed.

Lemma extend_extend s a b : extend (extend s a) b = extend s (a ++ b).
Proof. unfold extend. simpl. by rewrite app_assoc. Qed.

Lemma requests_app a b : requests (a ++ b) = requests a ++ requests b.
Proof. unfold requests. apply omap_app. Qed.

Lemma reported_app a b : reported (a ++ b) = reported a ++ reported b.
Proof. unfold reported. apply List.filter_app. Qed.

Section Bind.

Context {A B : Type} (m : M A) (k : A -> M B) (s s1 : Plugin).

Lemma bind_ret a : m s = (Ret a, s1) -> (m ≫= k) s = k a s1.
Proof. intros H. unfold mbind, M_bind. by rewrite H. Qed.

Lemma bind_raise e : m s = (Raise e, s1) -> (m ≫= k) s = (Raise e, s1).
Proof. intros H. unfold mbind, M_bind. by rewrite H. Qed.

Lemma bind_diverge : m s = (Diverge, s1) -> (m ≫= k) s = (Diverge, s1).
Proof. intros H. unfold mbind, M_bind. by rewrite H. Qed.

(** A sequence ends where its first part fails, or goes on from the state
    the first part leaves. *)
Lemma bind_inv o :
  (m ≫= k) s = (o, s1) ->
  (exists a s', m s = (Ret a, s') /\ k a s' = (o, s1)) \/
  (exists e, m s = (Raise e, s1) /\ o = Raise e) \/
  (m s = (Diverge, s1) /\ o = Diverge).
Proof.
  unfold mbind, M_bind. destruct (m s) as [[a|e|] s'] eqn:E; intros H.
  - left. eauto.
  - right. left. exists e. by simplify_eq.
  - right. right. by simplify_eq.
Qed.

End Bind.

Lemma lift_eq {A} (o : outcome A) s : lift o s = (o, s).
Proof. done. Qed.

Lemma returns_eq {A} (m : M A) s :
  returns m s = true -> exists a, m s = (Ret a, after m s).
Proof.
  unfold returns, after. destruct (m s) as [[a| |] s']; simpl; try done.
  intros _. by exists a.
Qed.

(** The pure operations raise or return; only a loop can run out of fuel. *)
Lemma jget_total j k : jget j k <> Diverge.
Proof. unfold jget. by repeat case_match. Qed.

Lemma error_message_total e :
  jget e "error" ≫= str_plus "Unexpected response from Nessus" <> Diverge.
Proof.
  unfold mbind, outcome_bind, str_plus. pose proof (jget_total e "error").
  by repeat case_match.
Qed.

(** ** The transport: [connect] *)

Section Connect.

Context (R : Runtime).

(** What [connect] does once the server has answered. *)
Lemma connect_unfold method resource data s :
  let rq := request_for R s method resource data in
  let r := server R (trace s) rq in
  let raw := contains "download" resource || bool_decide (method = "DELETE") in
  connect R method resource data s =
    if bool_decide (status_code r ≠ 200) then
      match json_body r with
      | None => (Raise ValueError, extend s [Http rq r])
      | Some e =>
          match jget e "error" ≫= str_plus "Unexpected response from Nessus" with
          | Ret msg =>
              (Ret (if raw then VRaw (content r) else VJson e),
               extend s [Http rq r; LogError msg])
          | Raise x => (Raise x, extend s [Http rq r])
          | Diverge => (Diverge, extend s [Http rq r])
          end
      end
    else
      if raw then (Ret (VRaw (content r)), extend s [Http rq r])
      else match json_body r with
           | Some j => (Ret (VJson j), extend s [Http rq r])
           | None => (Raise ValueError, extend s [Http rq r])
           end.
Proof.
  intros rq r raw. unfold connect, get_self, send, lift, emit, json_of.
  unfold mbind, M_bind, mret, M_ret, record. fold rq. fold r. fold raw.
  destruct (bool_decide (status_code r ≠ 200)).
  - destruct (json_body r) as [e|]; [|done].
    unfold outcome_bind. destruct (jget e "error") as [err| |]; [|done..].
    destruct (str_plus _ err) as [msg| |]; [|done..].
    rewrite extend_extend. simpl. by destruct raw.
  - destruct raw; [done|]. by destruct (json_body r).
Qed.

(** Whatever the answer, [connect] sends exactly one request, logs at most
    one entry and leaves the attributes of the plugin as they are; a decoded
    body it returns is the body of the response. *)
Lemma connect_events method resource data s o s' :
  connect R method resource data s = (o, s') ->
  let rq := request_for R s method resource data in
  let r := server R (trace s) rq in
  exists evs, s' = extend s evs /\
    (evs = [Http rq r] \/ exists msg, evs = [Http rq r; LogError msg]) /\
    o <> Diverge /\
    forall j, o = Ret (VJson j) -> json_body r = Some j.
Proof.
  rewrite connect_unfold. simpl.
  repeat case_match; intros [= <- <-];
    try (by edestruct error_message_total);
    eexists; (split; [reflexivity|]); split_and!; eauto; try discriminate;
    by intros ? [= ->].
Qed.

End Connect.

(** *** C1: responses that report a failure *)

(** C1, amended.  For a response whose status code is not 200 and whose body
    decodes to an object with a string under "error", [connect] writes one
    error-level log entry, "Unexpected response from Nessus" followed by the
    message of the server, and then returns the body to its caller exactly as
    it does after a success: the raw content for a download or a DELETE, the
    decoded body otherwise.  Nothing is raised.  When the body does not
    decode there is no generic message: the ValueError of [r.json()] is what
    the caller gets, and nothing is logged. *)
Theorem connect_failure_is_logged R method resource data s :
  let rq := request_for R s method resource data in
  let r := server R (trace s) rq in
  status_code r ≠ 200 ->
  (forall e msg,
     json_body r = Some e -> jget e "error" = Ret (JStr msg) ->
     connect R method resource data s =
       (Ret (if contains "download" resource || bool_decide (method = "DELETE")
             then VRaw (content r) else VJson e),
        extend s [Http rq r;
                  LogError ("Unexpected response from Nessus" +:+ msg)])) /\
  (json_body r = None ->
     connect R method resource data s =
       (Raise ValueError, extend s [Http rq r])).
Proof.
  intros rq r Hstatus. rewrite connect_unfold. fold rq. fold r.
  rewrite bool_decide_eq_true_2 by done. split.
  - intros e msg -> Herr. unfold mbind, outcome_bind. by rewrite Herr.
  - by intros ->.
Qed.

Lemma connect_failure_is_logged_witness :
  let R := Py.runtime [refused] in
  let s := Py.plugin [] in
  let rq := request_for R s "POST" "/session" credentials in
  status_code (server R (trace s) rq) ≠ 200 /\
  connect R "POST" "/session" credentials s =
    (Ret (VJson (JObj [("error", JStr "Invalid Credentials")])),
     extend s [Http rq refused;
               LogError "Unexpected response from NessusInvalid Credentials"]).
Proof.
  intros R s rq.
  assert (Hstatus : status_code (server R (trace s) rq) ≠ 200)
    by (vm_compute; discriminate).
  split; [exact Hstatus|].
  exact (proj1 (connect_failure_is_logged R "POST" "/session" credentials s
                  Hstatus) _ "Invalid Credentials" eq_refl eq_refl).
Defined.

(** The refused login is a counterexample to the reading of the
    specification: the status is 401 and [connect] returns the decoded body. *)
Lemma connect_returns_after_failure : ~ connect_raises_on_failure.
Proof.
  intros Hclaim.
  destruct (Hclaim (Py.runtime [refused]) "POST" "/session" credentials
              (Py.plugin [])) as [e He].
  - vm_compute. discriminate.
  - vm_compute in He. discriminate.
Qed.

(** ** From a row to an issue *)

Lemma create_issue_inv row info issue :
  create_issue row info = Ret issue ->
  exists name risk host port synopsis description solution output,
    _get_plugin_name info = Ret (JStr name) /\
    row !! 3%nat = Some risk /\ row !! 4%nat = Some host /\
    row !! 6%nat = Some port /\ row !! 8%nat = Some synopsis /\
    row !! 9%nat = Some description /\ row !! 10%nat = Some solution /\
    row !! 12%nat = Some output /\
    issue = issue_of name risk host port synopsis description solution output.
Proof.
  unfold create_issue, _build_description, row_get, plus_str.
  unfold mbind, outcome_bind, mret, outcome_ret.
  destruct (_get_plugin_name info) as [[| | |name| |]| |]; try done;
    destruct (row !! 3%nat) as [risk|]; try done;
    destruct (row !! 8%nat) as [synopsis|]; try done;
    destruct (row !! 9%nat) as [description|]; try done;
    destruct (row !! 10%nat) as [solution|]; try done;
    destruct (row !! 12%nat) as [output|]; try done;
    destruct (row !! 4%nat) as [host|]; try done;
    destruct (row !! 6%nat) as [port|]; try done.
  intros [= <-].
  exists name, risk, host, port, synopsis, description, solution, output.
  split_and!; try done. unfold issue_of. by rewrite append_assoc.
Qed.

Lemma create_issue_intro row info name risk host port synopsis description
    solution output :
  _get_plugin_name info = Ret (JStr name) ->
  row !! 3%nat = Some risk -> row !! 4%nat = Some host ->
  row !! 6%nat = Some port -> row !! 8%nat = Some synopsis ->
  row !! 9%nat = Some description -> row !! 10%nat = Some solution ->
  row !! 12%nat = Some output ->
  create_issue row info =
    Ret (issue_of name risk host port synopsis description solution output).
Proof.
  intros Hn H3 H4 H6 H8 H9 H10 H12.
  unfold create_issue, _build_description, row_get, plus_str.
  unfold mbind, outcome_bind, mret, outcome_ret.
  rewrite Hn, H3, H4, H6, H8, H9, H10, H12.
  unfold issue_of. by rewrite append_assoc.
Qed.

(** C3.  The severity of the issue built from a row is "Info" when the risk
    column of the row is exactly "None", and the risk column itself for every
    other value. *)
Theorem severity_of_issue row info issue risk :
  row !! 3%nat = Some risk ->
  create_issue row info = Ret issue ->
  (risk = "None" -> Severity issue = "Info") /\
  (risk ≠ "None" -> Severity issue = risk).
Proof.
  intros Hrisk Hissue.
  destruct (create_issue_inv _ _ _ Hissue)
    as (name & risk' & host & port & syn & descr & sol & out
        & _ & Hrisk' & _ & _ & _ & _ & _ & _ & ->).
  assert (risk' = risk) as -> by congruence.
  simpl. unfold minion_severity. split; intros H; by case_decide.
Qed.

Lemma severity_of_issue_witness :
  let row := kerberos_row "10.0.1.1" "None" in
  row !! 3%nat = Some "None" /\
  (exists issue, create_issue row kerberos_info = Ret issue /\
                 Severity issue = "Info").
Proof.
  intros row. split; [reflexivity|].
  eexists. split; [reflexivity|].
  exact (proj1 (severity_of_issue row kerberos_info _ "None"
                  eq_refl eq_refl) eq_refl).
Defined.

Example kerberos_issue_built :
  create_issue (kerberos_row "10.0.1.1" "Low") kerberos_info =
    Ret {| Severity := "Low";
           Summary := "A Kerberos server is listening.";
           Description := "Kerberos Information Disclosure A Kerberos server is listening. The remote host runs Kerberos. n/a Heimdal";
           URLs := [ {| URL := "10.0.1.1:88" |} ];
           Ports := ["88"] |}.
Proof. reflexivity. Qed.

(** ** Dictionaries built from a listing *)

Lemma dict_of_items_app kf vf l1 l2 d :
  dict_of_items kf vf (l1 ++ l2) d =
    dict_of_items kf vf l1 d ≫= dict_of_items kf vf l2.
Proof.
  revert d. induction l1 as [|p l1 IH]; intros d; [done|].
  simpl. unfold mbind, outcome_bind in *.
  destruct (jget p kf) as [k| |]; [|done..].
  destruct (jget p vf) as [v| |]; [|done..].
  destruct (to_key k); [|done]. apply IH.
Qed.

(** Entries with other keys leave the value of a key as it was. *)
Lemma dict_of_items_other kf vf k l d m :
  Forall (other_key kf k) l ->
  dict_of_items kf vf l d = Ret m ->
  m !! k = d !! k.
Proof.
  intros Hl. revert d. induction Hl as [|p l Hp Hl IH]; intros d.
  - by intros [= ->].
  - simpl. unfold mbind, outcome_bind.
    destruct (jget p kf) as [t| |] eqn:Ht; [|done..].
    destruct (jget p vf) as [v| |]; [|done..].
    destruct (to_key t) as [k'|] eqn:Hk; [|done].
    intros H. rewrite (IH _ H). apply lookup_insert_ne.
    intros ->. by apply (Hp t).
Qed.

(** The last entry with a key decides the value of the key. *)
Lemma dict_of_items_last kf vf k before entry after t v d m :
  jget entry kf = Ret t -> to_key t = Some k -> jget entry vf = Ret v ->
  Forall (other_key kf k) after ->
  dict_of_items kf vf (before ++ entry :: after) d = Ret m ->
  m !! k = Some v.
Proof.
  intros Ht Hk Hv Hafter. rewrite dict_of_items_app.
  unfold mbind, outcome_bind.
  destruct (dict_of_items kf vf before d) as [d'| |]; [|done..].
  simpl. rewrite Ht, Hv. unfold mbind, outcome_bind. rewrite Hk.
  intros H. rewrite (dict_of_items_other _ _ _ _ _ _ Hafter H).
  apply lookup_insert_eq.
Qed.

(** C9.  In the mapping [get_policies] builds from the listing of the
    server, a title is mapped to the uuid of the last entry that bears it:
    whatever entries with this title come before are shadowed. *)
Theorem get_policies_last_title R s body s1 before entry after title uuid k
    policies s2 :
  connect R "GET" "/editor/policy/templates" JNull s = (Ret (VJson body), s1) ->
  jget body "templates" = Ret (JArr (before ++ entry :: after)) ->
  jget entry "title" = Ret title -> to_key title = Some k ->
  jget entry "uuid" = Ret uuid ->
  Forall (other_key "title" k) after ->
  get_policies R s = (Ret policies, s2) ->
  policies !! k = Some uuid.
Proof.
  intros Hconnect Hbody Htitle Hk Huuid Hafter.
  unfold get_policies. rewrite (bind_ret _ _ _ _ _ Hconnect).
  unfold mbind, M_bind, lift. simpl. rewrite Hbody. simpl.
  destruct (dict_of_items _ _ _ _) as [m| |] eqn:Hm; [|done..].
  intros [= <- <-].
  exact (dict_of_items_last _ _ _ _ _ _ _ _ _ _ Htitle Hk Huuid Hafter Hm).
Qed.

Lemma get_policies_last_title_witness :
  let R := Py.runtime [Py.ok "" catalog] in
  let s := Py.plugin [] in
  let s1 := after (get_policies R) s in
  connect R "GET" "/editor/policy/templates" JNull s = (Ret (VJson catalog), s1) /\
  exists policies,
    get_policies R s = (Ret policies, s1) /\
    policies !! KStr "Basic Network Scan" = Some (JStr "new").
Proof.
  intros R s s1.
  assert (Hconnect : connect R "GET" "/editor/policy/templates" JNull s
                     = (Ret (VJson catalog), s1))
    by (vm_compute; reflexivity).
  split; [exact Hconnect|].
  destruct (returns_eq (get_policies R) s) as [policies Hrun];
    [vm_compute; reflexivity|].
  exists policies. split; [exact Hrun|].
  refine (get_policies_last_title R s catalog s1
            [JObj [("title", JStr "Basic Network Scan"); ("uuid", JStr "old")];
             JObj [("title", JStr "Web Application Tests");
                   ("uuid", JStr "web")]]
            (JObj [("title", JStr "Basic Network Scan"); ("uuid", JStr "new")])
            [] (JStr "Basic Network Scan") (JStr "new")
            (KStr "Basic Network Scan") policies s1 Hconnect _ _ _ _ _ Hrun);
    try reflexivity.
  constructor.
Defined.

(** ** The run: policy, history and polling *)

Lemma is_str_false lit j : is_str lit j = false <-> j ≠ JStr lit.
Proof.
  destruct j; simpl; try (split; [discriminate|done]).
  rewrite bool_decide_eq_false. split; [congruence|].
  intros H ->. done.
Qed.

Lemma is_str_true lit j : is_str lit j = true <-> j = JStr lit.
Proof.
  destruct j; simpl; try (split; discriminate).
  rewrite bool_decide_eq_true. split; congruence.
Qed.

Section Run.

Context (R : Runtime).


(** The history id the run goes on with, once the scan is launched. *)
Lemma history_choice fuel name descr targets pid s scan_data s1 sid U s2
    body s3 items hist k :
  add R name descr targets pid s = (Ret scan_data, s1) ->
  jget scan_data "id" = Ret sid ->
  launch R sid s1 = (Ret U, s2) ->
  to_key U = Some k ->
  connect R "GET" ("/scans/" +:+ format R sid) JNull s2
    = (Ret (VJson body), s3) ->
  jget body "history" = Ret (JArr items) ->
  dict_of_items "uuid" "history_id" items ∅ = Ret hist ->
  (forall before entry after u h,
     items = before ++ entry :: after ->
     jget entry "uuid" = Ret u -> to_key u = Some k ->
     jget entry "history_id" = Ret h ->
     Forall (other_key "uuid" k) after ->
     do_run_policy R fuel name descr targets pid s =
       do_run_scan R fuel sid h s3) /\
  (Forall (other_key "uuid" k) items ->
     do_run_policy R fuel name descr targets pid s = (Raise KeyError, s3)).
Proof.
  intros Hadd Hid Hlaunch Hk Hconnect Hbody Hhist.
  assert (Hids : get_history_ids R sid s2 = (Ret hist, s3)).
  { unfold get_history_ids. rewrite (bind_ret _ _ _ _ _ Hconnect).
    unfold mbind, M_bind, lift. simpl. rewrite Hbody. simpl. by rewrite Hhist. }
  assert (Hrun : do_run_policy R fuel name descr targets pid s =
                 (history_id ← lift (dict_getitem hist U);
                  do_run_scan R fuel sid history_id) s3).
  { unfold do_run_policy. rewrite (bind_ret _ _ _ _ _ Hadd).
    rewrite Hid, (bind_ret _ _ _ _ _ (lift_eq _ _)).
    rewrite (bind_ret _ _ _ _ _ Hlaunch).
    by rewrite (bind_ret _ _ _ _ _ Hids). }
  rewrite Hrun. unfold dict_getitem. rewrite Hk. split.
  - intros before entry after u h -> Hu Hku Hh Hafter.
    rewrite (dict_of_items_last _ _ _ _ _ _ _ _ _ _ Hu Hku Hh Hafter Hhist).
    done.
  - intros Hnone. rewrite (dict_of_items_other _ _ _ _ _ _ Hnone Hhist).
    by rewrite lookup_empty.
Qed.

(** *** Polling *)




End Run.

Section Polling.

Context (R : Runtime).

(** A poll is one request for the details of the run, with what [connect]
    may log about the answer. *)
Lemma status_events sid hid s o s' :
  status R sid hid s = (o, s') ->
  exists evs, s' = extend s evs /\
    Forall (poll_event (request_for R s "GET" ("/scans/" +:+ format R sid)
                          (JObj [("history_id", hid)]))) evs.
Proof.
  unfold status, get_scan_history. intros H.
  assert (Hconnect : forall v s1,
    connect R "GET" ("/scans/" +:+ format R sid)
      (JObj [("history_id", hid)]) s = (v, s1) ->
    exists evs, s1 = extend s evs /\
      Forall (poll_event (request_for R s "GET" ("/scans/" +:+ format R sid)
                            (JObj [("history_id", hid)]))) evs).
  { intros v s1 Hc. destruct (connect_events _ _ _ _ _ _ _ Hc)
      as (evs & -> & [->|[msg ->]] & _); eexists; split; try done;
      repeat constructor. }
  apply bind_inv in H as [(d & s1 & H1 & H2)|[(e & H1 & _)|[H1 _]]].
  - injection H2 as _ <-.
    apply bind_inv in H1 as [(v & s2 & H1 & H2)|[(e & H1 & _)|[H1 _]]];
      [injection H2 as _ <-|..]; eauto.
  - apply bind_inv in H1 as [(v & s2 & H1 & H2)|[(e' & H1 & _)|[H1 _]]];
      [injection H2 as _ <-|..]; eauto.
  - apply bind_inv in H1 as [(v & s2 & H1 & H2)|[(e' & H1 & _)|[H1 _]]];
      [injection H2 as _ <-|..]; eauto.
Qed.

Lemma status_wait_events fuel sid hid s o s' :
  status_wait R fuel sid hid s = (o, s') ->
  exists evs, s' = extend s evs /\
    Forall (poll_event (request_for R s "GET" ("/scans/" +:+ format R sid)
                          (JObj [("history_id", hid)]))) evs.
Proof.
  revert s. induction fuel as [|fuel IH]; intros s; simpl.
  - intros [= _ <-]. exists []. by rewrite extend_nil.
  - intros H.
    apply bind_inv in H as [(st & s1 & H1 & H2)|[(e & H1 & _)|[H1 _]]];
      try by eapply status_events.
    destruct (status_events _ _ _ _ _ H1) as (evs1 & -> & Hevs1).
    destruct (is_str "completed" st).
    + injection H2 as _ <-. eauto.
    + apply IH in H2 as (evs2 & -> & Hevs2).
      exists (evs1 ++ Sleep 5 :: evs2). split.
      * unfold record. by rewrite !extend_extend.
      * apply Forall_app. split; [done|]. by constructor.
Qed.

End Polling.

(** A run that is reported as aborted and then as canceled is polled on: two
    sleeps of five seconds, and the third poll ends the loop. *)
Example aborted_then_canceled :
  let R := Py.runtime stubborn in
  let s := Py.plugin [] in
  (status_wait R 3 (JNum 42) (JNum 7) s).1 = Ret () /\
  List.filter (fun e => match e with Http _ _ => false | _ => true end)
    (trace (after (status_wait R 3 (JNum 42) (JNum 7)) s)) = [Sleep 5; Sleep 5] /\
  (status_wait R 2 (JNum 42) (JNum 7) s).1 = Diverge.
Proof. vm_compute. done. Qed.

(** *** The run on concrete servers *)

(** The scenario of a complete run: one poll that finds the scan running, one
    that finds it completed, one export that is loading and then ready, and
    one issue, followed by the signal that the run is finished. *)
Example complete_run :
  let R := Py.runtime e2e_script in
  let s := Py.plugin e2e_cfg in
  (do_run R 10 s).1 = Ret () /\
  reported (trace (after (do_run R 10) s)) =
    [ReportIssue {| Severity := "Low";
                    Summary := "syn";
                    Description :=
                      "Kerberos Information Disclosure syn descr sol out";
                    URLs := [ {| URL := "10.0.1.1:88" |} ];
                    Ports := ["88"] |};
     ReportFinish] /\
  rq_url <$> requests (trace (after (do_run R 10) s)) =
    ["https://nessus:8834/session";
     "https://nessus:8834/editor/policy/templates";
     "https://nessus:8834/scans";
     "https://nessus:8834/scans/42/launch";
     "https://nessus:8834/scans/42";
     "https://nessus:8834/scans/42";
     "https://nessus:8834/scans/42";
     "https://nessus:8834/scans/42/export";
     "https://nessus:8834/scans/42/export/9/status";
     "https://nessus:8834/scans/42/export/9/status";
     "https://nessus:8834/scans/42/export/9/download";
     "https://nessus:8834/plugins/plugin/10114"].
Proof. vm_compute. done. Qed.

(** In that run the export is requested once, after the second poll. *)
Example complete_run_exports_after_polls :
  let R := Py.runtime e2e_script in
  let tr := trace (after (do_run R 10) (Py.plugin e2e_cfg)) in
  is_export <$> tr =
    [false; false; false; false; false; false; false; false; true;
     false; false; false; false; false; false; false] /\
  is_completed <$> tr =
    [false; false; false; false; false; false; false; true; false;
     false; false; false; false; false; false; false].
Proof. vm_compute. done. Qed.

(** ** The transform *)

Section Transform.

Context (R : Runtime).

Lemma get_plugin_info_events id s o s1 :
  get_plugin_info R (JStr id) s = (o, s1) ->
  exists evs, s1 = extend s evs /\
    requests evs = [fetch_for R s id] /\ reported evs = [].
Proof.
  unfold get_plugin_info. intros H.
  destruct (connect_events _ _ _ _ _ _ _ H) as (evs & -> & [->|[msg ->]] & _);
    by eexists.
Qed.

(** One turn of the loop of [parse_csv_data]. *)
Lemma parse_rows_cons row rest plugins s :
  parse_rows R (row :: rest) plugins s =
    match row !! 0%nat with
    | None => (Raise IndexError, s)
    | Some r0 =>
        if decide (r0 = "Plugin ID") then parse_rows R rest plugins s
        else
          match plugins !! r0 with
          | Some plugin_info =>
              match create_issue row plugin_info with
              | Ret issue =>
                  parse_rows R rest plugins (record (ReportIssue issue) s)
              | Raise e => (Raise e, s)
              | Diverge => (Diverge, s)
              end
          | None =>
              match get_plugin_info R (JStr r0) s with
              | (Ret plugin_info, s1) =>
                  match create_issue row plugin_info with
                  | Ret issue =>
                      parse_rows R rest (<[r0 := plugin_info]> plugins)
                        (record (ReportIssue issue) s1)
                  | Raise e => (Raise e, s1)
                  | Diverge => (Diverge, s1)
                  end
              | (Raise e, s1) => (Raise e, s1)
              | (Diverge, s1) => (Diverge, s1)
              end
          end
    end.
Proof.
  simpl. unfold row_get, lift, report_issue, emit.
  unfold mbind at 1, M_bind at 1.
  destruct (row !! 0%nat) as [r0|]; [|done].
  destruct (decide (r0 = "Plugin ID")); [done|].
  unfold mbind, M_bind, mret, M_ret.
  destruct (plugins !! r0) as [plugin_info|] eqn:Hcache.
  - rewrite Hcache. by destruct (create_issue row plugin_info).
  - destruct (get_plugin_info R (JStr r0) s) as [[plugin_info| |] s1]; try done.
    rewrite lookup_insert_eq. by destruct (create_issue row plugin_info).
Qed.

Lemma data_rows_header row rest :
  is_header row -> data_rows (row :: rest) = data_rows rest.
Proof. intros H. unfold data_rows. apply filter_cons_False. tauto. Qed.

Lemma data_rows_data row rest :
  ~ is_header row -> data_rows (row :: rest) = row :: data_rows rest.
Proof. intros H. unfold data_rows. by apply filter_cons_True. Qed.

End Transform.

Section Rows.

Context (R : Runtime).

(** What a pass over the rows does, whatever way it ends: it fetches the
    metadata of plugins that were not cached, each once, and reports one
    issue for each data row it gets through, in the order of the rows. *)
Lemma parse_rows_spec rows : forall plugins s o s',
  parse_rows R rows plugins s = (o, s') ->
  exists evs ids issues done,
    s' = extend s evs /\
    requests evs = fetch_for R s <$> ids /\
    NoDup ids /\
    (forall id, id ∈ ids ->
       plugins !! id = None /\
       exists row, row ∈ data_rows rows /\ row !! 0%nat = Some id) /\
    reported evs = ReportIssue <$> issues /\
    done `prefix_of` data_rows rows /\
    Forall2 built done issues /\
    (forall plugins', o = Ret plugins' ->
       done = data_rows rows /\
       forall row id, row ∈ data_rows rows -> row !! 0%nat = Some id ->
                      plugins !! id = None -> id ∈ ids).
Proof.
  induction rows as [|row rest IH]; intros plugins s o s'.
  { simpl. intros [= <- <-]. exists [], [], [], [].
    rewrite extend_nil. split_and!; try done.
    - constructor.
    - intros id Hid. by apply elem_of_nil in Hid.
    - intros plugins' _. split; [done|].
      intros row id Hrow. by apply elem_of_nil in Hrow. }
  rewrite parse_rows_cons.
  destruct (row !! 0%nat) as [r0|] eqn:Hr0.
  2:{ intros [= <- <-]. exists [], [], [], [].
      rewrite extend_nil. split_and!; try done.
      - constructor.
      - intros id Hid. by apply elem_of_nil in Hid.
      - apply prefix_nil. }
  destruct (decide (r0 = "Plugin ID")) as [->|Hdata].
  { rewrite (data_rows_header row rest Hr0). apply IH. }
  assert (Hrow : ~ is_header row) by (unfold is_header; congruence).
  rewrite (data_rows_data row rest Hrow).
  assert (Hstop : forall (e : outcome (gmap string value)) evs ids,
    (forall a, e ≠ Ret a) ->
    requests evs = fetch_for R s <$> ids -> reported evs = [] ->
    NoDup ids -> (forall id, id ∈ ids -> id = r0 /\ plugins !! id = None) ->
    exists evs' ids' issues done,
      extend s evs = extend s evs' /\
      requests evs' = fetch_for R s <$> ids' /\
      NoDup ids' /\
      (forall id, id ∈ ids' ->
         plugins !! id = None /\
         exists row', row' ∈ row :: data_rows rest /\ row' !! 0%nat = Some id) /\
      reported evs' = ReportIssue <$> issues /\
      done `prefix_of` row :: data_rows rest /\
      Forall2 built done issues /\
      (forall plugins', e = Ret plugins' ->
         done = row :: data_rows rest /\
         forall row' id, row' ∈ row :: data_rows rest ->
                         row' !! 0%nat = Some id ->
                         plugins !! id = None -> id ∈ ids')).
  { intros e evs ids He Hrq Hrep Hnd Hids. exists evs, ids, [], [].
    split_and!; try done.
    - intros id Hid. destruct (Hids id Hid) as [? ?]. subst id.
      split; [done|]. exists row. split; [apply list_elem_of_here|done].
    - apply prefix_nil.
    - intros plugins' ->. by destruct (He plugins'). }
  destruct (plugins !! r0) as [plugin_info|] eqn:Hcache.
  - destruct (create_issue row plugin_info) as [issue| |] eqn:Hissue.
    + intros H. apply IH in H
        as (evs & ids & issues & done & -> & Hrq & Hnd & Hids & Hrep
            & Hpre & Hbuilt & Hret).
      exists (ReportIssue issue :: evs), ids, (issue :: issues), (row :: done).
      split_and!; try done.
      * unfold record. by rewrite extend_extend.
      * intros id Hid. destruct (Hids id Hid) as (? & row' & ? & ?).
        split; [done|]. exists row'. split; [by apply list_elem_of_further|done].
      * simpl. by rewrite Hrep.
      * by apply prefix_cons.
      * constructor; [by exists plugin_info|done].
      * intros plugins' Ho. destruct (Hret plugins' Ho) as [-> Hall].
        split; [done|]. intros row' id Hin Hid Hnone.
        apply elem_of_cons in Hin as [->|Hin]; [congruence|]. by eapply Hall.
    + intros [= <- <-].
      destruct (Hstop (Raise e) [] []) as (evs & H); try done;
        [constructor|by intros id Hid; apply elem_of_nil in Hid|].
      rewrite extend_nil in H. by exists evs.
    + intros [= <- <-].
      destruct (Hstop Diverge [] []) as (evs & H); try done;
        [constructor|by intros id Hid; apply elem_of_nil in Hid|].
      rewrite extend_nil in H. by exists evs.
  - destruct (get_plugin_info R (JStr r0) s) as [o1 s1] eqn:Hfetch.
    destruct (get_plugin_info_events _ _ _ _ _ Hfetch)
      as (evs1 & -> & Hrq1 & Hrep1).
    assert (Hone : forall id, id ∈ [r0] -> id = r0 /\ plugins !! id = None).
    { intros id Hid. apply list_elem_of_singleton in Hid. by subst. }
    assert (Hnd1 : NoDup [r0]) by (apply NoDup_singleton).
    destruct o1 as [plugin_info|e|].
    2:{ intros [= <- <-]. by apply (Hstop _ evs1 [r0]). }
    2:{ intros [= <- <-]. by apply (Hstop _ evs1 [r0]). }
    destruct (create_issue row plugin_info) as [issue| |] eqn:Hissue.
    2:{ intros [= <- <-]. by apply (Hstop _ evs1 [r0]). }
    2:{ intros [= <- <-]. by apply (Hstop _ evs1 [r0]). }
    intros H. apply IH in H
      as (evs & ids & issues & done & -> & Hrq & Hnd & Hids & Hrep
          & Hpre & Hbuilt & Hret).
    exists (evs1 ++ ReportIssue issue :: evs), (r0 :: ids), (issue :: issues),
      (row :: done).
    split_and!.
    + unfold record. by rewrite !extend_extend.
    + rewrite requests_app, Hrq1. simpl. by rewrite Hrq.
    + constructor; [|done]. intros Hin. destruct (Hids r0 Hin) as [Hnone _].
      by rewrite lookup_insert_eq in Hnone.
    + intros id Hid. apply elem_of_cons in Hid as [->|Hid].
      * split; [done|]. exists row. split; [apply list_elem_of_here|done].
      * destruct (Hids id Hid) as (Hnone & row' & ? & ?).
        split; [|exists row'; split; [by apply list_elem_of_further|done]].
        destruct (decide (id = r0)) as [->|Hne];
          [by rewrite lookup_insert_eq in Hnone|].
        by rewrite lookup_insert_ne in Hnone.
    + rewrite reported_app, Hrep1. simpl. by rewrite Hrep.
    + by apply prefix_cons.
    + constructor; [by exists plugin_info|done].
    + intros plugins' Ho. destruct (Hret plugins' Ho) as [-> Hall].
      split; [done|]. intros row' id Hin Hid Hnone.
      destruct (decide (id = r0)) as [->|Hne]; [apply list_elem_of_here|].
      apply list_elem_of_further.
      apply elem_of_cons in Hin as [->|Hin]; [congruence|].
      eapply Hall; [done..|]. by rewrite lookup_insert_ne.
Qed.

End Rows.
Section Pass.

Context (R : Runtime).

Lemma parse_csv_data_unfold data s :
  parse_csv_data R data s =
    match lines_of R data with
    | Ret rows =>
        match parse_rows R (csv_reader R rows).1 ∅ s with
        | (Ret _, s1) =>
            match (csv_reader R rows).2 with
            | Some e => (Raise e, s1)
            | None => (Ret [], record ReportFinish s1)
            end
        | (Raise e, s1) => (Raise e, s1)
        | (Diverge, s1) => (Diverge, s1)
        end
    | Raise e => (Raise e, s)
    | Diverge => (Diverge, s)
    end.
Proof.
  unfold parse_csv_data, lift, report_finish, emit.
  unfold mbind at 1, M_bind at 1.
  destruct (lines_of R data) as [rows| |]; [|done..].
  destruct (csv_reader R rows) as [yielded failure]. simpl.
  unfold mbind, M_bind, mret, M_ret.
  destruct (parse_rows R yielded ∅ s) as [[plugins| |] s1]; [|done..].
  by destruct failure.
Qed.

(** What a pass of the transform does, whatever way it ends. *)
Lemma parse_csv_data_spec data s o s' :
  parse_csv_data R data s = (o, s') ->
  exists evs ids issues,
    s' = extend s evs /\
    requests evs = fetch_for R s <$> ids /\
    NoDup ids /\
    match o with
    | Ret v =>
        v = [] /\
        exists lines yielded,
          lines_of R data = Ret lines /\
          csv_reader R lines = (yielded, None) /\
          reported evs = (ReportIssue <$> issues) ++ [ReportFinish] /\
          Forall2 built (data_rows yielded) issues /\
          (forall id, id ∈ ids <->
             exists row, row ∈ data_rows yielded /\ row !! 0%nat = Some id)
    | _ => reported evs = ReportIssue <$> issues
    end.
Proof.
  rewrite parse_csv_data_unfold.
  destruct (lines_of R data) as [lines| |] eqn:Hlines.
  2,3: intros [= <- <-]; exists [], [], []; rewrite extend_nil;
       split_and!; try done; constructor.
  destruct (csv_reader R lines) as [yielded failure] eqn:Hreader. simpl.
  destruct (parse_rows R yielded ∅ s) as [o1 s1] eqn:Hrows.
  destruct (parse_rows_spec R _ _ _ _ _ Hrows)
    as (evs & ids & issues & done & -> & Hrq & Hnd & Hids & Hrep
        & Hpre & Hbuilt & Hret).
  destruct o1 as [plugins|e|].
  2,3: intros [= <- <-]; by exists evs, ids, issues.
  destruct failure as [e|]; intros [= <- <-].
  { by exists evs, ids, issues. }
  destruct (Hret plugins eq_refl) as [-> Hall].
  exists (evs ++ [ReportFinish]), ids, issues. split_and!; try done.
  - unfold record. by rewrite extend_extend.
  - rewrite requests_app. simpl. by rewrite app_nil_r.
  - exists lines, yielded. split_and!; try done.
    + rewrite reported_app. simpl. by rewrite Hrep.
    + intros id. split.
      * intros Hid. by destruct (Hids id Hid).
      * intros (row & Hrow & Hid). eapply Hall; [done..|]. apply lookup_empty.
Qed.

(** A server that names the plugin in every answer to a metadata request
    gets the loop through rows that are complete. *)
Lemma parse_rows_returns s rows :
  (forall tr id, names_plugin (server R tr (fetch_for R s id))) ->
  forall plugins evs,
    Forall complete_row (data_rows rows) ->
    (forall id plugin_info, plugins !! id = Some plugin_info ->
                            named plugin_info) ->
    exists plugins' s',
      parse_rows R rows plugins (extend s evs) = (Ret plugins', s').
Proof.
  intros Hserver. induction rows as [|row rest IH]; intros plugins evs Hrows Hcache.
  { by eexists _, _. }
  rewrite parse_rows_cons.
  destruct (row !! 0%nat) as [r0|] eqn:Hr0.
  2:{ rewrite data_rows_data in Hrows by (unfold is_header; congruence).
      apply Forall_cons in Hrows as [[Hlen _] _].
      apply lookup_ge_None in Hr0. lia. }
  destruct (decide (r0 = "Plugin ID")) as [->|Hdata].
  { rewrite (data_rows_header row rest Hr0) in Hrows. by apply IH. }
  rewrite data_rows_data in Hrows by (unfold is_header; congruence).
  apply Forall_cons in Hrows as [[Hlen Hid] Hrest].
  assert (Hissue : forall plugin_info, named plugin_info ->
                     exists issue, create_issue row plugin_info = Ret issue).
  { intros plugin_info [name Hname].
    destruct (lookup_lt_is_Some_2 row 3) as [risk H3]; [lia|].
    destruct (lookup_lt_is_Some_2 row 4) as [host H4]; [lia|].
    destruct (lookup_lt_is_Some_2 row 6) as [port H6]; [lia|].
    destruct (lookup_lt_is_Some_2 row 8) as [syn H8]; [lia|].
    destruct (lookup_lt_is_Some_2 row 9) as [descr H9]; [lia|].
    destruct (lookup_lt_is_Some_2 row 10) as [sol H10]; [lia|].
    destruct (lookup_lt_is_Some_2 row 12) as [out H12]; [lia|].
    eexists. by apply (create_issue_intro row plugin_info name risk host port
                         syn descr sol out). }
  destruct (plugins !! r0) as [plugin_info|] eqn:Hcached.
  - destruct (Hissue plugin_info (Hcache _ _ Hcached)) as [issue ->].
    unfold record. rewrite extend_extend. by apply IH.
  - unfold get_plugin_info. rewrite connect_unfold. simpl.
    destruct (Hserver (trace s ++ evs) r0) as (Hstatus & j & Hbody & Hnamed).
    change (request_for R (extend s evs) "GET" ("/plugins/plugin/" +:+ r0) JNull)
      with (fetch_for R s r0).
    rewrite Hstatus, Hbody. rewrite bool_decide_eq_false_2 by (by intros H).
    change (contains "download" ("" +:+ r0)) with (contains "download" r0).
    rewrite (Hid r0 Hr0). simpl.
    destruct (Hissue _ Hnamed) as [issue ->].
    unfold record. rewrite !extend_extend. apply IH; [done|].
    intros id plugin_info Hin.
    destruct (decide (id = r0)) as [->|Hne].
    + rewrite lookup_insert_eq in Hin. by simplify_eq.
    + rewrite lookup_insert_ne in Hin by done. by eapply Hcache.
Qed.

End Pass.
Section Reporting.

Context (R : Runtime).

Lemma extend_inj s a b : extend s a = extend s b -> a = b.
Proof.
  intros H. apply (f_equal trace) in H. simpl in H. by apply app_inv_head in H.
Qed.

Lemma fetch_for_inj s : Inj (=) (=) (fetch_for R s).
Proof.
  intros a b H. apply (f_equal rq_url) in H. simpl in H.
  unfold build_url in H. apply String.app_inj in H.
  by apply (String.app_inj "/plugins/plugin/") in H.
Qed.

(** C4.  A pass of the transform that returns has reported, in the order of
    the rows the reader yields, one issue for every row whose first column is
    not "Plugin ID", rows alike included, and then, once, that the run is
    finished.  And the transform does return when the reader fails on no
    line, the other rows have thirteen columns and the server names the
    plugin in its answer to every metadata request. *)
Theorem transform_reports_rows data s :
  (forall v s',
     parse_csv_data R data s = (Ret v, s') ->
     exists lines yielded issues evs,
       lines_of R data = Ret lines /\
       csv_reader R lines = (yielded, None) /\
       s' = extend s evs /\
       Forall2 built (data_rows yielded) issues /\
       reported evs = (ReportIssue <$> issues) ++ [ReportFinish]) /\
  (forall lines yielded,
     lines_of R data = Ret lines ->
     csv_reader R lines = (yielded, None) ->
     Forall complete_row (data_rows yielded) ->
     (forall tr id, names_plugin (server R tr (fetch_for R s id))) ->
     exists s', parse_csv_data R data s = (Ret [], s')).
Proof.
  split.
  - intros v s' H.
    destruct (parse_csv_data_spec R _ _ _ _ H)
      as (evs & ids & issues & -> & _ & _ & _ & lines & yielded
          & Hlines & Hreader & Hrep & Hbuilt & _).
    by exists lines, yielded, issues, evs.
  - intros lines yielded Hlines Hreader Hrows Hserver.
    rewrite parse_csv_data_unfold, Hlines, Hreader. simpl.
    destruct (parse_rows_returns R s yielded Hserver ∅ [] Hrows)
      as (plugins & s' & Hrun).
    { intros id plugin_info Hin. by rewrite lookup_empty in Hin. }
    rewrite extend_nil in Hrun. rewrite Hrun. by eexists.
Qed.

(** C8.  In a pass of the transform, however it ends, the requests are
    metadata requests for plugin ids that are all different: no plugin is
    fetched twice.  When the pass returns, the plugins fetched are exactly
    those of the data rows, so that rows which share a plugin id cost one
    fetch, and there is still one issue for each of these rows, in their
    order. *)
Theorem metadata_fetched_once data s o s' :
  parse_csv_data R data s = (o, s') ->
  exists evs ids,
    s' = extend s evs /\
    requests evs = fetch_for R s <$> ids /\
    NoDup ids /\
    NoDup (requests evs) /\
    forall v, o = Ret v ->
      exists lines yielded issues,
        lines_of R data = Ret lines /\
        csv_reader R lines = (yielded, None) /\
        (forall id, id ∈ ids <->
           exists row, row ∈ data_rows yielded /\ row !! 0%nat = Some id) /\
        Forall2 built (data_rows yielded) issues /\
        reported evs = (ReportIssue <$> issues) ++ [ReportFinish].
Proof.
  intros H.
  destruct (parse_csv_data_spec R _ _ _ _ H)
    as (evs & ids & issues & -> & Hrq & Hnd & Hret).
  exists evs, ids. split_and!; try done.
  - rewrite Hrq. apply NoDup_fmap_2; [apply fetch_for_inj|done].
  - intros v ->. destruct Hret as (_ & lines & yielded & ? & ? & ? & ? & ?).
    by exists lines, yielded, issues.
Qed.

(** C10.  Whatever the body, a pass of the transform that returns, returns
    the empty list: the issues it has built have gone to [report_issue], and
    the list [issues] is returned as it was created. *)
Theorem transform_returns_nothing data s v s' :
  parse_csv_data R data s = (Ret v, s') ->
  v = [] /\
  exists evs issues,
    s' = extend s evs /\
    reported evs = (ReportIssue <$> issues) ++ [ReportFinish].
Proof.
  intros H.
  destruct (parse_csv_data_spec R _ _ _ _ H)
    as (evs & ids & issues & -> & _ & _ & -> & lines & yielded
        & _ & _ & Hrep & _).
  split; [done|]. by exists evs, issues.
Qed.

End Reporting.

(** ** What the methods add to the trace *)

Section Traces.

Context (R : Runtime).

Lemma emits_ret {A} P (a : A) : emits P (mret a).
Proof. intros s o s' [= <- <-]. exists []. by rewrite app_nil_r. Qed.

Lemma emits_lift {A} P (o : outcome A) : emits P (lift o).
Proof. intros s o' s' [= <- <-]. exists []. by rewrite app_nil_r. Qed.

Lemma emits_get_self P : emits P get_self.
Proof. intros s o s' [= <- <-]. exists []. by rewrite app_nil_r. Qed.

Lemma emits_put_token P token : emits P (put_token token).
Proof. intros s o s' [= <- <-]. exists []. by rewrite app_nil_r. Qed.

Lemma emits_config_get P k : emits P (config_get k).
Proof. intros s o s' [= <- <-]. exists []. by rewrite app_nil_r. Qed.

Lemma emits_emit P e : P e -> emits P (emit e).
Proof.
  intros He s o s' [= <- <-]. exists [e]. split; [done|]. by constructor.
Qed.

Lemma emits_bind {A B} P (m : M A) (k : A -> M B) :
  emits P m -> (forall a, emits P (k a)) -> emits P (m ≫= k).
Proof.
  intros Hm Hk s o s' H.
  apply bind_inv in H as [(a & s1 & H1 & H2)|[(e & H1 & _)|[H1 _]]];
    [|by eapply Hm..].
  destruct (Hm _ _ _ H1) as (evs1 & Ht1 & Hevs1).
  destruct (Hk a _ _ _ H2) as (evs2 & Ht2 & Hevs2).
  exists (evs1 ++ evs2). split.
  - by rewrite Ht2, Ht1, app_assoc.
  - by apply Forall_app.
Qed.

Lemma emits_weaken {A} (P Q : Event -> Prop) (m : M A) :
  (forall e, P e -> Q e) -> emits P m -> emits Q m.
Proof.
  intros HPQ Hm s o s' H. destruct (Hm _ _ _ H) as (evs & Ht & Hevs).
  exists evs. split; [done|]. by eapply Forall_impl.
Qed.

(** [connect] adds its request, with the answer, and at most a log entry. *)
Lemma emits_connect P method resource data :
  (forall s r, P (Http (request_for R s method resource data) r)) ->
  (forall msg, P (LogError msg)) ->
  emits P (connect R method resource data).
Proof.
  intros Hrq Hlog s o s' H.
  destruct (connect_events _ _ _ _ _ _ _ H) as (evs & -> & [->|[msg ->]] & _);
    eexists; (split; [reflexivity|]); repeat constructor; auto.
Qed.









(** *** Exports come after a completed poll *)

(** The request of [export] is recognised as such. *)
Lemma export_is_export s sid hid data_format r :
  is_export (Http (request_for R s "POST"
                     ("/scans/" +:+ format R sid +:+ "/export")
                     (JObj [("history_id", hid); ("format", data_format)]))
               r) = true.
Proof. reflexivity. Qed.











End Traces.


(** *** The transform on an export with two rows of one plugin *)

Lemma two_hosts_pass :
  parse_csv_data kerberos_server (VRaw two_hosts) (Py.plugin []) =
    (Ret [],
     extend (Py.plugin [])
       [Http (fetch_for kerberos_server (Py.plugin []) "10114")
          (metadata "Kerberos Information Disclosure");
        ReportIssue (kerberos_issue "10.0.1.1");
        ReportIssue (kerberos_issue "10.0.1.2");
        ReportFinish]).
Proof. vm_compute. reflexivity. Qed.

Lemma transform_reports_rows_witness :
  exists s',
    parse_csv_data kerberos_server (VRaw two_hosts) (Py.plugin [])
      = (Ret [], s') /\
    exists evs,
      s' = extend (Py.plugin []) evs /\
      reported evs = [ReportIssue (kerberos_issue "10.0.1.1");
                      ReportIssue (kerberos_issue "10.0.1.2");
                      ReportFinish].
Proof.
  destruct (transform_reports_rows kerberos_server (VRaw two_hosts)
              (Py.plugin [])) as [Hreported Hreturns].
  destruct (Hreturns (Py.str_splitlines two_hosts)
              (Py.reader (Py.str_splitlines two_hosts)).1) as [s' Hrun].
  - reflexivity.
  - reflexivity.
  - assert (Hrows : data_rows (Py.reader (Py.str_splitlines two_hosts)).1 =
        [ ["10114"; ""; ""; "Low"; "10.0.1.1"; "tcp"; "88"; "Kerberos"; "syn";
           "descr"; "sol"; "see"; "out"];
          ["10114"; ""; ""; "Low"; "10.0.1.2"; "tcp"; "88"; "Kerberos"; "syn";
           "descr"; "sol"; "see"; "out"] ])
      by (vm_compute; reflexivity).
    rewrite Hrows.
    repeat constructor; simpl; try lia; by intros id [= <-].
  - intros tr id. split; [reflexivity|].
    eexists. split; [reflexivity|]. by eexists.
  - exists s'. split; [exact Hrun|].
    destruct (Hreported _ _ Hrun)
      as (lines & yielded & issues & evs & _ & _ & -> & _ & _).
    exists evs. split; [reflexivity|].
    rewrite two_hosts_pass in Hrun. injection Hrun as Hrun. by subst evs.
Defined.

Lemma metadata_fetched_once_witness :
  exists evs,
    (parse_csv_data kerberos_server (VRaw two_hosts) (Py.plugin [])).2
      = extend (Py.plugin []) evs /\
    requests evs = [fetch_for kerberos_server (Py.plugin []) "10114"] /\
    length (reported evs) = 3%nat.
Proof.
  destruct (metadata_fetched_once kerberos_server (VRaw two_hosts)
              (Py.plugin []) _ _ two_hosts_pass)
    as (evs & ids & Hs & Hrq & Hnd & _ & _).
  exists evs. rewrite two_hosts_pass. split; [exact Hs|].
  apply extend_inj in Hs. by subst evs.
Defined.

Lemma transform_returns_nothing_witness :
  exists v s',
    parse_csv_data kerberos_server (VRaw two_hosts) (Py.plugin [])
      = (Ret v, s') /\
    v = [] /\
    length (reported (trace s')) = 3%nat.
Proof.
  destruct (returns_eq (parse_csv_data kerberos_server (VRaw two_hosts))
              (Py.plugin [])) as [v Hrun]; [vm_compute; reflexivity|].
  exists v, (after (parse_csv_data kerberos_server (VRaw two_hosts))
               (Py.plugin [])).
  split; [exact Hrun|]. split.
  - exact (proj1 (transform_returns_nothing kerberos_server (VRaw two_hosts)
                    (Py.plugin []) v _ Hrun)).
  - vm_compute. reflexivity.
Defined.

(** A row without the columns [create_issue] reads ends the pass with an
    IndexError where it stands: its metadata has been fetched, nothing is
    reported for it, and the run is not reported as finished. *)
Example short_row_stops_the_pass :
  parse_csv_data kerberos_server (VRaw short_export) (Py.plugin []) =
    (Raise IndexError,
     extend (Py.plugin [])
       [Http (fetch_for kerberos_server (Py.plugin []) "10114")
          (metadata "Kerberos Information Disclosure")]).
Proof. vm_compute. reflexivity. Qed.

(** * Further properties of the methods *)

(** ** The transport *)

Section Transport.

Context (R : Runtime).

(** X1.  Whatever the server answers, a call of [connect] sends one request
    and no second one, reports nothing to Minion, leaves every attribute of
    the plugin, the token included, as it was, and comes to an end. *)
Theorem connect_sends_once method resource data s :
  exists evs,
    (connect R method resource data s).2 = extend s evs /\
    requests evs = [request_for R s method resource data] /\
    reported evs = [] /\
    (connect R method resource data s).1 <> Diverge.
Proof.
  destruct (connect R method resource data s) as [o s'] eqn:H.
  destruct (connect_events _ _ _ _ _ _ _ H)
    as (evs & -> & [->|[msg ->]] & Hend & _); by eexists.
Qed.

(** X2.  After a response with status 200 nothing is logged.  A DELETE and a
    download get the raw content back, whether the body decodes or not; any
    other request gets the decoded body and raises a ValueError when the body
    does not decode. *)
Theorem connect_success method resource data s :
  let rq := request_for R s method resource data in
  let r := server R (trace s) rq in
  status_code r = 200 ->
  connect R method resource data s =
    (if contains "download" resource || bool_decide (method = "DELETE")
     then Ret (VRaw (content r))
     else match json_body r with
          | Some j => Ret (VJson j)
          | None => Raise ValueError
          end,
     extend s [Http rq r]).
Proof.
  intros rq r Hstatus. rewrite connect_unfold. fold rq. fold r.
  rewrite Hstatus. rewrite bool_decide_eq_false_2 by (by intros H).
  destruct (contains "download" resource || bool_decide (method = "DELETE"));
    [done|]. by destruct (json_body r).
Qed.

(** X3.  The handling of a failure can fail itself.  When the status is not
    200 and the decoded body is an object without "error", [connect] raises
    a KeyError; when the body is no object, or its "error" is no string, it
    raises a TypeError.  In each case the request has been sent and nothing
    is logged. *)
Theorem connect_failure_unreadable method resource data s e :
  let rq := request_for R s method resource data in
  let r := server R (trace s) rq in
  status_code r ≠ 200 ->
  json_body r = Some e ->
  (jget e "error" = Raise KeyError ->
     connect R method resource data s = (Raise KeyError, extend s [Http rq r]))
  /\
  ((forall members, e ≠ JObj members) ->
     connect R method resource data s = (Raise TypeError, extend s [Http rq r]))
  /\
  (forall err,
     jget e "error" = Ret err -> (forall msg, err ≠ JStr msg) ->
     connect R method resource data s = (Raise TypeError, extend s [Http rq r])).
Proof.
  intros rq r Hstatus Hbody. rewrite connect_unfold. fold rq. fold r.
  rewrite bool_decide_eq_true_2 by done. rewrite Hbody.
  unfold mbind, outcome_bind. split_and!.
  - by intros ->.
  - intros He. destruct e; try done. by destruct (He members).
  - intros err -> Herr. destruct err; try done. by destruct (Herr s0).
Qed.

End Transport.

Lemma connect_success_witness :
  let R := Py.runtime [no_content] in
  let s := Py.plugin [] in
  let rq := request_for R s "DELETE" "/scans/42" JNull in
  status_code (server R (trace s) rq) = 200 /\
  connect R "DELETE" "/scans/42" JNull s
    = (Ret (VRaw ""), extend s [Http rq no_content]).
Proof.
  intros R s rq.
  assert (Hstatus : status_code (server R (trace s) rq) = 200)
    by (vm_compute; reflexivity).
  split; [exact Hstatus|].
  exact (connect_success R "DELETE" "/scans/42" JNull s Hstatus).
Defined.

Lemma connect_failure_unreadable_witness :
  let R := Py.runtime [missing] in
  let s := Py.plugin [] in
  let rq := request_for R s "GET" "/scans/42" JNull in
  status_code (server R (trace s) rq) ≠ 200 /\
  connect R "GET" "/scans/42" JNull s
    = (Raise KeyError, extend s [Http rq missing]).
Proof.
  intros R s rq.
  assert (Hstatus : status_code (server R (trace s) rq) ≠ 200)
    by (vm_compute; discriminate).
  split; [exact Hstatus|].
  exact (proj1 (connect_failure_unreadable R "GET" "/scans/42" JNull s
                  (JObj [("message", JStr "not found")]) Hstatus eq_refl)
           eq_refl).
Defined.

(** ** The session *)

Section Session.

Context (R : Runtime).

(** The request with which [login] sends the credentials. *)
Lemma login_unfold s :
  login R s =
    match connect R "POST" "/session"
            (JObj [("username", JStr (_username s));
                   ("password", JStr (_password s))]) s with
    | (Ret data, s1) =>
        match vget data "token" with
        | Ret token => (Ret token, set_token token s1)
        | Raise e => (Raise e, s1)
        | Diverge => (Diverge, s1)
        end
    | (Raise e, s1) => (Raise e, s1)
    | (Diverge, s1) => (Diverge, s1)
    end.
Proof.
  unfold login, get_self, lift, put_token. unfold mbind, M_bind.
  destruct (connect _ _ _ _ s) as [[data| |] s1]; try done.
  by destruct (vget data "token").
Qed.

(** X4.  A login that returns has sent the credentials in one POST to
    /session, has stored the token it returns and has changed nothing else;
    every request put together afterwards carries that token in its X-Cookie
    header. *)
Theorem login_stores_token s token s' :
  login R s = (Ret token, s') ->
  exists evs,
    s' = set_token token (extend s evs) /\
    requests evs =
      [request_for R s "POST" "/session"
         (JObj [("username", JStr (_username s));
                ("password", JStr (_password s))])] /\
    forall method resource data,
      rq_headers (request_for R s' method resource data) =
        [("X-Cookie", "token=" +:+ format R token);
         ("content-type", "application/json")].
Proof.
  rewrite login_unfold.
  destruct (connect _ _ _ _ s) as [[data| |] s1] eqn:Hconnect; try done.
  destruct (vget data "token") as [t| |]; try done. intros [= -> <-].
  destruct (connect_events _ _ _ _ _ _ _ Hconnect)
    as (evs & -> & [->|[msg ->]] & _); by eexists.
Qed.

(** X5.  A login that does not return leaves the token as it was, and has
    sent its one request all the same.  Such is the login whose answer
    decodes to an object without "token": it raises a KeyError. *)
Theorem login_failure_keeps_token s o s' :
  login R s = (o, s') ->
  (forall token, o ≠ Ret token) ->
  _token s' = _token s /\
  (exists evs, s' = extend s evs /\ length (requests evs) = 1%nat) /\
  (forall members s1,
     connect R "POST" "/session"
       (JObj [("username", JStr (_username s));
              ("password", JStr (_password s))]) s
       = (Ret (VJson (JObj members)), s1) ->
     assoc "token" members = None ->
     o = Raise KeyError).
Proof.
  rewrite login_unfold.
  destruct (connect _ _ _ _ s) as [o1 s1] eqn:Hconnect. intros H Hfail.
  destruct (connect_events _ _ _ _ _ _ _ Hconnect)
    as (evs & -> & Hevs & _).
  assert (Hone : length (requests evs) = 1%nat)
    by (by destruct Hevs as [->|[msg ->]]).
  destruct o1 as [data| |].
  - destruct (vget data "token") as [t| |] eqn:Htoken.
    + injection H as <- <-. by destruct (Hfail t).
    + injection H as <- <-. split_and!; [done|by exists evs|].
      intros members s2 [= -> _] Hnone. simpl in Htoken.
      rewrite Hnone in Htoken. by injection Htoken as <-.
    + injection H as <- <-. split_and!; [done|by exists evs|].
      intros members s2 [= -> _] Hnone. simpl in Htoken.
      by rewrite Hnone in Htoken.
  - injection H as <- <-. split_and!; [done|by exists evs|]. by intros.
  - injection H as <- <-. split_and!; [done|by exists evs|]. by intros.
Qed.

(** A DELETE through [connect]: the content comes back undecoded. *)
Lemma connect_delete resource s :
  let rq := request_for R s "DELETE" resource JNull in
  let r := server R (trace s) rq in
  connect R "DELETE" resource JNull s =
    if bool_decide (status_code r ≠ 200) then
      match json_body r with
      | None => (Raise ValueError, extend s [Http rq r])
      | Some e =>
          match jget e "error" ≫= str_plus "Unexpected response from Nessus" with
          | Ret msg =>
              (Ret (VRaw (content r)), extend s [Http rq r; LogError msg])
          | Raise x => (Raise x, extend s [Http rq r])
          | Diverge => (Diverge, extend s [Http rq r])
          end
      end
    else (Ret (VRaw (content r)), extend s [Http rq r]).
Proof.
  intros rq r. rewrite connect_unfold. fold rq. fold r.
  rewrite (bool_decide_eq_true_2 ("DELETE" = "DELETE")) by done.
  by rewrite orb_true_r.
Qed.

(** X6.  [logout] sends one DELETE to /session, with the token of the
    session in its header, and does not clear that token: the plugin keeps
    it, and would send it again.  After a response with status 200 it
    returns, whatever the body. *)
Theorem logout_keeps_token s :
  let rq := request_for R s "DELETE" "/session" JNull in
  (exists evs, (logout R s).2 = extend s evs /\ requests evs = [rq]) /\
  _token (logout R s).2 = _token s /\
  (status_code (server R (trace s) rq) = 200 -> (logout R s).1 = Ret ()).
Proof.
  intros rq. unfold logout. unfold mbind, M_bind.
  destruct (connect R "DELETE" "/session" JNull s) as [o s1] eqn:Hconnect.
  destruct (connect_events _ _ _ _ _ _ _ Hconnect)
    as (evs & -> & Hevs & _).
  assert (Hrq : requests evs = [rq]) by (by destruct Hevs as [->|[msg ->]]).
  split_and!.
  - destruct o; by exists evs.
  - by destruct o.
  - intros Hstatus. rewrite connect_delete in Hconnect. fold rq in Hconnect.
    rewrite Hstatus in Hconnect.
    rewrite bool_decide_eq_false_2 in Hconnect by (by intros H).
    by injection Hconnect as <- _.
Qed.

(** X7.  [delete] and [history_delete] send one DELETE and return after a
    status of 200 without decoding the body.  They return as well when the
    server refuses with a message: the refusal is logged and the caller is
    not told. *)
Theorem deletions_return sid hid s :
  let rq1 := request_for R s "DELETE" ("/scans/" +:+ format R sid) JNull in
  let r1 := server R (trace s) rq1 in
  let rq2 := request_for R s "DELETE"
               ("/scans/" +:+ format R sid +:+ "/history/" +:+ format R hid)
               JNull in
  let r2 := server R (trace s) rq2 in
  (status_code r1 = 200 -> delete R sid s = (Ret (), extend s [Http rq1 r1]))
  /\
  (forall e msg,
     status_code r1 ≠ 200 -> json_body r1 = Some e ->
     jget e "error" = Ret (JStr msg) ->
     delete R sid s =
       (Ret (),
        extend s [Http rq1 r1;
                  LogError ("Unexpected response from Nessus" +:+ msg)]))
  /\
  (status_code r2 = 200 ->
     history_delete R sid hid s = (Ret (), extend s [Http rq2 r2]))
  /\
  (forall e msg,
     status_code r2 ≠ 200 -> json_body r2 = Some e ->
     jget e "error" = Ret (JStr msg) ->
     history_delete R sid hid s =
       (Ret (),
        extend s [Http rq2 r2;
                  LogError ("Unexpected response from Nessus" +:+ msg)])).
Proof.
  intros rq1 r1 rq2 r2. unfold delete, history_delete.
  unfold mbind, M_bind. rewrite !connect_delete.
  fold rq1. fold r1. fold rq2. fold r2. split_and!.
  - intros Hstatus. rewrite Hstatus.
    by rewrite bool_decide_eq_false_2 by (by intros H).
  - intros e msg Hstatus Hbody Herr.
    rewrite bool_decide_eq_true_2 by done. rewrite Hbody.
    unfold mbind, outcome_bind. by rewrite Herr.
  - intros Hstatus. rewrite Hstatus.
    by rewrite bool_decide_eq_false_2 by (by intros H).
  - intros e msg Hstatus Hbody Herr.
    rewrite bool_decide_eq_true_2 by done. rewrite Hbody.
    unfold mbind, outcome_bind. by rewrite Herr.
Qed.

End Session.

Lemma login_stores_token_witness :
  let R := Py.runtime e2e_script in
  let s := Py.plugin [] in
  login R s = (Ret (JStr "tok"), after (login R) s) /\
  rq_headers (request_for R (after (login R) s) "GET" "/scans" JNull) =
    [("X-Cookie", "token=tok"); ("content-type", "application/json")].
Proof.
  intros R s.
  assert (Hlogin : login R s = (Ret (JStr "tok"), after (login R) s))
    by (vm_compute; reflexivity).
  split; [exact Hlogin|].
  destruct (login_stores_token R s _ _ Hlogin) as (evs & _ & _ & Hheaders).
  exact (Hheaders "GET" "/scans" JNull).
Defined.

Lemma login_failure_keeps_token_witness :
  let R := Py.runtime [refused] in
  let s := Py.plugin [] in
  login R s = (Raise KeyError, after (login R) s) /\
  _token (after (login R) s) = JStr "".
Proof.
  intros R s.
  assert (Hlogin : login R s = (Raise KeyError, after (login R) s))
    by (vm_compute; reflexivity).
  split; [exact Hlogin|].
  exact (proj1 (login_failure_keeps_token R s _ _ Hlogin
                  ltac:(intros token; discriminate))).
Defined.

Lemma deletions_return_witness :
  let R := Py.runtime [forbidden] in
  let s := Py.plugin [] in
  let rq := request_for R s "DELETE" "/scans/42" JNull in
  status_code (server R (trace s) rq) ≠ 200 /\
  delete R (JNum 42) s =
    (Ret (),
     extend s [Http rq forbidden;
               LogError "Unexpected response from Nessusforbidden"]).
Proof.
  intros R s rq.
  assert (Hstatus : status_code (server R (trace s) rq) ≠ 200)
    by (vm_compute; discriminate).
  split; [exact Hstatus|].
  exact (proj1 (proj2 (deletions_return R (JNum 42) JNull s))
           (JObj [("error", JStr "forbidden")]) "forbidden"
           Hstatus eq_refl eq_refl).
Defined.

(** ** Scans, exports and downloads *)

Lemma contains_app_r sub a b :
  contains sub b = true -> contains sub (a +:+ b) = true.
Proof.
  intros H. induction a as [|c a IH]; [done|].
  change (contains sub (String c (a +:+ b)) = true).
  simpl. by rewrite IH, orb_true_r.
Qed.

Section Scans.

Context (R : Runtime).

(** X8.  [update] sends one PUT to the scan, with the name, the description
    under "desc" and the targets as its settings; the policy is part of the
    payload exactly when one is given. *)
Theorem update_request scan_id name desc targets pid s :
  exists evs rq,
    (update R scan_id name desc targets pid s).2 = extend s evs /\
    requests evs = [rq] /\
    rq_verb rq = PUT /\
    rq_url rq = server_url s +:+ "/scans/" +:+ format R scan_id /\
    jget (rq_data rq) "settings" =
      Ret (JObj [("name", name); ("desc", desc); ("text_targets", targets)]) /\
    (pid = JNull -> jget (rq_data rq) "uuid" = Raise KeyError) /\
    (pid ≠ JNull -> jget (rq_data rq) "uuid" = Ret pid).
Proof.
  unfold update.
  destruct (connect R "PUT" _ _ s) as [o s'] eqn:H.
  destruct (connect_events _ _ _ _ _ _ _ H) as (evs & -> & Hevs & _).
  eexists evs, _. split; [done|].
  split; [by destruct Hevs as [->|[msg ->]]|].
  by destruct pid.
Qed.

(** *** The export *)

Lemma export_wait_polled fuel sid fid s s' :
  export_wait R fuel sid fid s = (Ret (), s') <->
  exists n, (n < fuel)%nat /\ export_polled R sid fid s n s'.
Proof.
  split.
  - revert s. induction fuel as [|fuel IH]; intros s; [done|].
    simpl. intros H.
    apply bind_inv in H as [(ready & s1 & H1 & H2)|[H|H]];
      [|by destruct H as (? & _ & ?)|by destruct H].
    destruct ready.
    + injection H2 as <-. exists 0%nat. split; [lia|]. by constructor.
    + destruct (IH _ H2) as (n & Hn & Hpolled).
      exists (S n). split; [lia|]. by econstructor.
  - intros (n & Hn & Hpolled). revert fuel Hn.
    induction Hpolled as [s s' H1|s s1 n s' H1 _ IH]; intros fuel Hn.
    + destruct fuel; [lia|]. simpl. by rewrite (bind_ret _ _ _ _ _ H1).
    + destruct fuel; [lia|]. simpl. rewrite (bind_ret _ _ _ _ _ H1).
      apply IH. lia.
Qed.

(** X9.  [export] returns exactly when the answer to its request holds a
    "file" and a poll of the export finds the status "ready"; every poll
    before is followed by a sleep of five seconds, and what is returned is
    the file of the answer.  An answer that decodes to an object without
    "file" ends the export with a KeyError before any poll. *)
Theorem export_returns_file fuel sid hid data_format s :
  let payload := JObj [("history_id", hid); ("format", data_format)] in
  let resource := "/scans/" +:+ format R sid +:+ "/export" in
  (forall fid s',
     export R fuel sid hid data_format s = (Ret fid, s') <->
     exists data s1 n,
       connect R "POST" resource payload s = (Ret data, s1) /\
       vget data "file" = Ret fid /\
       (n < fuel)%nat /\ export_polled R sid fid s1 n s') /\
  (forall members s1,
     connect R "POST" resource payload s = (Ret (VJson (JObj members)), s1) ->
     assoc "file" members = None ->
     export R fuel sid hid data_format s = (Raise KeyError, s1)).
Proof.
  intros payload resource. split.
  - intros fid s'. unfold export. fold payload. fold resource. split.
    + intros H.
      apply bind_inv in H as [(data & s1 & H1 & H2)|[H|H]];
        [|by destruct H as (? & _ & ?)|by destruct H].
      apply bind_inv in H2 as [(fid' & s2 & H2 & H3)|[H|H]];
        [|by destruct H as (? & _ & ?)|by destruct H].
      injection H2 as Hfile <-.
      apply bind_inv in H3 as [([] & s3 & H3 & H4)|[H|H]];
        [|by destruct H as (? & _ & ?)|by destruct H].
      injection H4 as <- <-.
      apply export_wait_polled in H3 as (n & Hn & Hpolled).
      by exists data, s1, n.
    + intros (data & s1 & n & H1 & Hfile & Hn & Hpolled).
      rewrite (bind_ret _ _ _ _ _ H1).
      rewrite Hfile, (bind_ret _ _ _ _ _ (lift_eq _ _)).
      assert (H3 : export_wait R fuel sid fid s1 = (Ret (), s'))
        by (apply export_wait_polled; eauto).
      by rewrite (bind_ret _ _ _ _ _ H3).
  - intros members s1 H1 Hnone. unfold export. fold payload. fold resource.
    rewrite (bind_ret _ _ _ _ _ H1). simpl. rewrite Hnone.
    by apply bind_raise.
Qed.

(** *** The download *)

Lemma download_resource sid fid :
  contains "download"
    ("/scans/" +:+ format R sid +:+ "/export/" +:+ format R fid
       +:+ "/download") = true.
Proof. by do 4 apply contains_app_r. Qed.

(** X10.  Whatever the ids of the scan and of the file, [download] never
    returns a decoded body: what it returns is the raw content of the
    response.  After a status of 200 it does return, whether the content is
    JSON or not. *)
Theorem download_is_raw sid fid s :
  let rq := request_for R s "GET"
              ("/scans/" +:+ format R sid +:+ "/export/" +:+ format R fid
                 +:+ "/download") JNull in
  let r := server R (trace s) rq in
  (forall v s', download R sid fid s = (Ret v, s') -> v = VRaw (content r)) /\
  (status_code r = 200 ->
     download R sid fid s = (Ret (VRaw (content r)), extend s [Http rq r])).
Proof.
  intros rq r. unfold download. rewrite connect_unfold. fold rq. fold r.
  rewrite download_resource. simpl. split.
  - intros v s'. repeat case_match; by intros [= <- <-].
  - intros Hstatus. rewrite Hstatus.
    by rewrite bool_decide_eq_false_2 by (by intros H).
Qed.

(** *** The status of a run *)

(** X11.  A status that [status] returns is the one under "info" and
    "status" in the answer of the server: there is no default.  When the
    answer has an "info" without "status", [status] raises a KeyError, and
    so does the polling loop of [do_run]. *)
Theorem status_has_no_default sid hid s :
  let resource := "/scans/" +:+ format R sid in
  let rq := request_for R s "GET" resource (JObj [("history_id", hid)]) in
  let r := server R (trace s) rq in
  (forall st s',
     status R sid hid s = (Ret st, s') ->
     exists j d,
       json_body r = Some j /\ jget j "info" = Ret d /\
       jget d "status" = Ret st) /\
  (forall j members fuel,
     status_code r = 200 -> contains "download" resource = false ->
     json_body r = Some j -> jget j "info" = Ret (JObj members) ->
     assoc "status" members = None ->
     status R sid hid s = (Raise KeyError, extend s [Http rq r]) /\
     status_wait R (S fuel) sid hid s
       = (Raise KeyError, extend s [Http rq r])).
Proof.
  intros resource rq r. split.
  - intros st s' H. unfold status, get_scan_history in H.
    apply bind_inv in H as [(d & s1 & H1 & H2)|[H|H]];
      [|by destruct H as (? & _ & ?)|by destruct H].
    injection H2 as Hst <-.
    apply bind_inv in H1 as [(v & s2 & H1 & H2)|[H|H]];
      [|by destruct H as (? & _ & ?)|by destruct H].
    injection H2 as Hinfo <-.
    destruct (connect_events _ _ _ _ _ _ _ H1) as (evs & _ & _ & _ & Hbody).
    destruct v as [raw|j]; [done|]. exists j, d. split_and!; try done.
    by apply Hbody.
  - intros j members fuel Hstatus Hraw Hbody Hinfo Hnone.
    assert (H : status R sid hid s = (Raise KeyError, extend s [Http rq r])).
    { assert (Hc : connect R "GET" resource (JObj [("history_id", hid)]) s
                   = (Ret (VJson j), extend s [Http rq r])).
      { rewrite connect_unfold. fold rq. fold r. rewrite Hstatus, Hraw, Hbody.
        by rewrite bool_decide_eq_false_2 by (by intros H). }
      assert (Hh : get_scan_history R sid hid s
                   = (Ret (JObj members), extend s [Http rq r])).
      { unfold get_scan_history. fold resource.
        rewrite (bind_ret _ _ _ _ _ Hc). simpl. by rewrite Hinfo. }
      unfold status. rewrite (bind_ret _ _ _ _ _ Hh). simpl.
      by rewrite Hnone. }
    split; [done|]. simpl. by apply bind_raise.
Qed.

End Scans.

Lemma download_is_raw_witness :
  let R := Py.runtime [Py.ok "Plugin ID,CVE" (JStr "Plugin ID,CVE")] in
  let s := Py.plugin [] in
  let rq := request_for R s "GET" "/scans/42/export/9/download" JNull in
  download R (JNum 42) (JNum 9) s
    = (Ret (VRaw "Plugin ID,CVE"),
       extend s [Http rq (Py.ok "Plugin ID,CVE" (JStr "Plugin ID,CVE"))]).
Proof.
  intros R s rq.
  exact (proj2 (download_is_raw R (JNum 42) (JNum 9) s) eq_refl).
Defined.

Lemma status_has_no_default_witness :
  let R := Py.runtime [no_status] in
  let s := Py.plugin [] in
  let rq := request_for R s "GET" "/scans/42" (JObj [("history_id", JNum 7)]) in
  status_wait R 5 (JNum 42) (JNum 7) s
    = (Raise KeyError, extend s [Http rq no_status]).
Proof.
  intros R s rq.
  exact (proj2 (proj2 (status_has_no_default R (JNum 42) (JNum 7) s)
                  _ [("name", JStr "nightly")] 4%nat
                  eq_refl eq_refl eq_refl eq_refl eq_refl)).
Defined.

(** An export that is loading at the first poll is polled again after five
    seconds, and its file is returned. *)
Example export_loading_then_ready :
  let R := Py.runtime export_script in
  let s := Py.plugin [] in
  (export R 5 (JNum 42) (JNum 7) (JStr "csv") s).1 = Ret (JNum 9) /\
  List.filter (fun e => match e with Http _ _ => false | _ => true end)
    (trace (after (export R 5 (JNum 42) (JNum 7) (JStr "csv")) s))
    = [Sleep 5].
Proof. vm_compute. done. Qed.

(** ** Listings: the catalog of policies and the history of a scan *)

Lemma dict_of_items_returns kf vf items : forall d,
  (exists m, dict_of_items kf vf items d = Ret m) <->
  Forall (entry_ok kf vf) items.
Proof.
  induction items as [|p rest IH]; intros d.
  { split; [by constructor|by exists d]. }
  simpl. unfold mbind, outcome_bind. split.
  - intros [m H].
    destruct (jget p kf) as [t| |] eqn:Ht; try done.
    destruct (jget p vf) as [v| |] eqn:Hv; try done.
    destruct (to_key t) as [k|] eqn:Hk; try done.
    constructor; [by exists t, v, k|]. apply (IH (<[k:=v]> d)). by exists m.
  - intros H. apply Forall_cons in H as [(t & v & k & Ht & Hv & Hk) Hrest].
    rewrite Ht, Hv, Hk. by apply IH.
Qed.

Lemma dict_of_items_keys kf vf k items : forall d m,
  dict_of_items kf vf items d = Ret m ->
  is_Some (m !! k) <-> is_Some (d !! k) \/ Exists (has_key kf k) items.
Proof.
  induction items as [|p rest IH]; intros d m.
  { intros [= ->]. split; [by left|]. intros [H|H]; [done|].
    by apply Exists_nil in H. }
  simpl. unfold mbind, outcome_bind.
  destruct (jget p kf) as [t| |] eqn:Ht; try done.
  destruct (jget p vf) as [v| |] eqn:Hv; try done.
  destruct (to_key t) as [k'|] eqn:Hk; try done.
  intros H. rewrite (IH _ _ H), Exists_cons.
  destruct (decide (k' = k)) as [->|Hne].
  - rewrite lookup_insert_eq. split; [|by left].
    intros _. right. left. by exists t.
  - rewrite lookup_insert_ne by done. split.
    + intros [H1|H1]; [by left|by right; right].
    + intros [H1|[(t' & Ht' & Hk')|H1]]; [by left| |by right].
      congruence.
Qed.

Section Listings.

Context (R : Runtime).

(** X12.  The catalog is fetched whole or not at all: once the server has
    answered with a list of templates, [get_policies] returns a mapping
    exactly when every entry of the list has a title that can be a key and a
    uuid; a single entry without one makes the call raise.  The same holds
    of [get_history_ids] and the uuid and history id of the entries of the
    history. *)
Theorem listings_all_or_nothing s sid body s1 items :
  (connect R "GET" "/editor/policy/templates" JNull s
     = (Ret (VJson body), s1) ->
   jget body "templates" = Ret (JArr items) ->
   (exists policies, get_policies R s = (Ret policies, s1)) <->
   Forall (entry_ok "title" "uuid") items) /\
  (connect R "GET" ("/scans/" +:+ format R sid) JNull s
     = (Ret (VJson body), s1) ->
   jget body "history" = Ret (JArr items) ->
   (exists history_ids, get_history_ids R sid s = (Ret history_ids, s1)) <->
   Forall (entry_ok "uuid" "history_id") items).
Proof.
  split; intros Hconnect Hbody.
  - unfold get_policies. rewrite (bind_ret _ _ _ _ _ Hconnect).
    unfold mbind, M_bind, lift. simpl. rewrite Hbody. simpl.
    rewrite <- (dict_of_items_returns "title" "uuid" items ∅).
    destruct (dict_of_items "title" "uuid" items ∅) as [m| |];
      split; intros [m' H]; try done; [by exists m|by exists m].
  - unfold get_history_ids. rewrite (bind_ret _ _ _ _ _ Hconnect).
    unfold mbind, M_bind, lift. simpl. rewrite Hbody. simpl.
    rewrite <- (dict_of_items_returns "uuid" "history_id" items ∅).
    destruct (dict_of_items "uuid" "history_id" items ∅) as [m| |];
      split; intros [m' H]; try done; [by exists m|by exists m].
Qed.

(** X13.  The keys of the mapping [get_policies] returns are the titles of
    the entries of the listing, no more and no less; an empty listing gives
    an empty mapping.  Likewise the keys of the mapping of
    [get_history_ids] are the uuids of the entries of the history. *)
Theorem listing_keys s sid body s1 items m s2 k :
  (connect R "GET" "/editor/policy/templates" JNull s
     = (Ret (VJson body), s1) ->
   jget body "templates" = Ret (JArr items) ->
   get_policies R s = (Ret m, s2) ->
   is_Some (m !! k) <-> Exists (has_key "title" k) items) /\
  (connect R "GET" ("/scans/" +:+ format R sid) JNull s
     = (Ret (VJson body), s1) ->
   jget body "history" = Ret (JArr items) ->
   get_history_ids R sid s = (Ret m, s2) ->
   is_Some (m !! k) <-> Exists (has_key "uuid" k) items).
Proof.
  split; intros Hconnect Hbody.
  - unfold get_policies. rewrite (bind_ret _ _ _ _ _ Hconnect).
    unfold mbind, M_bind, lift. simpl. rewrite Hbody. simpl.
    destruct (dict_of_items "title" "uuid" items ∅) as [m'| |] eqn:Hm;
      try done.
    intros [= <- _]. rewrite (dict_of_items_keys _ _ k _ _ _ Hm).
    rewrite lookup_empty. split; [intros [[]%is_Some_None|]; done|by right].
  - unfold get_history_ids. rewrite (bind_ret _ _ _ _ _ Hconnect).
    unfold mbind, M_bind, lift. simpl. rewrite Hbody. simpl.
    destruct (dict_of_items "uuid" "history_id" items ∅) as [m'| |] eqn:Hm;
      try done.
    intros [= <- _]. rewrite (dict_of_items_keys _ _ k _ _ _ Hm).
    rewrite lookup_empty. split; [intros [[]%is_Some_None|]; done|by right].
Qed.

End Listings.

Lemma listings_all_or_nothing_witness :
  let R := Py.runtime [Py.ok "" torn_catalog] in
  let s := Py.plugin [] in
  connect R "GET" "/editor/policy/templates" JNull s
    = (Ret (VJson torn_catalog), after (get_policies R) s) /\
  ~ exists policies,
      get_policies R s = (Ret policies, after (get_policies R) s).
Proof.
  intros R s.
  assert (Hconnect : connect R "GET" "/editor/policy/templates" JNull s
                     = (Ret (VJson torn_catalog), after (get_policies R) s))
    by (vm_compute; reflexivity).
  split; [exact Hconnect|]. intros Hreturns.
  apply (proj1 (listings_all_or_nothing R s JNull torn_catalog _ _)
           Hconnect eq_refl) in Hreturns.
  apply Forall_cons in Hreturns as [_ Hsecond].
  apply Forall_cons in Hsecond as [(t & v & k & _ & Hv & _) _].
  discriminate Hv.
Defined.

Lemma listing_keys_witness :
  let R := Py.runtime [Py.ok "" catalog] in
  let s := Py.plugin [] in
  exists policies,
    get_policies R s = (Ret policies, after (get_policies R) s) /\
    is_Some (policies !! KStr "Web Application Tests") /\
    ~ is_Some (policies !! KStr "Advanced Scan").
Proof.
  intros R s.
  assert (Hconnect : connect R "GET" "/editor/policy/templates" JNull s
                     = (Ret (VJson catalog), after (get_policies R) s))
    by (vm_compute; reflexivity).
  destruct (returns_eq (get_policies R) s) as [policies Hrun];
    [vm_compute; reflexivity|].
  exists policies. split; [exact Hrun|]. split.
  - apply (proj1 (listing_keys R s JNull catalog _ _ policies _
                    (KStr "Web Application Tests")) Hconnect eq_refl Hrun).
    apply Exists_cons. right. apply Exists_cons. left.
    by exists (JStr "Web Application Tests").
  - intros Hsome.
    apply (proj1 (listing_keys R s JNull catalog _ _ policies _
                    (KStr "Advanced Scan")) Hconnect eq_refl Hrun) in Hsome.
    repeat (apply Exists_cons in Hsome as [(t & Ht & Hk)|Hsome];
            [by injection Ht as <-|]).
    by apply Exists_nil in Hsome.
Defined.

(** ** The name of a plugin and the columns of a row *)

Lemma plugin_name_of_app before after name :
  plugin_name_of (before ++ after) name =
    plugin_name_of before name ≫= plugin_name_of after.
Proof.
  revert name. induction before as [|p before IH]; intros name; [done|].
  simpl. unfold mbind, outcome_bind in *.
  destruct (jget p "attribute_name") as [n| |]; try done.
  destruct (is_str "plugin_name" n); [|apply IH].
  destruct (jget p "attribute_value"); by try apply IH.
Qed.

Lemma plugin_name_of_others attributes name :
  Forall other_attribute attributes ->
  plugin_name_of attributes name = Ret name.
Proof.
  intros H. induction H as [|p rest (n & Hn & Hne) _ IH]; [done|].
  simpl. unfold mbind, outcome_bind. rewrite Hn.
  apply is_str_false in Hne. by rewrite Hne.
Qed.

(** X14.  Of the attributes named "plugin_name" the last one gives the name
    of the plugin, and metadata whose attributes are all named otherwise
    give [None]; with [None] for a name [create_issue] raises a TypeError on
    every row of nine columns or more, and issues are built from no such
    metadata. *)
Theorem plugin_name_last_attribute body before attribute after v :
  (jget body "attributes" = Ret (JArr (before ++ attribute :: after)) ->
   (exists name, plugin_name_of before JNull = Ret name) ->
   jget attribute "attribute_name" = Ret (JStr "plugin_name") ->
   jget attribute "attribute_value" = Ret v ->
   Forall other_attribute after ->
   _get_plugin_name (VJson body) = Ret v) /\
  (jget body "attributes" = Ret (JArr after) ->
   Forall other_attribute after ->
   _get_plugin_name (VJson body) = Ret JNull /\
   forall row, (9 <= length row)%nat ->
               create_issue row (VJson body) = Raise TypeError).
Proof.
  split.
  - intros Hbody [name Hbefore] Hname Hvalue Hafter.
    unfold _get_plugin_name. simpl. rewrite Hbody. simpl.
    rewrite plugin_name_of_app, Hbefore. simpl. rewrite Hname. simpl.
    rewrite Hvalue. simpl. by apply plugin_name_of_others.
  - intros Hbody Hafter.
    assert (Hnone : _get_plugin_name (VJson body) = Ret JNull).
    { unfold _get_plugin_name. simpl. rewrite Hbody. simpl.
      by apply plugin_name_of_others. }
    split; [done|]. intros row Hlen.
    destruct (lookup_lt_is_Some_2 row 3) as [risk H3]; [lia|].
    destruct (lookup_lt_is_Some_2 row 8) as [syn H8]; [lia|].
    unfold create_issue, _build_description, row_get.
    rewrite Hnone. simpl. by rewrite H3, H8.
Qed.

(** X15.  With metadata that name the plugin, [create_issue] builds an issue
    exactly from the rows of thirteen columns or more, columns beyond the
    thirteenth being ignored, and raises an IndexError on every shorter
    row. *)
Theorem create_issue_needs_thirteen row plugin_info :
  named plugin_info ->
  ((exists issue, create_issue row plugin_info = Ret issue) <->
   (13 <= length row)%nat) /\
  ((length row < 13)%nat -> create_issue row plugin_info = Raise IndexError) /\
  (forall more, (13 <= length row)%nat ->
     create_issue (row ++ more) plugin_info = create_issue row plugin_info).
Proof.
  intros [name Hname].
  assert (Hlong : forall r : list string, (13 <= length r)%nat ->
    exists risk host port syn descr sol out,
      r !! 3%nat = Some risk /\ r !! 4%nat = Some host /\
      r !! 6%nat = Some port /\ r !! 8%nat = Some syn /\
      r !! 9%nat = Some descr /\ r !! 10%nat = Some sol /\
      r !! 12%nat = Some out).
  { intros r Hlen.
    destruct (lookup_lt_is_Some_2 r 3) as [risk H3]; [lia|].
    destruct (lookup_lt_is_Some_2 r 4) as [host H4]; [lia|].
    destruct (lookup_lt_is_Some_2 r 6) as [port H6]; [lia|].
    destruct (lookup_lt_is_Some_2 r 8) as [syn H8]; [lia|].
    destruct (lookup_lt_is_Some_2 r 9) as [descr H9]; [lia|].
    destruct (lookup_lt_is_Some_2 r 10) as [sol H10]; [lia|].
    destruct (lookup_lt_is_Some_2 r 12) as [out H12]; [lia|].
    by exists risk, host, port, syn, descr, sol, out. }
  split_and!.
  - split.
    + intros [issue H].
      destruct (create_issue_inv _ _ _ H)
        as (? & ? & ? & ? & ? & ? & ? & out & _ & _ & _ & _ & _ & _ & _
            & H12 & _).
      apply lookup_lt_Some in H12. lia.
    + intros Hlen.
      destruct (Hlong row Hlen)
        as (risk & host & port & syn & descr & sol & out
            & H3 & H4 & H6 & H8 & H9 & H10 & H12).
      eexists. by apply (create_issue_intro row plugin_info name risk host
                           port syn descr sol out).
  - intros Hlen.
    assert (H12 : row !! 12%nat = None) by (apply lookup_ge_None; lia).
    unfold create_issue, _build_description, row_get, plus_str.
    unfold mbind, outcome_bind, mret, outcome_ret. rewrite Hname, H12.
    destruct (row !! 3%nat); [|done]. destruct (row !! 8%nat); [|done].
    destruct (row !! 9%nat); [|done]. by destruct (row !! 10%nat).
  - intros more Hlen.
    destruct (Hlong row Hlen)
      as (risk & host & port & syn & descr & sol & out
          & H3 & H4 & H6 & H8 & H9 & H10 & H12).
    rewrite (create_issue_intro row plugin_info name risk host port syn descr
               sol out) by done.
    apply create_issue_intro; try done; by apply lookup_app_l_Some.
Qed.

(** X16.  No issue is built with the severity "None": [minion_severity]
    never returns it, and applying it twice is applying it once. *)
Theorem severity_is_never_none :
  (forall risk, minion_severity risk ≠ "None") /\
  (forall risk, minion_severity (minion_severity risk) = minion_severity risk)
  /\
  (forall row plugin_info issue,
     create_issue row plugin_info = Ret issue -> Severity issue ≠ "None").
Proof.
  assert (H : forall risk, minion_severity risk ≠ "None").
  { intros risk. unfold minion_severity. by case_decide. }
  split_and!; [done| |].
  - intros risk. unfold minion_severity. by repeat case_decide.
  - intros row plugin_info issue Hissue.
    destruct (create_issue_inv _ _ _ Hissue)
      as (? & risk & ? & ? & ? & ? & ? & ? & _ & _ & _ & _ & _ & _ & _ & _
          & ->).
    apply H.
Qed.

Lemma plugin_name_last_attribute_witness :
  _get_plugin_name (VJson renamed_body)
    = Ret (JStr "Kerberos Information Disclosure") /\
  create_issue (kerberos_row "10.0.1.1" "Low") (VJson nameless_body)
    = Raise TypeError.
Proof.
  split.
  - refine (proj1 (plugin_name_last_attribute renamed_body
              [JObj [("attribute_name", JStr "plugin_name");
                     ("attribute_value", JStr "Kerberos")]]
              (JObj [("attribute_name", JStr "plugin_name");
                     ("attribute_value",
                      JStr "Kerberos Information Disclosure")])
              [JObj [("attribute_name", JStr "risk_factor");
                     ("attribute_value", JStr "Low")]]
              (JStr "Kerberos Information Disclosure"))
              eq_refl _ eq_refl eq_refl _).
    + by exists (JStr "Kerberos").
    + repeat constructor. by exists (JStr "risk_factor").
  - refine (proj2 (proj2 (plugin_name_last_attribute nameless_body [] JNull
              [JObj [("attribute_name", JStr "risk_factor");
                     ("attribute_value", JStr "Low")]] JNull)
              eq_refl _) (kerberos_row "10.0.1.1" "Low") _).
    + repeat constructor. by exists (JStr "risk_factor").
    + simpl. lia.
Defined.

Lemma create_issue_needs_thirteen_witness :
  named kerberos_info /\
  create_issue ["10114"; ""; ""; "Low"] kerberos_info = Raise IndexError.
Proof.
  assert (Hnamed : named kerberos_info)
    by (by exists "Kerberos Information Disclosure").
  split; [exact Hnamed|].
  apply (proj1 (proj2 (create_issue_needs_thirteen
                         ["10114"; ""; ""; "Low"] kerberos_info Hnamed))).
  simpl. lia.
Defined.

(** ** Passes of the transform that stop, and the cache of a pass *)

Section Passes.

Context (R : Runtime).

(** X17.  Issues are reported as the rows are read: a pass that does not
    return has reported the issues of the data rows before the one it
    stopped at, in their order, and has not reported the run as finished.
    When it is the reader that fails, after the rows it yielded, the issues
    of all these rows have been reported. *)
Theorem failed_pass_reports_prefix data s o s' lines yielded failure :
  lines_of R data = Ret lines ->
  csv_reader R lines = (yielded, failure) ->
  parse_csv_data R data s = (o, s') ->
  (forall v, o ≠ Ret v) ->
  exists evs issues done,
    s' = extend s evs /\
    reported evs = ReportIssue <$> issues /\
    done `prefix_of` data_rows yielded /\
    Forall2 built done issues /\
    (forall plugins, (parse_rows R yielded ∅ s).1 = Ret plugins ->
       done = data_rows yielded /\ exists e, failure = Some e /\ o = Raise e).
Proof.
  intros Hlines Hreader. rewrite parse_csv_data_unfold, Hlines, Hreader.
  simpl. destruct (parse_rows R yielded ∅ s) as [o1 s1] eqn:Hrows.
  destruct (parse_rows_spec R _ _ _ _ _ Hrows)
    as (evs & ids & issues & done & -> & _ & _ & _ & Hrep & Hpre & Hbuilt
        & Hret).
  intros H Hfail. exists evs, issues, done.
  destruct o1 as [plugins|e|].
  - destruct failure as [e|]; injection H as <- <-;
      [|by destruct (Hfail [])].
    split_and!; try done. intros plugins' _.
    split; [by destruct (Hret plugins eq_refl)|by exists e].
  - injection H as <- <-. by split_and!.
  - injection H as <- <-. by split_and!.
Qed.

(** The metadata a pass has fetched stay in its cache, and every issue is
    built with the metadata of the cache. *)
Lemma parse_rows_cache rows : forall plugins s plugins' s',
  parse_rows R rows plugins s = (Ret plugins', s') ->
  plugins ⊆ plugins' /\
  exists evs issues,
    s' = extend s evs /\
    reported evs = ReportIssue <$> issues /\
    Forall2 (built_with plugins') (data_rows rows) issues.
Proof.
  induction rows as [|row rest IH]; intros plugins s plugins' s'.
  { intros [= <- <-]. split; [done|]. exists [], [].
    by rewrite extend_nil. }
  rewrite parse_rows_cons.
  destruct (row !! 0%nat) as [r0|] eqn:Hr0; [|done].
  destruct (decide (r0 = "Plugin ID")) as [->|Hdata].
  { rewrite (data_rows_header row rest Hr0). apply IH. }
  rewrite (data_rows_data row rest) by (unfold is_header; congruence).
  destruct (plugins !! r0) as [plugin_info|] eqn:Hcached.
  - destruct (create_issue row plugin_info) as [issue| |] eqn:Hissue;
      try done.
    intros H. apply IH in H as (Hsub & evs & issues & -> & Hrep & Hbuilt).
    split; [done|].
    exists (ReportIssue issue :: evs), (issue :: issues). split_and!.
    + unfold record. by rewrite extend_extend.
    + simpl. by rewrite Hrep.
    + constructor; [|done]. exists r0, plugin_info. split_and!; try done.
      by eapply lookup_weaken.
  - destruct (get_plugin_info R (JStr r0) s) as [[plugin_info| |] s1]
      eqn:Hfetch; try done.
    destruct (get_plugin_info_events _ _ _ _ _ Hfetch)
      as (evs1 & -> & _ & Hrep1).
    destruct (create_issue row plugin_info) as [issue| |] eqn:Hissue;
      try done.
    intros H. apply IH in H as (Hsub & evs & issues & -> & Hrep & Hbuilt).
    split.
    + etrans; [|exact Hsub]. by apply insert_subseteq.
    + exists (evs1 ++ ReportIssue issue :: evs), (issue :: issues).
      split_and!.
      * unfold record. by rewrite !extend_extend.
      * rewrite reported_app, Hrep1. simpl. by rewrite Hrep.
      * constructor; [|done]. exists r0, plugin_info. split_and!; try done.
        eapply lookup_weaken; [|exact Hsub]. apply lookup_insert_eq.
Qed.

Lemma parse_rows_headers rows plugins s :
  data_rows rows = [] -> parse_rows R rows plugins s = (Ret plugins, s).
Proof.
  induction rows as [|row rest IH]; [done|]. intros Hrows.
  destruct (decide (is_header row)) as [Hrow|Hrow].
  - rewrite (data_rows_header row rest Hrow) in Hrows.
    rewrite parse_rows_cons, Hrow. rewrite decide_True by done. by apply IH.
  - by rewrite (data_rows_data row rest Hrow) in Hrows.
Qed.

(** X19.  An export without data rows, be it empty or made of header rows,
    costs no request and no issue: the pass reports the run as finished and
    returns. *)
Theorem pass_without_data_rows data s lines yielded :
  lines_of R data = Ret lines ->
  csv_reader R lines = (yielded, None) ->
  data_rows yielded = [] ->
  parse_csv_data R data s = (Ret [], extend s [ReportFinish]).
Proof.
  intros Hlines Hreader Hrows.
  rewrite parse_csv_data_unfold, Hlines, Hreader. simpl.
  by rewrite (parse_rows_headers yielded ∅ s Hrows).
Qed.

(** X20.  A plugin id in which "download" occurs makes [connect] hand the
    metadata back undecoded, and [create_issue] raise a TypeError on them:
    the pass stops at the first row of such a plugin, after its request. *)
Theorem download_in_plugin_id data s lines row rest failure id :
  let rq := fetch_for R s id in
  let r := server R (trace s) rq in
  lines_of R data = Ret lines ->
  csv_reader R lines = (row :: rest, failure) ->
  row !! 0%nat = Some id ->
  contains "download" id = true ->
  status_code r = 200 ->
  parse_csv_data R data s = (Raise TypeError, extend s [Http rq r]).
Proof.
  intros rq r Hlines Hreader Hid Hraw Hstatus.
  rewrite parse_csv_data_unfold, Hlines, Hreader. cbn [fst snd].
  rewrite parse_rows_cons, Hid.
  assert (Hne : id ≠ "Plugin ID") by (by intros ->).
  rewrite decide_False by done. rewrite lookup_empty.
  unfold get_plugin_info. rewrite connect_unfold.
  change (request_for R s "GET" ("/plugins/plugin/" +:+ format R (JStr id))
            JNull) with rq.
  fold r. rewrite Hstatus. rewrite bool_decide_eq_false_2 by (by intros H).
  change (format R (JStr id)) with id.
  by rewrite (contains_app_r "download" "/plugins/plugin/" id Hraw).
Qed.

End Passes.

Lemma failed_pass_reports_prefix_witness :
  exists evs,
    parse_csv_data kerberos_server (VRaw second_short) (Py.plugin [])
      = (Raise IndexError, extend (Py.plugin []) evs) /\
    reported evs = [ReportIssue (kerberos_issue "10.0.1.1")].
Proof.
  assert (Hrun : parse_csv_data kerberos_server (VRaw second_short)
                   (Py.plugin [])
                 = (Raise IndexError,
                    after (parse_csv_data kerberos_server (VRaw second_short))
                      (Py.plugin [])))
    by (vm_compute; reflexivity).
  destruct (failed_pass_reports_prefix kerberos_server (VRaw second_short)
              (Py.plugin []) _ _ _ _ _ eq_refl eq_refl Hrun
              ltac:(intros v; discriminate))
    as (evs & issues & done & Hs & Hrep & _).
  exists evs. split; [by rewrite Hrun, Hs|].
  assert (Hevs : reported (trace (after (parse_csv_data kerberos_server
                                           (VRaw second_short))
                                    (Py.plugin [])))
                 = [ReportIssue (kerberos_issue "10.0.1.1")])
    by (vm_compute; reflexivity).
  rewrite Hs in Hevs. exact Hevs.
Defined.

Lemma pass_without_data_rows_witness :
  parse_csv_data kerberos_server (VRaw header_only) (Py.plugin [])
    = (Ret [], extend (Py.plugin []) [ReportFinish]).
Proof.
  apply (pass_without_data_rows kerberos_server (VRaw header_only)
           (Py.plugin []) (Py.str_splitlines header_only)
           (Py.reader (Py.str_splitlines header_only)).1);
    vm_compute; reflexivity.
Defined.

Lemma download_in_plugin_id_witness :
  let data := VRaw ("download-1,,,Low" +:+ lf) in
  parse_csv_data kerberos_server data (Py.plugin [])
    = (Raise TypeError,
       extend (Py.plugin [])
         [Http (fetch_for kerberos_server (Py.plugin []) "download-1")
            (metadata "Kerberos Information Disclosure")]).
Proof.
  intros data.
  apply (download_in_plugin_id kerberos_server data (Py.plugin [])
           ["download-1,,,Low"] ["download-1"; ""; ""; "Low"] [] None
           "download-1"); vm_compute; reflexivity.
Defined.

(** ** Whole runs *)

Section Stages.

Context (R : Runtime) (t : json) (P : Event -> Prop).

Hypothesis P_request : forall s method resource data r,
  _token s = t -> method = "GET" \/ method = "POST" ->
  P (Http (request_for R s method resource data) r).
Hypothesis P_log : forall msg, P (LogError msg).
Hypothesis P_sleep : P (Sleep 5).

Lemma keeps_ret {A} (a : A) : keeps t P (mret a).
Proof.
  intros s o s' Ht [= <- <-]. split; [done|]. exists [].
  by rewrite app_nil_r.
Qed.

Lemma keeps_lift {A} (o : outcome A) : keeps t P (lift o).
Proof.
  intros s o' s' Ht [= <- <-]. split; [done|]. exists [].
  by rewrite app_nil_r.
Qed.

Lemma keeps_get_self : keeps t P get_self.
Proof.
  intros s o s' Ht [= <- <-]. split; [done|]. exists [].
  by rewrite app_nil_r.
Qed.

Lemma keeps_config_get k : keeps t P (config_get k).
Proof.
  intros s o s' Ht [= <- <-]. split; [done|]. exists [].
  by rewrite app_nil_r.
Qed.

Lemma keeps_emit e : P e -> keeps t P (emit e).
Proof.
  intros He s o s' Ht [= <- <-]. split; [done|]. exists [e].
  split; [done|]. by constructor.
Qed.

Lemma keeps_bind {A B} (m : M A) (k : A -> M B) :
  keeps t P m -> (forall a, keeps t P (k a)) -> keeps t P (m ≫= k).
Proof.
  intros Hm Hk s o s' Ht H.
  apply bind_inv in H as [(a & s1 & H1 & H2)|[(e & H1 & _)|[H1 _]]];
    [|by eapply Hm..].
  destruct (Hm _ _ _ Ht H1) as (Ht1 & evs1 & Htr1 & Hevs1).
  destruct (Hk a _ _ _ Ht1 H2) as (Ht2 & evs2 & Htr2 & Hevs2).
  split; [done|]. exists (evs1 ++ evs2). split.
  - by rewrite Htr2, Htr1, app_assoc.
  - by apply Forall_app.
Qed.

Lemma keeps_connect method resource data :
  method = "GET" \/ method = "POST" ->
  keeps t P (connect R method resource data).
Proof.
  intros Hmethod s o s' Ht H.
  destruct (connect_events _ _ _ _ _ _ _ H) as (evs & -> & [->|[msg ->]] & _);
    (split; [done|]); eexists; (split; [reflexivity|]);
    repeat constructor; auto.
Qed.

Lemma keeps_get_policies : keeps t P (get_policies R).
Proof.
  unfold get_policies.
  apply keeps_bind; [apply keeps_connect; by left|intros data].
  apply keeps_bind; [apply keeps_lift|intros templates].
  apply keeps_bind; [apply keeps_lift|intros items]. apply keeps_lift.
Qed.

Lemma keeps_add name desc targets pid :
  keeps t P (add R name desc targets pid).
Proof.
  unfold add. apply keeps_bind; [apply keeps_connect; by right|intros data].
  apply keeps_lift.
Qed.

Lemma keeps_launch sid : keeps t P (launch R sid).
Proof.
  unfold launch. apply keeps_bind; [apply keeps_connect; by right|intros data].
  apply keeps_lift.
Qed.

Lemma keeps_get_history_ids sid : keeps t P (get_history_ids R sid).
Proof.
  unfold get_history_ids.
  apply keeps_bind; [apply keeps_connect; by left|intros data].
  apply keeps_bind; [apply keeps_lift|intros history].
  apply keeps_bind; [apply keeps_lift|intros items]. apply keeps_lift.
Qed.

Lemma keeps_status sid hid : keeps t P (status R sid hid).
Proof.
  unfold status, get_scan_history.
  apply keeps_bind; [|intros d; apply keeps_lift].
  apply keeps_bind; [apply keeps_connect; by left|intros data].
  apply keeps_lift.
Qed.

Lemma keeps_status_wait fuel sid hid : keeps t P (status_wait R fuel sid hid).
Proof.
  induction fuel as [|fuel IH]; simpl; [apply keeps_lift|].
  apply keeps_bind; [apply keeps_status|intros st].
  destruct (is_str "completed" st); [apply keeps_ret|].
  apply keeps_bind; [by apply keeps_emit|intros _]. apply IH.
Qed.

Lemma keeps_export_wait fuel sid fid : keeps t P (export_wait R fuel sid fid).
Proof.
  induction fuel as [|fuel IH]; simpl; [apply keeps_lift|].
  apply keeps_bind.
  - unfold export_status.
    apply keeps_bind; [apply keeps_connect; by left|intros data].
    apply keeps_bind; [apply keeps_lift|intros st]. apply keeps_ret.
  - intros [|]; [apply keeps_ret|].
    apply keeps_bind; [by apply keeps_emit|intros _]. apply IH.
Qed.

Lemma keeps_export fuel sid hid data_format :
  keeps t P (export R fuel sid hid data_format).
Proof.
  unfold export. apply keeps_bind; [apply keeps_connect; by right|intros data].
  apply keeps_bind; [apply keeps_lift|intros fid].
  apply keeps_bind; [apply keeps_export_wait|intros _]. apply keeps_ret.
Qed.

Lemma keeps_download sid fid : keeps t P (download R sid fid).
Proof. unfold download. apply keeps_connect. by left. Qed.

Hypothesis P_issue : forall issue, P (ReportIssue issue).
Hypothesis P_finish : P ReportFinish.

Lemma keeps_parse_rows rows : forall plugins,
  keeps t P (parse_rows R rows plugins).
Proof.
  induction rows as [|row rest IH]; intros plugins; simpl; [apply keeps_ret|].
  apply keeps_bind; [apply keeps_lift|intros r0].
  destruct (decide (r0 = "Plugin ID")); [apply IH|].
  apply keeps_bind.
  - destruct (plugins !! r0); [apply keeps_ret|].
    apply keeps_bind; [|intros plugin_info; apply keeps_ret].
    unfold get_plugin_info. apply keeps_connect. by left.
  - intros plugins'. apply keeps_bind; [apply keeps_lift|intros plugin_info].
    apply keeps_bind; [apply keeps_lift|intros issue].
    apply keeps_bind; [by apply keeps_emit|intros _]. apply IH.
Qed.

Lemma keeps_parse_csv_data data : keeps t P (parse_csv_data R data).
Proof.
  unfold parse_csv_data. apply keeps_bind; [apply keeps_lift|intros rows].
  destruct (csv_reader R rows) as [yielded failure].
  apply keeps_bind; [apply keeps_parse_rows|intros _].
  apply keeps_bind; [apply keeps_lift|intros _].
  apply keeps_bind; [by apply keeps_emit|intros _]. apply keeps_ret.
Qed.

Lemma keeps_do_run_session fuel : keeps t P (do_run_session R fuel).
Proof.
  unfold do_run_session.
  apply keeps_bind; [apply keeps_get_policies|intros policies].
  do 4 (apply keeps_bind; [apply keeps_config_get|intros ?]).
  apply keeps_bind; [apply keeps_lift|intros policy_id].
  unfold do_run_policy.
  apply keeps_bind; [apply keeps_add|intros scan_data].
  apply keeps_bind; [apply keeps_lift|intros scan_id].
  apply keeps_bind; [apply keeps_launch|intros scan_uuid].
  apply keeps_bind; [apply keeps_get_history_ids|intros history_ids].
  apply keeps_bind; [apply keeps_lift|intros history_id].
  unfold do_run_scan.
  apply keeps_bind; [apply keeps_status_wait|intros _].
  unfold do_run_export.
  apply keeps_bind; [apply keeps_export|intros file_id].
  apply keeps_bind; [apply keeps_download|intros data].
  apply keeps_bind; [apply keeps_parse_csv_data|intros _]. apply keeps_ret.
Qed.

End Stages.

Lemma keeps_emits {A} (P : Event -> Prop) (m : M A) :
  (forall t, keeps t P m) -> emits P m.
Proof. intros Hm s o s' H. by destruct (Hm (_token s) s o s') as [_ ?]. Qed.

Section Runs.

Context (R : Runtime).

Lemma do_run_session_eq fuel :
  do_run R fuel = (_ ← login R; do_run_session R fuel).
Proof. reflexivity. Qed.

(** X21.  [do_run] sends requests by GET and by POST only: whatever the
    server answers and however the run ends, it never deletes the scan it
    has created and never logs out of the session it has opened. *)
Theorem do_run_never_deletes fuel s :
  exists evs,
    trace (after (do_run R fuel) s) = trace s ++ evs /\
    Forall (fun rq => rq_verb rq = GET \/ rq_verb rq = POST) (requests evs).
Proof.
  assert (Hrq : forall s0 method resource data r,
            method = "GET" \/ method = "POST" ->
            reads_or_posts (Http (request_for R s0 method resource data) r)).
  { intros s0 method resource data r [->| ->]; simpl; auto. }
  assert (Hrun : emits reads_or_posts (do_run R fuel)).
  { rewrite do_run_session_eq. apply emits_bind.
    - unfold login. apply emits_bind; [apply emits_get_self|intros self].
      apply emits_bind; [apply emits_connect; auto; by intros|intros data].
      apply emits_bind; [apply emits_lift|intros token].
      apply emits_bind; [apply emits_put_token|intros _]. apply emits_lift.
    - intros _. apply keeps_emits. intros t.
      apply keeps_do_run_session; try done. intros; by apply Hrq. }
  destruct (Hrun s _ _ (surjective_pairing _)) as (evs & Htr & Hevs).
  exists evs. split; [done|].
  clear Htr. induction Hevs as [|e evs He _ IH]; [constructor|].
  destruct e; simpl; try done. by constructor.
Qed.

(** X22.  Every request [do_run] sends after the login carries, in its
    X-Cookie header, the token that [login] has read from the server, and the
    plugin holds that token when the run ends; the request of the login
    itself carries the token the plugin held before.  When the login fails
    the run ends in the state the login leaves. *)
Theorem session_token_is_carried fuel s :
  (exists evs, trace (after (login R) s) = trace s ++ evs /\
     Forall (carries R (_token s)) evs) /\
  match login R s with
  | (Ret token, s1) =>
      _token (after (do_run R fuel) s) = token /\
      exists evs,
        trace (after (do_run R fuel) s) = trace s1 ++ evs /\
        Forall (carries R token) evs
  | (_, s1) => after (do_run R fuel) s = s1
  end.
Proof.
  split.
  - unfold after. rewrite login_unfold.
    destruct (connect R "POST" "/session" _ s) as [o0 s0] eqn:Hc.
    destruct (connect_events _ _ _ _ _ _ _ Hc) as (evs & -> & Hevs & _).
    exists evs. split.
    + destruct o0 as [data| |]; [destruct (vget data "token")|..]; done.
    + destruct Hevs as [->|[msg ->]]; by repeat constructor.
  - unfold after. rewrite do_run_session_eq.
    destruct (login R s) as [[token|e|] s1] eqn:Hlogin.
    + rewrite (bind_ret _ _ _ _ _ Hlogin).
      assert (Ht : _token s1 = token).
      { rewrite login_unfold in Hlogin.
        destruct (connect R "POST" "/session" _ s) as [[data| |] s0];
          try done.
        destruct (vget data "token"); try done. by injection Hlogin as <- <-. }
      destruct (keeps_do_run_session R token (carries R token)) with
        (fuel := fuel) (s := s1) (o := (do_run_session R fuel s1).1)
        (s' := (do_run_session R fuel s1).2) as (Ht' & evs & Htr & Hevs);
        try done.
      * intros s2 method resource data r Hs2 _. simpl. by rewrite Hs2.
      * apply surjective_pairing.
      * split; [done|]. by exists evs.
    + by rewrite (bind_raise _ _ _ _ _ Hlogin).
    + by rewrite (bind_diverge _ _ _ _ Hlogin).
Qed.

Lemma connect_refused method resource data s r members msg :
  server R (trace s) (request_for R s method resource data) = r ->
  status_code r ≠ 200 ->
  json_body r = Some (JObj members) ->
  assoc "error" members = Some (JStr msg) ->
  contains "download" resource || bool_decide (method = "DELETE") = false ->
  connect R method resource data s =
    (Ret (VJson (JObj members)),
     extend s [Http (request_for R s method resource data) r;
               LogError ("Unexpected response from Nessus" +:+ msg)]).
Proof.
  intros Hr Hstatus Hbody Herror Hraw. rewrite connect_unfold, Hr.
  rewrite bool_decide_true by done. unfold json_of. rewrite Hbody. simpl.
  by rewrite Herror, Hraw.
Qed.

(** X25.  The answer of a refusal is read as data.  When the server answers
    with a status other than 200 and a body that holds its "error" message
    but not the key the caller expects, [login], [get_policies] and [add]
    end in a KeyError for that key, after the one request and the log entry
    of [connect]; and a run whose login is refused that way ends there, with
    the same KeyError, whatever the bound of its loops. *)
Theorem refusal_is_read_as_data r members msg s :
  status_code r ≠ 200 ->
  json_body r = Some (JObj members) ->
  assoc "error" members = Some (JStr msg) ->
  (let rq := request_for R s "POST" "/session"
               (JObj [("username", JStr (_username s));
                      ("password", JStr (_password s))]) in
   server R (trace s) rq = r -> assoc "token" members = None ->
   login R s = key_error_after rq r msg s /\
   forall fuel, do_run R fuel s = key_error_after rq r msg s) /\
  (let rq := request_for R s "GET" "/editor/policy/templates" JNull in
   server R (trace s) rq = r -> assoc "templates" members = None ->
   get_policies R s = key_error_after rq r msg s) /\
  (forall name desc targets pid,
   let rq := request_for R s "POST" "/scans"
               (JObj [("uuid", pid);
                      ("settings", JObj [("name", name);
                                         ("description", desc);
                                         ("text_targets", targets)])]) in
   server R (trace s) rq = r -> assoc "scan" members = None ->
   add R name desc targets pid s = key_error_after rq r msg s).
Proof.
  intros Hstatus Hbody Herror. split_and!.
  - intros rq Hr Hkey.
    assert (Hlogin : login R s = key_error_after rq r msg s).
    { rewrite login_unfold.
      rewrite (connect_refused _ _ _ _ _ _ _ Hr Hstatus Hbody Herror eq_refl).
      simpl. by rewrite Hkey. }
    split; [done|]. intros fuel. rewrite do_run_session_eq.
    by apply bind_raise.
  - intros rq Hr Hkey. unfold get_policies.
    rewrite (bind_ret _ _ _ _ _
               (connect_refused _ _ _ _ _ _ _ Hr Hstatus Hbody Herror eq_refl)).
    apply bind_raise. unfold lift. simpl. by rewrite Hkey.
  - intros name desc targets pid rq Hr Hkey. unfold add.
    rewrite (bind_ret _ _ _ _ _
               (connect_refused _ _ _ _ _ _ _ Hr Hstatus Hbody Herror eq_refl)).
    unfold lift. simpl. by rewrite Hkey.
Qed.

End Runs.

Lemma refusal_is_read_as_data_witness :
  let R := Py.runtime [refused] in
  let s := Py.plugin e2e_cfg in
  status_code refused ≠ 200 /\
  do_run R 10 s =
    key_error_after (request_for R s "POST" "/session" credentials) refused
      "Invalid Credentials" s.
Proof.
  intros R s.
  assert (Hstatus : status_code refused ≠ 200) by (vm_compute; discriminate).
  split; [exact Hstatus|].
  exact (proj2 (proj1 (refusal_is_read_as_data R refused
                         [("error", JStr "Invalid Credentials")]
                         "Invalid Credentials" s Hstatus eq_refl eq_refl)
                  eq_refl eq_refl) 10%nat).
Defined.

(** ** The metadata, the policy and the history of a run *)

Lemma plugin_name_of_inv attributes : forall acc name,
  plugin_name_of attributes acc = Ret (JStr name) ->
  (acc = JStr name /\ Forall other_attribute attributes) \/
  exists before attribute after,
    attributes = before ++ attribute :: after /\
    Forall passable_attribute before /\
    jget attribute "attribute_name" = Ret (JStr "plugin_name") /\
    jget attribute "attribute_value" = Ret (JStr name) /\
    Forall other_attribute after.
Proof.
  induction attributes as [|p rest IH]; intros acc name; simpl.
  { intros [= ->]. by left. }
  unfold mbind, outcome_bind.
  destruct (jget p "attribute_name") as [n| |] eqn:Hn; try done.
  destruct (is_str "plugin_name" n) eqn:Hnamed.
  - apply is_str_true in Hnamed as ->.
    destruct (jget p "attribute_value") as [v| |] eqn:Hv; try done.
    intros H. right.
    apply IH in H as [[-> Hrest]|(before & attribute & after & -> & Hb & Ha & Hval
                                & Hafter)].
    + by exists [], p, rest.
    + exists (p :: before), attribute, after. split_and!; try done.
      constructor; [|done]. exists (JStr "plugin_name"). split; [done|].
      intros _. by exists v.
  - apply is_str_false in Hnamed. intros H.
    apply IH in H as [[-> Hrest]|(before & attribute & after & -> & Hb & Ha & Hval
                                & Hafter)].
    + left. split; [done|]. constructor; [|done]. by exists n.
    + right. exists (p :: before), attribute, after. split_and!; try done.
      constructor; [|done]. exists n. split; [done|]. by intros ->.
Qed.

Lemma plugin_name_of_passable before : forall acc,
  Forall passable_attribute before ->
  exists name, plugin_name_of before acc = Ret name.
Proof.
  induction before as [|p rest IH]; intros acc H; simpl; [by exists acc|].
  apply Forall_cons in H as [(n & Hn & Hv) Hrest].
  unfold mbind, outcome_bind. rewrite Hn.
  destruct (is_str "plugin_name" n) eqn:Hnamed; [|by apply IH].
  apply is_str_true in Hnamed. destruct (Hv Hnamed) as [v ->]. by apply IH.
Qed.

Lemma get_plugin_name_named plugin_info name :
  _get_plugin_name plugin_info = Ret (JStr name) <->
  plugin_named plugin_info name.
Proof.
  split.
  - unfold _get_plugin_name. destruct plugin_info as [raw|body]; [done|].
    simpl. unfold mbind, outcome_bind.
    destruct (jget body "attributes") as [attributes| |] eqn:Hattrs;
      try done.
    assert (Hstrings : forall l : list string,
              plugin_name_of (JStr <$> l) JNull ≠ Ret (JStr name))
      by (by intros [|x l]).
    destruct attributes as [| | |text|items|members]; simpl; try done.
    + unfold chars. by destruct (list_ascii_of_string text).
    + intros H. apply plugin_name_of_inv in H
        as [[? _]|(before & attribute & after & -> & H)]; [done|].
      by exists body, before, attribute, after.
    + intros H. by destruct (Hstrings _ H).
  - intros (body & before & attribute & after & -> & Hattrs & Hb & Hn & Hv
            & Ha).
    unfold _get_plugin_name. simpl. rewrite Hattrs. simpl.
    rewrite plugin_name_of_app.
    destruct (plugin_name_of_passable before JNull Hb) as [acc ->]. simpl.
    rewrite Hn. simpl. rewrite Hv. simpl.
    by apply plugin_name_of_others.
Qed.

(** C7.  [create_issue] yields an issue exactly when the metadata name the
    plugin, by the string value of the last attribute called "plugin_name"
    in the list under "attributes", and the row has the columns that are
    read.  The summary of the issue is then the synopsis (column 8); its
    description is that name, the synopsis, the description, the solution and
    the plugin output (columns 8, 9, 10 and 12) joined by single spaces, the
    see-also column (11) being left out; its only URL is the host and the
    port (columns 4 and 6) around a colon; and its only port is column 6. *)
Theorem issue_fields row plugin_info issue :
  create_issue row plugin_info = Ret issue <->
  exists name risk host port synopsis description solution output,
    plugin_named plugin_info name /\
    row !! 3%nat = Some risk /\ row !! 4%nat = Some host /\
    row !! 6%nat = Some port /\ row !! 8%nat = Some synopsis /\
    row !! 9%nat = Some description /\ row !! 10%nat = Some solution /\
    row !! 12%nat = Some output /\
    Severity issue = minion_severity risk /\
    Summary issue = synopsis /\
    Description issue =
      name +:+ " " +:+ synopsis +:+ " " +:+ description +:+ " " +:+ solution
        +:+ " " +:+ output /\
    URLs issue = [ {| URL := host +:+ ":" +:+ port |} ] /\
    Ports issue = [port].
Proof.
  split.
  - intros H. destruct (create_issue_inv _ _ _ H)
      as (name & risk & host & port & syn & descr & sol & out
          & Hn & H3 & H4 & H6 & H8 & H9 & H10 & H12 & ->).
    apply get_plugin_name_named in Hn.
    by exists name, risk, host, port, syn, descr, sol, out.
  - intros (name & risk & host & port & syn & descr & sol & out
            & Hn & H3 & H4 & H6 & H8 & H9 & H10 & H12
            & Hsev & Hsum & Hdescr & Hurls & Hports).
    apply get_plugin_name_named in Hn.
    rewrite (create_issue_intro _ _ _ _ _ _ _ _ _ _ Hn H3 H4 H6 H8 H9 H10 H12).
    destruct issue. simpl in *. unfold issue_of. by subst.
Qed.

Lemma issue_fields_witness :
  let row := kerberos_row "10.0.1.1" "Low" in
  plugin_named kerberos_info "Kerberos Information Disclosure" /\
  create_issue row kerberos_info =
    Ret {| Severity := "Low";
           Summary := "A Kerberos server is listening.";
           Description := "Kerberos Information Disclosure A Kerberos server is listening. The remote host runs Kerberos. n/a Heimdal";
           URLs := [ {| URL := "10.0.1.1:88" |} ];
           Ports := ["88"] |}.
Proof.
  intros row.
  assert (Hnamed : plugin_named kerberos_info
                     "Kerberos Information Disclosure").
  { eexists _, [], _, [_]. split_and!; try reflexivity; [constructor|].
    constructor; [|constructor]. eexists. by split. }
  split; [exact Hnamed|].
  apply (proj2 (issue_fields row kerberos_info _)).
  exists "Kerberos Information Disclosure", "Low", "10.0.1.1", "88",
    "A Kerberos server is listening.", "The remote host runs Kerberos.",
    "n/a", "Heimdal".
  split_and!; try reflexivity. exact Hnamed.
Defined.

Section Resolution.

Context (R : Runtime).

Lemma bind_assoc_at {A B C} (m : M A) (f : A -> M B) (g : B -> M C) s :
  ((m ≫= f) ≫= g) s = (m ≫= fun a => f a ≫= g) s.
Proof. unfold mbind, M_bind. by destruct (m s) as [[a|e|] s1]. Qed.

(** The listings, once the server has answered with a list. *)
Lemma catalog_fetched s body s1 items :
  connect R "GET" "/editor/policy/templates" JNull s = (Ret (VJson body), s1) ->
  jget body "templates" = Ret (JArr items) ->
  get_policies R s = (dict_of_items "title" "uuid" items ∅, s1).
Proof.
  intros Hconnect Hbody. unfold get_policies.
  rewrite (bind_ret _ _ _ _ _ Hconnect).
  unfold mbind, M_bind, lift. simpl. rewrite Hbody. simpl.
  by destruct (dict_of_items _ _ _ _).
Qed.

(** The run up to the choice of the policy. *)
Lemma do_run_at_policy fuel s0 token s1 policies s2 :
  login R s0 = (Ret token, s1) ->
  get_policies R s1 = (Ret policies, s2) ->
  do_run R fuel s0 =
    (policy_id ← lift (dict_getitem policies (setting s2 "policy"));
     do_run_policy R fuel (setting s2 "scan_name")
       (setting s2 "scan_description") (setting s2 "target") policy_id) s2.
Proof.
  intros Hlogin Hpolicies. unfold do_run.
  by rewrite (bind_ret _ _ _ _ _ Hlogin), (bind_ret _ _ _ _ _ Hpolicies).
Qed.

(** What follows the choice of the history id adds to the trace. *)
Lemma grows_do_run_scan fuel sid hid :
  emits (fun _ => True) (do_run_scan R fuel sid hid).
Proof.
  apply keeps_emits. intros t. unfold do_run_scan, do_run_export.
  apply keeps_bind; [by apply keeps_status_wait|intros _].
  apply keeps_bind; [by apply keeps_export|intros file_id].
  apply keeps_bind; [by apply keeps_download|intros data].
  apply keeps_bind; [by apply keeps_parse_csv_data|intros _].
  apply keeps_ret.
Qed.

Lemma grows_launched fuel scan_data :
  emits (fun _ => True)
    (scan_id ← lift (jget scan_data "id");
     scan_uuid ← launch R scan_id;
     history_ids ← get_history_ids R scan_id;
     history_id ← lift (dict_getitem history_ids scan_uuid);
     do_run_scan R fuel scan_id history_id).
Proof.
  apply emits_bind; [apply emits_lift|intros scan_id].
  apply emits_bind.
  { apply keeps_emits. intros t. by apply keeps_launch. }
  intros scan_uuid. apply emits_bind.
  { apply keeps_emits. intros t. by apply keeps_get_history_ids. }
  intros history_ids. apply emits_bind; [apply emits_lift|intros history_id].
  apply grows_do_run_scan.
Qed.

(** Once the policy id is chosen, the run goes on with the request that
    creates the scan. *)
Lemma do_run_policy_starts fuel name descr targets pid s :
  let rq := request_for R s "POST" "/scans"
              (JObj [("uuid", pid);
                     ("settings", JObj [("name", name);
                                        ("description", descr);
                                        ("text_targets", targets)])]) in
  exists evs,
    trace (after (do_run_policy R fuel name descr targets pid) s) =
      trace s ++ Http rq (server R (trace s) rq) :: evs.
Proof.
  intros rq. unfold after, do_run_policy, add.
  rewrite bind_assoc_at.
  destruct (connect R "POST" "/scans" (rq_data rq) s) as [o1 s1] eqn:Hc.
  destruct (connect_events _ _ _ _ _ _ _ Hc) as (evs1 & -> & Hevs1 & _).
  assert (Hfirst : exists evs,
            trace (extend s evs1) = trace s ++ Http rq (server R (trace s) rq)
                                      :: evs).
  { destruct Hevs1 as [->|[msg ->]]; by eexists. }
  destruct Hfirst as [evs Hfirst].
  change (connect R "POST" "/scans" _ s)
    with (connect R "POST" "/scans" (rq_data rq) s).
  destruct o1 as [data|e|].
  - rewrite (bind_ret _ _ _ _ _ Hc).
    destruct (vget data "scan") as [scan_data|e|] eqn:Hscan.
    + rewrite (bind_ret _ _ _ _ _ (lift_eq _ _)).
      destruct (grows_launched fuel scan_data (extend s evs1) _ _
                  (surjective_pairing _)) as (evs2 & Htr & _).
      exists (evs ++ evs2). rewrite Htr, Hfirst. by rewrite <- app_assoc.
    + exists evs. by rewrite (bind_raise _ _ _ _ _ (lift_eq _ _)).
    + exists evs. by rewrite (bind_diverge _ _ _ _ (lift_eq _ _)).
  - exists evs. by rewrite (bind_raise _ _ _ _ _ Hc).
  - exists evs. by rewrite (bind_diverge _ _ _ _ Hc).
Qed.

(** C5.  The policy is resolved against the catalog the server has sent.
    When the catalog answered to [get_policies] is a list of entries with a
    title and a uuid, and an entry bears the configured title (the last such
    entry, should several bear it), then the policy id of the run is the uuid
    of that entry: [get_policies] returns a mapping in which the title gives
    this uuid, and the request that follows in the run creates the scan with
    it.  When no entry bears the title the run ends with a KeyError in the
    state the fetch of the catalog left: the catalog request is the last one,
    no scan is created or launched. *)
Theorem policy_resolution fuel s0 token s1 body s2 items k :
  login R s0 = (Ret token, s1) ->
  connect R "GET" "/editor/policy/templates" JNull s1
    = (Ret (VJson body), s2) ->
  jget body "templates" = Ret (JArr items) ->
  Forall (entry_ok "title" "uuid") items ->
  to_key (setting s2 "policy") = Some k ->
  (forall earlier entry later uuid,
     items = earlier ++ entry :: later ->
     has_key "title" k entry ->
     jget entry "uuid" = Ret uuid ->
     Forall (other_key "title" k) later ->
     let rq := request_for R s2 "POST" "/scans"
                 (JObj [("uuid", uuid);
                        ("settings",
                         JObj [("name", setting s2 "scan_name");
                               ("description", setting s2 "scan_description");
                               ("text_targets", setting s2 "target")])]) in
     (exists policies,
        get_policies R s1 = (Ret policies, s2) /\
        dict_getitem policies (setting s2 "policy") = Ret uuid) /\
     exists evs,
       trace (after (do_run R fuel) s0) =
         trace s2 ++ Http rq (server R (trace s2) rq) :: evs) /\
  (Forall (other_key "title" k) items ->
     do_run R fuel s0 = (Raise KeyError, s2) /\
     exists evs,
       s2 = extend s1 evs /\
       requests evs =
         [request_for R s1 "GET" "/editor/policy/templates" JNull]).
Proof.
  intros Hlogin Hconnect Hbody Hok Hk.
  destruct (proj2 (dict_of_items_returns "title" "uuid" items ∅) Hok)
    as [policies Hdict].
  assert (Hpolicies : get_policies R s1 = (Ret policies, s2))
    by (by rewrite (catalog_fetched _ _ _ _ Hconnect Hbody), Hdict).
  pose proof (do_run_at_policy fuel _ _ _ _ _ Hlogin Hpolicies) as Hrun.
  split.
  - intros earlier entry later uuid -> (t & Ht & Hkt) Huuid Hlater rq.
    assert (Hget : dict_getitem policies (setting s2 "policy") = Ret uuid).
    { unfold dict_getitem. rewrite Hk.
      by rewrite (dict_of_items_last _ _ _ _ _ _ _ _ _ _
                    Ht Hkt Huuid Hlater Hdict). }
    split; [by exists policies|].
    unfold after. rewrite Hrun.
    rewrite (bind_ret _ _ _ _ uuid (eq_trans (lift_eq _ _)
                                      (f_equal (fun o => (o, s2)) Hget))).
    apply do_run_policy_starts.
  - intros Hnone. split.
    + rewrite Hrun. apply bind_raise. unfold lift, dict_getitem. rewrite Hk.
      rewrite (dict_of_items_other _ _ _ _ _ _ Hnone Hdict).
      by rewrite lookup_empty.
    + destruct (connect_events _ _ _ _ _ _ _ Hconnect)
        as (evs & -> & [->|[msg ->]] & _); by eexists.
Qed.

Lemma history_fetched sid s body s1 items :
  connect R "GET" ("/scans/" +:+ format R sid) JNull s
    = (Ret (VJson body), s1) ->
  jget body "history" = Ret (JArr items) ->
  get_history_ids R sid s = (dict_of_items "uuid" "history_id" items ∅, s1).
Proof.
  intros Hconnect Hbody. unfold get_history_ids.
  rewrite (bind_ret _ _ _ _ _ Hconnect).
  unfold mbind, M_bind, lift. simpl. rewrite Hbody. simpl.
  by destruct (dict_of_items _ _ _ _).
Qed.

(** Requests without data, and what is not a request, name no history id. *)
Lemma unnamed_export_wait fuel sid fid :
  emits no_history_id (export_wait R fuel sid fid).
Proof.
  induction fuel as [|fuel IH]; simpl; [apply emits_lift|].
  apply emits_bind.
  - unfold export_status.
    apply emits_bind; [by apply emits_connect|intros data].
    apply emits_bind; [apply emits_lift|intros st]. apply emits_ret.
  - intros [|]; [apply emits_ret|].
    apply emits_bind; [by apply emits_emit|intros _]. apply IH.
Qed.

Lemma unnamed_parse_rows rows : forall plugins,
  emits no_history_id (parse_rows R rows plugins).
Proof.
  induction rows as [|row rest IH]; intros plugins; simpl; [apply emits_ret|].
  apply emits_bind; [apply emits_lift|intros r0].
  destruct (decide (r0 = "Plugin ID")); [apply IH|].
  apply emits_bind.
  - destruct (plugins !! r0); [apply emits_ret|].
    apply emits_bind; [|intros plugin_info; apply emits_ret].
    unfold get_plugin_info. by apply emits_connect.
  - intros plugins'. apply emits_bind; [apply emits_lift|intros plugin_info].
    apply emits_bind; [apply emits_lift|intros issue].
    apply emits_bind; [by apply emits_emit|intros _]. apply IH.
Qed.

Lemma unnamed_parse_csv_data data :
  emits no_history_id (parse_csv_data R data).
Proof.
  unfold parse_csv_data. apply emits_bind; [apply emits_lift|intros rows].
  destruct (csv_reader R rows) as [yielded failure].
  apply emits_bind; [apply unnamed_parse_rows|intros _].
  apply emits_bind; [apply emits_lift|intros _].
  apply emits_bind; [by apply emits_emit|intros _]. apply emits_ret.
Qed.

(** The loop polls at once. *)
Lemma status_wait_first fuel sid hid s o polls :
  let poll := request_for R s "GET" ("/scans/" +:+ format R sid)
                (JObj [("history_id", hid)]) in
  status_wait R (S fuel) sid hid s = (o, extend s polls) ->
  exists r polls', polls = Http poll r :: polls'.
Proof.
  intros poll H.
  assert (Htrace : exists r evs,
            trace (extend s polls) = trace s ++ Http poll r :: evs).
  { revert H. generalize (extend s polls). intros s' H. simpl in H.
    unfold status, get_scan_history in H. rewrite !bind_assoc_at in H.
    destruct (connect R "GET" ("/scans/" +:+ format R sid)
                (JObj [("history_id", hid)]) s) as [o1 s1] eqn:Hc.
    destruct (connect_events _ _ _ _ _ _ _ Hc) as (evs1 & -> & Hevs1 & _).
    assert (Hfirst : exists r evs,
              trace (extend s evs1) = trace s ++ Http poll r :: evs).
    { destruct Hevs1 as [->|[msg ->]]; by eexists _, _. }
    destruct Hfirst as (r & evs & Hfirst).
    assert (Hrest : forall k : value -> M (),
              (forall a, emits (fun _ => True) (k a)) ->
              (connect R "GET" ("/scans/" +:+ format R sid)
                 (JObj [("history_id", hid)]) ≫= k) s = (o, s') ->
              exists evs', trace s' = trace (extend s evs1) ++ evs').
    { intros k Hk Hrun. destruct o1 as [a|e|].
      - rewrite (bind_ret _ _ _ _ _ Hc) in Hrun.
        destruct (Hk _ _ _ _ Hrun) as (evs' & Htr & _). by exists evs'.
      - rewrite (bind_raise _ _ _ _ _ Hc) in Hrun. injection Hrun as _ <-.
        exists []. by rewrite app_nil_r.
      - rewrite (bind_diverge _ _ _ _ Hc) in Hrun. injection Hrun as _ <-.
        exists []. by rewrite app_nil_r. }
    apply Hrest in H as [evs' Htr].
    - exists r, (evs ++ evs'). by rewrite Htr, Hfirst, <- app_assoc.
    - intros data.
      apply emits_bind; [apply emits_lift|intros d].
      apply emits_bind; [apply emits_lift|intros st].
      destruct (is_str "completed" st); [apply emits_ret|].
      apply emits_bind; [by apply emits_emit|intros _].
      apply keeps_emits. intros t. by apply keeps_status_wait. }
  destruct Htrace as (r & evs & Htrace). simpl in Htrace.
  apply app_inv_head in Htrace. by exists r, evs.
Qed.

(** The run from the polling loop on: polls for the history id, then, if the
    loop has ended, the request for the export of that history id, and after
    it requests that name no history. *)
Lemma do_run_scan_shape fuel sid hid s :
  let poll := request_for R s "GET" ("/scans/" +:+ format R sid)
                (JObj [("history_id", hid)]) in
  let export_rq := request_for R s "POST"
                     ("/scans/" +:+ format R sid +:+ "/export")
                     (JObj [("history_id", hid); ("format", JStr "csv")]) in
  exists polls rest,
    trace (after (do_run_scan R fuel sid hid) s) = trace s ++ polls ++ rest /\
    Forall (poll_event poll) polls /\
    (fuel ≠ 0%nat -> exists r polls', polls = Http poll r :: polls') /\
    ((rest = [] /\ (do_run_scan R fuel sid hid s).1 ≠ Ret ()) \/
     exists r rest',
       rest = Http export_rq r :: rest' /\ Forall no_history_id rest').
Proof.
  intros poll export_rq. unfold after, do_run_scan.
  destruct (status_wait R fuel sid hid s) as [o1 s1] eqn:Hwait.
  destruct (status_wait_events _ _ _ _ _ _ _ Hwait) as (polls & -> & Hpolls).
  assert (Hfirst : fuel ≠ 0%nat -> exists r polls', polls = Http poll r :: polls').
  { destruct fuel as [|fuel]; [done|]. intros _.
    by apply (status_wait_first _ _ _ _ _ _ Hwait). }
  destruct o1 as [[]|e|].
  - rewrite (bind_ret _ _ _ _ _ Hwait). unfold do_run_export, export.
    rewrite !bind_assoc_at.
    destruct (connect R "POST" ("/scans/" +:+ format R sid +:+ "/export")
                (JObj [("history_id", hid); ("format", JStr "csv")])
                (extend s polls)) as [o2 s2] eqn:Hc.
    destruct (connect_events _ _ _ _ _ _ _ Hc) as (evs2 & -> & Hevs2 & _).
    change (request_for R (extend s polls) "POST"
              ("/scans/" +:+ format R sid +:+ "/export")
              (JObj [("history_id", hid); ("format", JStr "csv")]))
      with export_rq in Hevs2.
    assert (Hexport : exists r tail,
              evs2 = Http export_rq r :: tail /\ Forall no_history_id tail).
    { destruct Hevs2 as [->|[msg ->]]; eexists _, _; split; try done.
      by repeat constructor. }
    destruct Hexport as (r & tail & -> & Htail).
    destruct o2 as [data|e|].
    + rewrite (bind_ret _ _ _ _ _ Hc).
      match goal with
      | |- context [trace (?m ?st).2] =>
          assert (Hrest : emits no_history_id m);
            [|destruct (Hrest st _ _ (surjective_pairing _))
                as (rest & Htr & Hrest')]
      end.
      { repeat first
          [ apply emits_lift | apply emits_ret | apply unnamed_export_wait
          | apply unnamed_parse_csv_data
          | by unfold download; apply emits_connect
          | apply emits_bind; [|intros ?] ]. }
      exists polls, (Http export_rq r :: tail ++ rest). split_and!; try done.
      * rewrite Htr. simpl. by rewrite <- !app_assoc.
      * right. exists r, (tail ++ rest). split; [done|]. by apply Forall_app.
    + rewrite (bind_raise _ _ _ _ _ Hc). exists polls, (Http export_rq r :: tail).
      split_and!; try done; [by simpl; rewrite <- app_assoc|].
      right. by exists r, tail.
    + rewrite (bind_diverge _ _ _ _ Hc). exists polls, (Http export_rq r :: tail).
      split_and!; try done; [by simpl; rewrite <- app_assoc|].
      right. by exists r, tail.
  - rewrite (bind_raise _ _ _ _ _ Hwait). exists polls, [].
    split_and!; try done; [by rewrite app_nil_r|]. by left.
  - rewrite (bind_diverge _ _ _ _ Hwait). exists polls, [].
    split_and!; try done; [by rewrite app_nil_r|]. by left.
Qed.

(** C6.  The history id is resolved against the history listing the server
    has sent.  When the scan is launched with run uuid [U], the listing is a
    list of entries with a uuid and a history id, and an entry bears [U] (the
    last such entry, should several bear it), then the run goes on with the
    history id of that entry and no other: what follows the listing are
    polls of the status for this history id, one at least, and then, if the
    loop has ended, the request for the export of this history id, after
    which no request names a history.  When no entry bears [U] the run ends
    with a KeyError in the state the fetch of the listing left. *)
Theorem history_resolution fuel s0 token s1 policies s2 policy_id scan_data s3
    sid U s4 body s5 items k :
  login R s0 = (Ret token, s1) ->
  get_policies R s1 = (Ret policies, s2) ->
  dict_getitem policies (setting s2 "policy") = Ret policy_id ->
  add R (setting s2 "scan_name") (setting s2 "scan_description")
    (setting s2 "target") policy_id s2 = (Ret scan_data, s3) ->
  jget scan_data "id" = Ret sid ->
  launch R sid s3 = (Ret U, s4) ->
  to_key U = Some k ->
  connect R "GET" ("/scans/" +:+ format R sid) JNull s4
    = (Ret (VJson body), s5) ->
  jget body "history" = Ret (JArr items) ->
  Forall (entry_ok "uuid" "history_id") items ->
  (forall earlier entry later h,
     items = earlier ++ entry :: later ->
     has_key "uuid" k entry ->
     jget entry "history_id" = Ret h ->
     Forall (other_key "uuid" k) later ->
     let poll := request_for R s5 "GET" ("/scans/" +:+ format R sid)
                   (JObj [("history_id", h)]) in
     let export_rq := request_for R s5 "POST"
                        ("/scans/" +:+ format R sid +:+ "/export")
                        (JObj [("history_id", h); ("format", JStr "csv")]) in
     exists polls rest,
       trace (after (do_run R fuel) s0) = trace s5 ++ polls ++ rest /\
       Forall (poll_event poll) polls /\
       (fuel ≠ 0%nat -> exists r polls', polls = Http poll r :: polls') /\
       ((rest = [] /\ (do_run R fuel s0).1 ≠ Ret ()) \/
        exists r rest',
          rest = Http export_rq r :: rest' /\ Forall no_history_id rest')) /\
  (Forall (other_key "uuid" k) items ->
     do_run R fuel s0 = (Raise KeyError, s5)).
Proof.
  intros Hlogin Hpolicies Hpolicy Hadd Hid Hlaunch Hk Hconnect Hbody Hok.
  destruct (proj2 (dict_of_items_returns "uuid" "history_id" items ∅) Hok)
    as [hist Hdict].
  assert (Hrun : do_run R fuel s0 =
                 do_run_policy R fuel (setting s2 "scan_name")
                   (setting s2 "scan_description") (setting s2 "target")
                   policy_id s2).
  { rewrite (do_run_at_policy fuel _ _ _ _ _ Hlogin Hpolicies).
    apply bind_ret. by rewrite lift_eq, Hpolicy. }
  destruct (history_choice R fuel _ _ _ _ _ _ _ _ _ _ _ _ _ _ _
              Hadd Hid Hlaunch Hk Hconnect Hbody Hdict) as [Hsome Hnone].
  split.
  - intros earlier entry later h Hitems (u & Hu & Hku) Hh Hlater poll
      export_rq.
    unfold after. rewrite Hrun.
    rewrite (Hsome _ _ _ _ _ Hitems Hu Hku Hh Hlater).
    apply do_run_scan_shape.
  - intros Hothers. rewrite Hrun. by apply Hnone.
Qed.

End Resolution.

Lemma policy_resolution_witness :
  let R := Py.runtime e2e_script in
  let entry := JObj [("title", JStr "Basic Network Scan");
                     ("uuid", JStr "abc-123")] in
  (let s0 := Py.plugin e2e_cfg in
   let s1 := after (login R) s0 in
   let s2 := after (get_policies R) s1 in
   let rq := request_for R s2 "POST" "/scans"
               (JObj [("uuid", JStr "abc-123");
                      ("settings",
                       JObj [("name", setting s2 "scan_name");
                             ("description", setting s2 "scan_description");
                             ("text_targets", setting s2 "target")])]) in
   login R s0 = (Ret (JStr "tok"), s1) /\
   connect R "GET" "/editor/policy/templates" JNull s1
     = (Ret (VJson (JObj [("templates", JArr [entry])])), s2) /\
   to_key (setting s2 "policy") = Some (KStr "Basic Network Scan") /\
   (exists policies,
      get_policies R s1 = (Ret policies, s2) /\
      dict_getitem policies (setting s2 "policy") = Ret (JStr "abc-123")) /\
   exists evs,
     trace (after (do_run R 10) s0) =
       trace s2 ++ Http rq (server R (trace s2) rq) :: evs) /\
  (let s0 := Py.plugin [("policy", JStr "Advanced Scan")] in
   let s1 := after (login R) s0 in
   let s2 := after (get_policies R) s1 in
   to_key (setting s2 "policy") = Some (KStr "Advanced Scan") /\
   do_run R 10 s0 = (Raise KeyError, s2) /\
   length (requests (trace s2)) = 2%nat).
Proof.
  intros R entry.
  assert (Hok : Forall (entry_ok "title" "uuid") [entry]).
  { constructor; [|constructor].
    exists (JStr "Basic Network Scan"), (JStr "abc-123"),
      (KStr "Basic Network Scan").
    split_and!; reflexivity. }
  split.
  - intros s0 s1 s2 rq.
    assert (Hlogin : login R s0 = (Ret (JStr "tok"), s1))
      by (vm_compute; reflexivity).
    assert (Hconnect : connect R "GET" "/editor/policy/templates" JNull s1
                       = (Ret (VJson (JObj [("templates", JArr [entry])])), s2))
      by (vm_compute; reflexivity).
    assert (Hk : to_key (setting s2 "policy")
                 = Some (KStr "Basic Network Scan"))
      by (vm_compute; reflexivity).
    split_and!; try assumption;
      apply (proj1 (policy_resolution R 10 s0 _ s1 _ s2 [entry] _
                      Hlogin Hconnect eq_refl Hok Hk)
               [] entry [] (JStr "abc-123") eq_refl
               (ex_intro _ (JStr "Basic Network Scan") (conj eq_refl eq_refl))
               eq_refl (List.Forall_nil _)).
  - intros s0 s1 s2.
    assert (Hlogin : login R s0 = (Ret (JStr "tok"), s1))
      by (vm_compute; reflexivity).
    assert (Hconnect : connect R "GET" "/editor/policy/templates" JNull s1
                       = (Ret (VJson (JObj [("templates", JArr [entry])])), s2))
      by (vm_compute; reflexivity).
    assert (Hk : to_key (setting s2 "policy") = Some (KStr "Advanced Scan"))
      by (vm_compute; reflexivity).
    assert (Hnone : Forall (other_key "title" (KStr "Advanced Scan")) [entry]).
    { constructor; [|constructor]. intros t [= <-]. discriminate. }
    split_and!; [assumption| |vm_compute; reflexivity].
    exact (proj1 (proj2 (policy_resolution R 10 s0 _ s1 _ s2 [entry] _
                           Hlogin Hconnect eq_refl Hok Hk) Hnone)).
Defined.

Lemma history_resolution_witness :
  let s0 := Py.plugin e2e_cfg in
  (let R := Py.runtime e2e_script in
   let s1 := after (login R) s0 in
   let s2 := after (get_policies R) s1 in
   let s3 := after (add R (setting s2 "scan_name")
                      (setting s2 "scan_description") (setting s2 "target")
                      (JStr "abc-123")) s2 in
   let s4 := after (launch R (JNum 42)) s3 in
   let s5 := after (get_history_ids R (JNum 42)) s4 in
   let entry := JObj [("uuid", JStr "run-1"); ("history_id", JNum 7)] in
   let poll := request_for R s5 "GET" "/scans/42"
                 (JObj [("history_id", JNum 7)]) in
   let export_rq := request_for R s5 "POST" "/scans/42/export"
                      (JObj [("history_id", JNum 7); ("format", JStr "csv")]) in
   launch R (JNum 42) s3 = (Ret (JStr "run-1"), s4) /\
   connect R "GET" "/scans/42" JNull s4
     = (Ret (VJson (JObj [("history", JArr [entry])])), s5) /\
   exists polls rest,
     trace (after (do_run R 10) s0) = trace s5 ++ polls ++ rest /\
     Forall (poll_event poll) polls /\
     (10%nat ≠ 0%nat -> exists r polls', polls = Http poll r :: polls') /\
     ((rest = [] /\ (do_run R 10 s0).1 ≠ Ret ()) \/
      exists r rest',
        rest = Http export_rq r :: rest' /\ Forall no_history_id rest')) /\
  (let R := Py.runtime lost_run_script in
   let s1 := after (login R) s0 in
   let s2 := after (get_policies R) s1 in
   let s3 := after (add R (setting s2 "scan_name")
                      (setting s2 "scan_description") (setting s2 "target")
                      (JStr "abc-123")) s2 in
   let s4 := after (launch R (JNum 42)) s3 in
   let s5 := after (get_history_ids R (JNum 42)) s4 in
   let entry := JObj [("uuid", JStr "run-0"); ("history_id", JNum 6)] in
   launch R (JNum 42) s3 = (Ret (JStr "run-1"), s4) /\
   connect R "GET" "/scans/42" JNull s4
     = (Ret (VJson (JObj [("history", JArr [entry])])), s5) /\
   do_run R 10 s0 = (Raise KeyError, s5)).
Proof.
  intros s0. split.
  - intros R s1 s2 s3 s4 s5 entry poll export_rq.
    assert (Hlogin : login R s0 = (Ret (JStr "tok"), s1))
      by (vm_compute; reflexivity).
    destruct (returns_eq (get_policies R) s1) as [policies Hpolicies];
      [vm_compute; reflexivity|].
    assert (Hpolicy : dict_getitem policies (setting s2 "policy")
                      = Ret (JStr "abc-123")).
    { assert (H : match (get_policies R s1).1 with
                  | Ret p => dict_getitem p (setting s2 "policy")
                             = Ret (JStr "abc-123")
                  | _ => False
                  end) by (vm_compute; reflexivity).
      by rewrite Hpolicies in H. }
    assert (Hadd : add R (setting s2 "scan_name")
                     (setting s2 "scan_description") (setting s2 "target")
                     (JStr "abc-123") s2
                   = (Ret (JObj [("id", JNum 42)]), s3))
      by (vm_compute; reflexivity).
    assert (Hlaunch : launch R (JNum 42) s3 = (Ret (JStr "run-1"), s4))
      by (vm_compute; reflexivity).
    assert (Hconnect : connect R "GET" ("/scans/" +:+ format R (JNum 42))
                         JNull s4
                       = (Ret (VJson (JObj [("history", JArr [entry])])), s5))
      by (vm_compute; reflexivity).
    assert (Hok : Forall (entry_ok "uuid" "history_id") [entry]).
    { constructor; [|constructor].
      exists (JStr "run-1"), (JNum 7), (KStr "run-1").
      split_and!; reflexivity. }
    split_and!; try assumption.
    exact (proj1 (history_resolution R 10 s0 _ s1 policies s2 _ _ s3 (JNum 42)
                    (JStr "run-1") s4 _ s5 [entry] (KStr "run-1")
                    Hlogin Hpolicies Hpolicy Hadd eq_refl Hlaunch eq_refl
                    Hconnect eq_refl Hok)
             [] entry [] (JNum 7) eq_refl
             (ex_intro _ (JStr "run-1") (conj eq_refl eq_refl))
             eq_refl (List.Forall_nil _)).
  - intros R s1 s2 s3 s4 s5 entry.
    assert (Hlogin : login R s0 = (Ret (JStr "tok"), s1))
      by (vm_compute; reflexivity).
    destruct (returns_eq (get_policies R) s1) as [policies Hpolicies];
      [vm_compute; reflexivity|].
    assert (Hpolicy : dict_getitem policies (setting s2 "policy")
                      = Ret (JStr "abc-123")).
    { assert (H : match (get_policies R s1).1 with
                  | Ret p => dict_getitem p (setting s2 "policy")
                             = Ret (JStr "abc-123")
                  | _ => False
                  end) by (vm_compute; reflexivity).
      by rewrite Hpolicies in H. }
    assert (Hadd : add R (setting s2 "scan_name")
                     (setting s2 "scan_description") (setting s2 "target")
                     (JStr "abc-123") s2
                   = (Ret (JObj [("id", JNum 42)]), s3))
      by (vm_compute; reflexivity).
    assert (Hlaunch : launch R (JNum 42) s3 = (Ret (JStr "run-1"), s4))
      by (vm_compute; reflexivity).
    assert (Hconnect : connect R "GET" ("/scans/" +:+ format R (JNum 42))
                         JNull s4
                       = (Ret (VJson (JObj [("history", JArr [entry])])), s5))
      by (vm_compute; reflexivity).
    assert (Hok : Forall (entry_ok "uuid" "history_id") [entry]).
    { constructor; [|constructor].
      exists (JStr "run-0"), (JNum 6), (KStr "run-0").
      split_and!; reflexivity. }
    assert (Hnone : Forall (other_key "uuid" (KStr "run-1")) [entry]).
    { constructor; [|constructor]. intros t [= <-]. discriminate. }
    split_and!; try assumption.
    exact (proj2 (history_resolution R 10 s0 _ s1 policies s2 _ _ s3 (JNum 42)
                    (JStr "run-1") s4 _ s5 [entry] (KStr "run-1")
                    Hlogin Hpolicies Hpolicy Hadd eq_refl Hlaunch eq_refl
                    Hconnect eq_refl Hok) Hnone).
Defined.

(** ** The cache and the reports of a pass *)

Section Cache.

Context (R : Runtime).

(** What the cache holds at the end of a pass was there at its start or is
    the decoded answer to a request of the pass. *)
Lemma parse_rows_fetched rows : forall plugins s plugins' s',
  parse_rows R rows plugins s = (Ret plugins', s') ->
  exists evs,
    s' = extend s evs /\
    forall id plugin_info, plugins' !! id = Some plugin_info ->
      plugins !! id = Some plugin_info \/
      exists r j,
        Http (fetch_for R s id) r ∈ evs /\ json_body r = Some j /\
        plugin_info = VJson j.
Proof.
  induction rows as [|row rest IH]; intros plugins s plugins' s'.
  { intros [= <- <-]. exists []. rewrite extend_nil. split; [done|].
    intros id plugin_info H. by left. }
  rewrite parse_rows_cons.
  destruct (row !! 0%nat) as [r0|] eqn:Hr0; [|done].
  destruct (decide (r0 = "Plugin ID")) as [->|Hdata]; [apply IH|].
  destruct (plugins !! r0) as [cached|] eqn:Hcached.
  - destruct (create_issue row cached) as [issue| |] eqn:Hissue; try done.
    intros H. apply IH in H as (evs & -> & Hevs).
    exists (ReportIssue issue :: evs). split.
    { unfold record. by rewrite extend_extend. }
    intros id plugin_info H. destruct (Hevs _ _ H) as [?|(r & j & Hin & ?)];
      [by left|right].
    exists r, j. split; [|done]. by apply list_elem_of_further.
  - destruct (get_plugin_info R (JStr r0) s) as [[fetched| |] s1]
      eqn:Hfetch; try done.
    unfold get_plugin_info in Hfetch.
    destruct (connect_events _ _ _ _ _ _ _ Hfetch)
      as (evs1 & -> & Hevs1 & _ & Hjson).
    change (request_for R s "GET" ("/plugins/plugin/" +:+ format R (JStr r0))
              JNull) with (fetch_for R s r0) in *.
    destruct (create_issue row fetched) as [issue| |] eqn:Hissue; try done.
    assert (Hdecoded : exists j, fetched = VJson j).
    { destruct (create_issue_inv _ _ _ Hissue) as (name & ? & ? & ? & ? & ?
        & ? & ? & Hname & _).
      destruct fetched as [raw|j]; [done|]. by exists j. }
    destruct Hdecoded as [j ->]. specialize (Hjson j eq_refl).
    intros H. apply IH in H as (evs & -> & Hevs).
    exists (evs1 ++ ReportIssue issue :: evs). split.
    { unfold record. by rewrite !extend_extend. }
    intros id plugin_info H.
    destruct (Hevs _ _ H) as [Hold|(r & j' & Hin & ?)].
    + destruct (decide (id = r0)) as [->|Hne].
      * rewrite lookup_insert_eq in Hold. injection Hold as <-. right.
        eexists _, j. split_and!; try done. apply elem_of_app. left.
        destruct Hevs1 as [->|[msg ->]]; apply list_elem_of_here.
      * rewrite lookup_insert_ne in Hold by done. by left.
    + right. exists r, j'. split; [|done].
      apply elem_of_app. right. by apply list_elem_of_further.
Qed.

(** X18.  The issues of a pass that returns are all built with the metadata
    of one cache, and what the cache holds for a plugin id is the decoded
    answer the server gave to the request of the pass for that id.  No
    request is sent twice, so that the rows of a plugin share the one answer
    fetched for it, whatever the server would answer to a second request. *)
Theorem pass_uses_one_cache data s v s' :
  parse_csv_data R data s = (Ret v, s') ->
  exists lines yielded cache evs issues,
    lines_of R data = Ret lines /\
    csv_reader R lines = (yielded, None) /\
    s' = extend s evs /\
    reported evs = (ReportIssue <$> issues) ++ [ReportFinish] /\
    Forall2 (built_with cache) (data_rows yielded) issues /\
    NoDup (requests evs) /\
    forall id plugin_info, cache !! id = Some plugin_info ->
      exists r j,
        Http (fetch_for R s id) r ∈ evs /\ json_body r = Some j /\
        plugin_info = VJson j.
Proof.
  intros Hrun.
  destruct (parse_csv_data_spec _ _ _ _ _ Hrun)
    as (evs0 & ids & issues0 & Hs0 & Hrequests & Hnodup & _).
  revert Hrun. rewrite parse_csv_data_unfold.
  destruct (lines_of R data) as [lines| |] eqn:Hlines; try done.
  destruct (csv_reader R lines) as [yielded failure] eqn:Hreader. simpl.
  destruct (parse_rows R yielded ∅ s) as [[cache| |] s1] eqn:Hrows; try done.
  destruct failure as [e|]; [done|]. intros [= <- <-].
  destruct (parse_rows_cache _ _ _ _ _ _ Hrows)
    as (_ & evs & issues & -> & Hrep & Hbuilt).
  destruct (parse_rows_fetched _ _ _ _ _ Hrows) as (evs' & Hs' & Hfetched).
  apply extend_inj in Hs' as <-.
  assert (evs0 = evs ++ [ReportFinish]) as ->.
  { apply (extend_inj s). rewrite <- Hs0. unfold record.
    by rewrite extend_extend. }
  exists lines, yielded, cache, (evs ++ [ReportFinish]), issues.
  split; [done|]. split; [done|].
  split; [by unfold record; rewrite extend_extend|].
  split; [by rewrite reported_app, Hrep|]. split; [done|]. split.
  - rewrite Hrequests. apply NoDup_fmap_2; [apply fetch_for_inj|done].
  - intros id plugin_info H.
    destruct (Hfetched _ _ H) as [Hempty|(r & j & Hin & Hj)].
    + by rewrite lookup_empty in Hempty.
    + exists r, j. split; [|done]. apply elem_of_app. by left.
Qed.

Lemma silent_reports evs : Forall no_report evs -> reported evs = [].
Proof. induction 1 as [|e evs He _ IH]; [done|]. by destruct e. Qed.

Lemma finishes_bind {A B} (m : M A) (k : A -> M B) :
  emits no_report m -> (forall a, finishes R (k a)) -> finishes R (m ≫= k).
Proof.
  intros Hm Hk s o s' H.
  apply bind_inv in H as [(a & s1 & H1 & H2)|[(e & H1 & ->)|[H1 ->]]].
  - destruct (Hm _ _ _ H1) as (evs1 & Ht1 & Hevs1).
    destruct (Hk a _ _ _ H2)
      as (before & pass & issues & Ht2 & Hbefore & Hrep & Hpass).
    exists (evs1 ++ before), pass, issues. split_and!; try done.
    + by rewrite Ht2, Ht1, <- !app_assoc.
    + by apply Forall_app.
    + destruct Hpass as [?|(sid & fid & s2 & data & s3 & o' & Hd & Ht3 & Hp)];
        [by left|right].
      exists sid, fid, s2, data, s3, o'. split_and!; try done.
      by rewrite Ht3, Ht1, <- app_assoc.
  - destruct (Hm _ _ _ H1) as (evs1 & Ht1 & Hevs1).
    exists evs1, [], []. rewrite app_nil_r. split_and!; try done. by left.
  - destruct (Hm _ _ _ H1) as (evs1 & Ht1 & Hevs1).
    exists evs1, [], []. rewrite app_nil_r. split_and!; try done. by left.
Qed.

Lemma finishes_download_parse sid fid :
  finishes R (data ← download R sid fid; _ ← parse_csv_data R data; mret ()).
Proof.
  assert (Hdownload : emits no_report (download R sid fid)).
  { apply keeps_emits. intros t. by apply keeps_download. }
  intros s o s' H.
  apply bind_inv in H as [(data & s2 & Hd & H)|[(e & Hd & ->)|[Hd ->]]];
    destruct (Hdownload _ _ _ Hd) as (before & Ht & Hbefore);
    [|exists before, [], []; rewrite app_nil_r; split_and!; try done;
      by left..].
  assert (Hpass : exists o', parse_csv_data R data s2 = (o', s') /\
                    match o' with
                    | Ret _ => o = Ret ()
                    | Raise e => o = Raise e
                    | Diverge => o = Diverge
                    end).
  { apply bind_inv in H as [(a & s3 & Hp & H)|[(e & Hp & ->)|[Hp ->]]].
    - injection H as <- <-. by exists (Ret a).
    - by exists (Raise e).
    - by exists Diverge. }
  destruct Hpass as (o' & Hp & Ho).
  destruct (parse_csv_data_spec _ _ _ _ _ Hp)
    as (pass & ids & issues & Hs' & _ & _ & Hrep).
  exists before, pass, issues. split_and!; try done.
  - rewrite Hs'. simpl. by rewrite Ht, <- app_assoc.
  - destruct o' as [a|e|]; subst o.
    + by destruct Hrep as (_ & lines & yielded & _ & _ & Hrep & _).
    + by rewrite app_nil_r.
    + by rewrite app_nil_r.
  - right. by exists sid, fid, s, data, s2, o'.
Qed.

(** X23.  The reports of a run are those of the one pass of [parse_csv_data]
    over the data [download] has returned, which is the last stage: the
    events of [do_run] are those before that pass, none of which is a
    report, and those of the pass, and the run is reported as finished
    exactly when [do_run] returns, after the issues.  A run that ends in an
    exception has reported no finish, and a run that ends before the
    download has returned has reported nothing. *)
Theorem finished_iff_returned fuel s :
  exists before pass issues,
    trace (after (do_run R fuel) s) = trace s ++ before ++ pass /\
    Forall no_report before /\
    reported pass =
      (ReportIssue <$> issues) ++
      match (do_run R fuel s).1 with
      | Ret _ => [ReportFinish]
      | _ => []
      end /\
    ((pass = [] /\ forall v, (do_run R fuel s).1 ≠ Ret v) \/
     exists sid fid s1 data s2 o',
       download R sid fid s1 = (Ret data, s2) /\
       trace s2 = trace s ++ before /\
       parse_csv_data R data s2 = (o', after (do_run R fuel) s)).
Proof.
  assert (Hsilent : forall A (m : M A),
            (forall t, keeps t no_report m) -> emits no_report m).
  { intros A m. apply keeps_emits. }
  assert (Hrun : finishes R (do_run R fuel)).
  { unfold do_run. apply finishes_bind.
    { unfold login. apply emits_bind; [apply emits_get_self|intros self].
      apply emits_bind; [by apply emits_connect|intros data].
      apply emits_bind; [apply emits_lift|intros token].
      apply emits_bind; [apply emits_put_token|intros _]. apply emits_lift. }
    intros _. apply finishes_bind.
    { apply Hsilent. intros t. by apply keeps_get_policies. }
    intros policies.
    do 4 (apply finishes_bind; [apply emits_config_get|intros ?]).
    apply finishes_bind; [apply emits_lift|intros policy_id].
    apply finishes_bind.
    { apply Hsilent. intros t. by apply keeps_add. }
    intros scan_data.
    apply finishes_bind; [apply emits_lift|intros scan_id].
    apply finishes_bind.
    { apply Hsilent. intros t. by apply keeps_launch. }
    intros scan_uuid. apply finishes_bind.
    { apply Hsilent. intros t. by apply keeps_get_history_ids. }
    intros history_ids.
    apply finishes_bind; [apply emits_lift|intros history_id].
    apply finishes_bind.
    { apply Hsilent. intros t. by apply keeps_status_wait. }
    intros _. apply finishes_bind.
    { apply Hsilent. intros t. by apply keeps_export. }
    intros file_id. apply finishes_download_parse. }
  apply Hrun, surjective_pairing.
Qed.

End Cache.

Lemma pass_uses_one_cache_witness :
  let R := renaming_server in
  let s := Py.plugin [] in
  let data := VRaw two_hosts in
  (parse_csv_data R data s).1 = Ret [] /\
  exists lines yielded cache evs issues,
    lines_of R data = Ret lines /\
    csv_reader R lines = (yielded, None) /\
    after (parse_csv_data R data) s = extend s evs /\
    reported evs = (ReportIssue <$> issues) ++ [ReportFinish] /\
    Forall2 (built_with cache) (data_rows yielded) issues /\
    NoDup (requests evs) /\
    forall id plugin_info, cache !! id = Some plugin_info ->
      exists r j,
        Http (fetch_for R s id) r ∈ evs /\ json_body r = Some j /\
        plugin_info = VJson j.
Proof.
  intros R s data.
  destruct (returns_eq (parse_csv_data R data) s) as [v Hrun];
    [vm_compute; reflexivity|].
  split; [vm_compute; reflexivity|].
  exact (pass_uses_one_cache R data s v _ Hrun).
Defined.

(** Two rows of one plugin on a server that would rename the plugin in a
    second answer: both issues bear the first name. *)
Example renamed_plugin_keeps_first_name :
  Description <$>
    omap (fun e => match e with ReportIssue i => Some i | _ => None end)
      (trace (after (parse_csv_data renaming_server (VRaw two_hosts))
                (Py.plugin [])))
    = ["Kerberos syn descr sol out"; "Kerberos syn descr sol out"].
Proof. vm_compute. reflexivity. Qed.
